(** * The trend-scoring engine of maverick_mcp/tools/trend_scorer.py

    A shallow embedding of [SP500TrendScorer]: the five indicator scorers,
    the score aggregation, single-ticker scoring and batch ranking.

    Python [float] is IEEE binary64, modelled by Rocq's primitive [float];
    Python [int] is [Z].  The numerical libraries the scorers call (pandas,
    ta, numpy) and the data provider are not part of the repository: they
    are taken as interfaces ([NumLib], [World]) and every theorem holds for
    each of their implementations. *)

From Stdlib Require Import ZArith List String Ascii Bool Lia Floats DecimalString.
From Stdlib Require Import Sorting.Sorted Sorting.Permutation.
Import ListNotations.

Set Warnings "-inexact-float".

Local Open Scope Z_scope.

(* ===================================================================== *)
(** * Python floats *)
(* ===================================================================== *)

Module PyFloat.

(** [float(z)]: the binary64 value nearest to the integer [z] (ties to
    even), which is how Python converts an [int] operand of a mixed
    [int]/[float] operation.  (Python raises [OverflowError] from
    2^1024 on; no score sum comes near.) *)
Definition of_int (z : Z) : float :=
  SF2Prim (binary_normalize prec emax z 0 false).

(** [x > y] on floats is [y < x]. *)
Definition gtb (x y : float) : bool := PrimFloat.ltb y x.

(** [np.isnan] / [Series.isna] on one value. *)
Definition isna (x : float) : bool := PrimFloat.is_nan x.

(** Builtin [min(a, b)] on two arguments: the first one unless the
    second is strictly smaller. *)
Definition py_min (a b : float) : float :=
  if PrimFloat.ltb b a then b else a.

(** Builtin [max(a, b)] on two arguments: the first one unless the
    second is strictly greater. *)
Definition py_max (a b : float) : float :=
  if PrimFloat.ltb a b then b else a.

(** Integer nearest to [n / d] for [d > 0], ties to the even one. *)
Definition div_half_even (n d : Z) : Z :=
  let q := n / d in
  let r := n mod d in
  match Z.compare (2 * r) d with
  | Lt => q
  | Gt => q + 1
  | Eq => if Z.even q then q else q + 1
  end.

(** Builtin [round(x, ndigits)] for a float [x] and [0 <= ndigits]:
    CPython prints the exact binary value of [x] correctly rounded
    (ties to even) to [ndigits] decimals and reads that decimal string
    back, so the result is the binary64 nearest to [n / 10^ndigits]
    where [n] is the integer nearest to [|x| * 10^ndigits].  Both [n]
    and [10^ndigits] are exact as floats here, and IEEE division is
    correctly rounded, so the last step is a float division. *)
Definition py_round (x : float) (ndigits : Z) : float :=
  match Prim2SF x with
  | S754_finite s m e =>
      let p := 10 ^ ndigits in
      let n := if 0 <=? e
               then Zpos m * 2 ^ e * p
               else div_half_even (Zpos m * p) (2 ^ (- e)) in
      let r := PrimFloat.div (of_int n) (of_int p) in
      if s then PrimFloat.opp r else r
  | _ => x
  end.

End PyFloat.

Import PyFloat.

Local Open Scope float_scope.

(* ===================================================================== *)
(** * Score aggregation (calculate_trend_score, after the five scorers) *)
(* ===================================================================== *)

(** [self.weight = 2.1 / 9]. *)
Definition weight : float := 2.1 / 9.

(** [(ma_score + macd_score + adx_score + rsi_score + obv_score) * self.weight] *)
Definition weighted_raw (ma macd adx rsi obv : Z) : float :=
  of_int (ma + macd + adx + rsi + obv)%Z * weight.

(** [(weighted_raw_score + 2.1) / 4.2 * 100], then
    [max(0, min(100, normalized_score))]. *)
Definition normalized (weighted_raw_score : float) : float :=
  let n := (weighted_raw_score + 2.1) / 4.2 * 100 in
  py_max 0 (py_min 100 n).

(* ===================================================================== *)
(** * Exceptions *)
(* ===================================================================== *)

(** The Python exceptions that the modelled code can meet. *)
Inductive exn : Type :=
| KeyError (key : string)      (* a DataFrame without the column asked for *)
| IndexError                   (* [iloc] outside the series *)
| ValueError                   (* a call refusing its argument: a library call,
                                  [strptime] on other text, [NaT.strftime] *)
| OverflowError                (* a date before 0001-01-01 *)
| LibraryError (what : string) (* anything else raised inside pandas, ta or numpy *).

(** A computation that returns a value or raises. *)
Inductive res (A : Type) : Type :=
| Ok (a : A)
| Raise (e : exn).
Arguments Ok {A} a.
Arguments Raise {A} e.

Definition bind {A B : Type} (c : res A) (k : A -> res B) : res B :=
  match c with
  | Ok a => k a
  | Raise e => Raise e
  end.

Notation "x <- c ;; k" := (bind c (fun x => k))
  (at level 61, c at next level, right associativity).

(** [try: body  except Exception as e: handler]. *)
Definition try_except {A : Type} (body : res A) (handler : exn -> res A) : res A :=
  match body with
  | Ok a => Ok a
  | Raise e => handler e
  end.

Definition raises {A : Type} (c : res A) : Prop := exists e, c = Raise e.

(* ===================================================================== *)
(** * Series and data frames *)
(* ===================================================================== *)

(** A pandas Series of float64, oldest value first. *)
Definition Series : Type := list float.

(** An entry of a DatetimeIndex: a date, held as the text that
    [strftime('%Y-%m-%d')] prints for it, or pandas' NaT ("not a time"),
    which [pd.to_datetime] gives for a null value. *)
Inductive Timestamp : Type :=
| Date (printed : string)
| NaT.

(** [ts.strftime('%Y-%m-%d')]: NaT has no such text and raises ValueError. *)
Definition strftime (ts : Timestamp) : res string :=
  match ts with
  | Date printed => Ok printed
  | NaT => Raise ValueError
  end.

(** A pandas DataFrame: the date index and the float columns under their
    labels.  The type, like [pd.DataFrame], promises no column and no
    date: a column may be missing, an index entry may be NaT. *)
Record DataFrame : Type := mkDataFrame {
  df_index : list Timestamp;
  df_columns : list (string * Series)
}.

(** [len(data)]: the number of rows. *)
Definition len (data : DataFrame) : Z := Z.of_nat (List.length (df_index data)).

(** [len(series)]. *)
Definition slen {A : Type} (s : list A) : Z := Z.of_nat (List.length s).

Fixpoint lookup_column (name : string) (cols : list (string * Series)) : option Series :=
  match cols with
  | [] => None
  | (n, s) :: rest => if String.eqb n name then Some s else lookup_column name rest
  end.

(** [data[name]]: the column, or [KeyError]. *)
Definition getitem (data : DataFrame) (name : string) : res Series :=
  match lookup_column name (df_columns data) with
  | Some s => Ok s
  | None => Raise (KeyError name)
  end.

(** [series.iloc[i]] with Python's negative indices; [IndexError] outside. *)
Definition iloc {A : Type} (s : list A) (i : Z) : res A :=
  let j := (if i <? 0 then i + slen s else i)%Z in
  if ((j <? 0) || (slen s <=? j))%Z then Raise IndexError
  else match nth_error s (Z.to_nat j) with
       | Some x => Ok x
       | None => Raise IndexError
       end.

(** [series.iloc[-n:]]: the last [n] values (all of them when there are fewer). *)
Definition iloc_last (n : nat) (s : Series) : Series :=
  skipn (List.length s - n) s.

(** [series.isna()]. *)
Definition isna_series (s : Series) : list bool := map isna s.

(* ===================================================================== *)
(** * The numerical libraries *)
(* ===================================================================== *)

(** What the scorers ask of pandas, ta and numpy.  Each call may raise.
    The one law is pandas': a rolling mean over a window of at least one
    bar returns a series as long as its input. *)
Record NumLib : Type := mkNumLib {
  (* series.rolling(window=w).mean() *)
  rolling_mean : Z -> Series -> res Series;
  (* ta.trend.MACD(close).macd() and .macd_signal() *)
  ta_macd : Series -> res Series;
  ta_macd_signal : Series -> res Series;
  (* ta.trend.ADXIndicator(high, low, close, window).adx(), .adx_pos(), .adx_neg() *)
  ta_adx : Series -> Series -> Series -> Z -> res Series;
  ta_adx_pos : Series -> Series -> Series -> Z -> res Series;
  ta_adx_neg : Series -> Series -> Series -> Z -> res Series;
  (* ta.momentum.RSIIndicator(close, window).rsi() *)
  ta_rsi : Series -> Z -> res Series;
  (* ta.volume.OnBalanceVolumeIndicator(close, volume).on_balance_volume() *)
  ta_obv : Series -> Series -> res Series;
  (* np.polyfit(range(len(y)), y, 1)[0] *)
  polyfit_slope : Series -> res float;
  rolling_mean_length :
    forall (w : Z) (s : Series), (1 <= w)%Z ->
      exists r, rolling_mean w s = Ok r /\ List.length r = List.length s
}.

(* ===================================================================== *)
(** * The five indicator scorers *)
(* ===================================================================== *)

Section Scorers.

Variable lib : NumLib.

(** The scoring ladder of [calculate_ma_score] on the three latest values. *)
Definition ma_ladder (latest_price latest_short latest_long : float) : Z :=
  if gtb latest_price latest_short && gtb latest_short latest_long then
    if gtb ((latest_short - latest_long) / latest_long) 0.05 then 3
    else if gtb ((latest_short - latest_long) / latest_long) 0.02 then 2
    else 1
  else if gtb latest_price latest_short then 1
  else if PrimFloat.ltb latest_price latest_short
          && PrimFloat.ltb latest_short latest_long then
    if gtb ((latest_long - latest_short) / latest_long) 0.05 then -3
    else if gtb ((latest_long - latest_short) / latest_long) 0.02 then -2
    else -1
  else if PrimFloat.ltb latest_price latest_short then -1
  else 0.

(** [calculate_ma_score(data, short_period=20, long_period=50)].
    There is no [try] here: what the body raises reaches the caller. *)
Definition calculate_ma_score (data : DataFrame) (short_period long_period : Z) : res Z :=
  if (len data <? long_period)%Z then Ok 0%Z
  else
    close <- getitem data "Close" ;;
    short_ma <- rolling_mean lib short_period close ;;
    close' <- getitem data "Close" ;;
    long_ma <- rolling_mean lib long_period close' ;;
    latest_short <- iloc short_ma (-1) ;;
    latest_long <- iloc long_ma (-1) ;;
    close'' <- getitem data "Close" ;;
    latest_price <- iloc close'' (-1) ;;
    Ok (ma_ladder latest_price latest_short latest_long).

(** The scoring ladder of [calculate_macd_score]. *)
Definition macd_ladder (latest_macd latest_signal prev_macd : float) : Z :=
  if gtb latest_macd latest_signal then
    if gtb latest_macd 0 && gtb (latest_macd - prev_macd) 0 then 2 else 1
  else if PrimFloat.ltb latest_macd latest_signal then
    if PrimFloat.ltb latest_macd 0 && PrimFloat.ltb (latest_macd - prev_macd) 0
    then -2 else -1
  else 0.

(** [calculate_macd_score(data)]. *)
Definition calculate_macd_score (data : DataFrame) : res Z :=
  if (len data <? 34)%Z then Ok 0%Z
  else
    try_except
      (close <- getitem data "Close" ;;
       macd_line <- ta_macd lib close ;;
       close' <- getitem data "Close" ;;
       macd_signal <- ta_macd_signal lib close' ;;
       line_na <- iloc (isna_series macd_line) (-1) ;;
       any_na <- (if line_na : bool then Ok true
                  else iloc (isna_series macd_signal) (-1)) ;;
       if any_na : bool then Ok 0%Z
       else
         latest_macd <- iloc macd_line (-1) ;;
         latest_signal <- iloc macd_signal (-1) ;;
         prev_macd <- (if (1 <? slen macd_line)%Z then iloc macd_line (-2)
                       else Ok latest_macd) ;;
         prev_signal <- (if (1 <? slen macd_signal)%Z then iloc macd_signal (-2)
                         else Ok latest_signal) ;;
         Ok (macd_ladder latest_macd latest_signal prev_macd))
      (fun _ => Ok 0%Z).

(** The scoring ladder of [calculate_adx_score]. *)
Definition adx_ladder (latest_adx latest_plus_di latest_minus_di : float) : Z :=
  if gtb latest_adx 30 then
    if gtb latest_plus_di latest_minus_di then 2 else -2
  else if gtb latest_adx 20 then
    if gtb latest_plus_di latest_minus_di then 1 else -1
  else 0.

(** [calculate_adx_score(data, period=14)]. *)
Definition calculate_adx_score (data : DataFrame) (period : Z) : res Z :=
  if (len data <? period + 14)%Z then Ok 0%Z
  else
    try_except
      (high <- getitem data "High" ;;
       low <- getitem data "Low" ;;
       close <- getitem data "Close" ;;
       adx <- ta_adx lib high low close period ;;
       plus_di <- ta_adx_pos lib high low close period ;;
       minus_di <- ta_adx_neg lib high low close period ;;
       adx_na <- iloc (isna_series adx) (-1) ;;
       plus_na <- (if adx_na : bool then Ok true
                   else iloc (isna_series plus_di) (-1)) ;;
       any_na <- (if plus_na : bool then Ok true
                  else iloc (isna_series minus_di) (-1)) ;;
       if any_na : bool then Ok 0%Z
       else
         latest_adx <- iloc adx (-1) ;;
         latest_plus_di <- iloc plus_di (-1) ;;
         latest_minus_di <- iloc minus_di (-1) ;;
         Ok (adx_ladder latest_adx latest_plus_di latest_minus_di))
      (fun _ => Ok 0%Z).

(** The scoring ladder of [calculate_rsi_score]. *)
Definition rsi_ladder (latest_rsi : float) : Z :=
  if gtb latest_rsi 70 then -1
  else if gtb latest_rsi 60 then 1
  else if PrimFloat.ltb latest_rsi 30 then 1
  else if PrimFloat.ltb latest_rsi 40 then -1
  else 0.

(** [calculate_rsi_score(data, period=14)]. *)
Definition calculate_rsi_score (data : DataFrame) (period : Z) : res Z :=
  if (len data <? period)%Z then Ok 0%Z
  else
    try_except
      (close <- getitem data "Close" ;;
       rsi <- ta_rsi lib close period ;;
       rsi_na <- iloc (isna_series rsi) (-1) ;;
       if rsi_na : bool then Ok 0%Z
       else
         latest_rsi <- iloc rsi (-1) ;;
         Ok (rsi_ladder latest_rsi))
      (fun _ => Ok 0%Z).

(** The scoring ladder of [calculate_obv_score] on the fitted slope. *)
Definition obv_ladder (obv_trend : float) : Z :=
  if gtb obv_trend 0 then 1
  else if PrimFloat.ltb obv_trend 0 then -1
  else 0.

(** [calculate_obv_score(data)]. *)
Definition calculate_obv_score (data : DataFrame) : res Z :=
  if (len data <? 10)%Z then Ok 0%Z
  else
    try_except
      (close <- getitem data "Close" ;;
       volume <- getitem data "Volume" ;;
       obv <- ta_obv lib close volume ;;
       if (slen obv <? 5)%Z then Ok 0%Z
       else
         let recent_obv := iloc_last 5 obv in
         obv_trend <- polyfit_slope lib recent_obv ;;
         Ok (obv_ladder obv_trend))
      (fun _ => Ok 0%Z).

End Scorers.

(* ===================================================================== *)
(** * Results *)
(* ===================================================================== *)

(** [TrendScoreResult]. *)
Record TrendScoreResult : Type := mkTrendScoreResult {
  ticker : string;
  latest_date : string;
  normalized_trend_score : float;
  weighted_raw_score : float;
  ma_score : Z;
  macd_score : Z;
  adx_score : Z;
  rsi_score : Z;
  obv_score : Z
}.

(** The tail of [calculate_trend_score]: the weighted sum, its 0-100
    rescaling, and the two roundings made when the result is built. *)
Definition build_result (tk date : string) (ma macd adx rsi obv : Z) : TrendScoreResult :=
  let weighted_raw_score' := weighted_raw ma macd adx rsi obv in
  let normalized_score := normalized weighted_raw_score' in
  {| ticker := tk;
     latest_date := date;
     normalized_trend_score := py_round normalized_score 2;
     weighted_raw_score := py_round weighted_raw_score' 3;
     ma_score := ma;
     macd_score := macd;
     adx_score := adx;
     rsi_score := rsi;
     obv_score := obv |}.

(* ===================================================================== *)
(** * The outside world: configuration, clock, data provider, pandas *)
(* ===================================================================== *)

(** A value of a row of the provider's answer. *)
Inductive cell : Type :=
| CellNull
| CellNumber (x : float)
| CellText (s : string).

(** A row of the provider's answer: a JSON object, key by key. *)
Definition Row : Type := list (string * cell).

(** What a scoring call reads from its environment and asks of the
    standard library and of pandas.  A [datetime] at midnight is a day
    number, counted from 1970-01-01 (day 0). *)
Record World : Type := mkWorld {
  (* os.environ.get("POLYGON_API_KEY") *)
  api_key : option string;
  (* datetime.utcnow(), as a day *)
  utc_today : Z;
  (* datetime.strptime(s, "%Y-%m-%d"), as a day; ValueError on other text *)
  strptime : string -> res Z;
  (* d.strftime("%Y-%m-%d") of a day; how a year below 1000 prints is the
     C library's choice, and [strptime] need not read it back *)
  strftime_day : Z -> string;
  (* GET /v2/aggs/ticker/{tk}/prev, up to utcfromtimestamp(ts / 1000): the
     day of results[0]["t"] when that is there and true; raises when the
     request, the payload or the conversion does *)
  polygon_prev : string -> res (option Z);
  (* GET /v2/aggs/ticker/{tk}/range/1/day/{start}/{end}, up to
     js.get("results", []): the rows; raises on a transport fault, a bad
     status or a body that is not JSON *)
  polygon_range : string -> Z -> Z -> res (list Row);
  (* pd.DataFrame(results), the "date" column from pd.to_datetime of "t",
     the renaming of o, h, l, c, v, set_index("date"), the selection of
     the five columns and astype(float): the frame, or what pandas raises
     on the way *)
  frame_of_results : list Row -> res DataFrame
}.

(** The day of [datetime.min], 0001-01-01. *)
Definition datetime_min : Z := -719162.

(** [end - timedelta(days=days)]: OverflowError below [datetime.min]. *)
Definition minus_days (end_day days : Z) : res Z :=
  if (end_day - days <? datetime_min)%Z then Raise OverflowError
  else Ok (end_day - days)%Z.

(** What a call does to the outside, in order. *)
Inductive event : Type :=
| HttpGetPrev (tk : string)
| HttpGetRange (tk : string) (start_day end_day : Z)
| Sleep (seconds : float)   (* time.sleep / asyncio.sleep *).

(** A computation that leaves a trace of events and returns or raises. *)
Definition io (A : Type) : Type := list event * res A.

Definition io_ret {A : Type} (a : A) : io A := ([], Ok a).

Definition io_bind {A B : Type} (c : io A) (k : A -> io B) : io B :=
  match c with
  | (t, Ok a) => let (t', r) := k a in (t ++ t', r)
  | (t, Raise e) => (t, Raise e)
  end.

Notation "x <~ c ;; k" := (io_bind c (fun x => k))
  (at level 61, c at next level, right associativity).

Definition io_lift {A : Type} (c : res A) : io A := ([], c).

Definition io_emit (e : event) : io unit := ([e], Ok tt).

Definition io_try {A : Type} (body : io A) (handler : exn -> io A) : io A :=
  match body with
  | (t, Ok a) => (t, Ok a)
  | (t, Raise e) => let (t', r) := handler e in (t ++ t', r)
  end.

Definition trace_of {A : Type} (c : io A) : list event := fst c.
Definition outcome {A : Type} (c : io A) : res A := snd c.

(** Truth value of an optional string: [None] and the empty string are false. *)
Definition truthy (s : option string) : bool :=
  match s with
  | None => false
  | Some k => negb (String.eqb k "")
  end.

(* ===================================================================== *)
(** * Fetching the price series *)
(* ===================================================================== *)

Section Engine.

Variable lib : NumLib.
Variable world : World.
(** [self.fixed_end_date]. *)
Variable fixed_end_date : option string.

(** [_period_to_days]. *)
Definition _period_to_days (period : string) : Z :=
  if String.eqb period "1mo" then 31
  else if String.eqb period "3mo" then 93
  else if String.eqb period "6mo" then 186
  else if String.eqb period "1y" then 365
  else if String.eqb period "2y" then 730
  else 186.

Fixpoint replace_char (old new : Ascii.ascii) (s : string) : string :=
  match s with
  | EmptyString => EmptyString
  | String c rest =>
      String (if Ascii.eqb c old then new else c) (replace_char old new rest)
  end.

(** [_normalize_polygon_ticker]: [ticker.replace("-", ".")]. *)
Definition _normalize_polygon_ticker (tk : string) : string :=
  replace_char "-"%char "."%char tk.

(** [_latest_trading_date(ticker)]: the date as text. *)
Definition _latest_trading_date (tk : string) : io string :=
  if negb (truthy (api_key world)) then io_ret (strftime_day world (utc_today world))
  else
    found <~ io_try
               (_ <~ io_emit (HttpGetPrev (_normalize_polygon_ticker tk)) ;;
                io_lift (polygon_prev world (_normalize_polygon_ticker tk)))
               (fun _ => io_ret None) ;;
    match found with
    | Some day => io_ret (strftime_day world day)
    | None => io_ret (strftime_day world (utc_today world))
    end.

(** [self._latest_trading_date(ticker) or self._latest_trading_date("SPY")]. *)
Definition latest_or_spy (tk : string) : io string :=
  latest_str <~ _latest_trading_date tk ;;
  if String.eqb latest_str "" then _latest_trading_date "SPY" else io_ret latest_str.

(** [get_stock_data(ticker, period)].  Whatever is raised after the key
    check, by the dates, the request or pandas, ends in [None]. *)
Definition get_stock_data (tk period : string) : io (option DataFrame) :=
  if negb (truthy (api_key world)) then io_ret None
  else
    io_try
      (let days := _period_to_days period in
       end_day <~ (match fixed_end_date with
                   | Some d => if String.eqb d ""
                               then latest_str <~ latest_or_spy tk ;;
                                    io_lift (strptime world latest_str)
                               else io_lift (strptime world d)
                   | None => latest_str <~ latest_or_spy tk ;;
                             io_lift (strptime world latest_str)
                   end) ;;
       start_day <~ io_lift (minus_days end_day days) ;;
       let ptk := _normalize_polygon_ticker tk in
       _ <~ io_emit (HttpGetRange ptk start_day end_day) ;;
       results <~ io_lift (polygon_range world ptk start_day end_day) ;;
       match results with
       | [] => io_ret None
       | _ :: _ =>
           df <~ io_lift (frame_of_results world results) ;;
           io_ret (Some df)
       end)
      (fun _ => io_ret None).

(* =================================================================== *)
(** * Scoring one ticker and a batch *)
(* =================================================================== *)

(** [calculate_trend_score(ticker, period)]. *)
Definition calculate_trend_score (tk period : string) : io (option TrendScoreResult) :=
  data <~ get_stock_data tk period ;;
  match data with
  | None => io_ret None
  | Some df =>
      if (len df <? 50)%Z then io_ret None
      else
        ma <~ io_lift (calculate_ma_score lib df 20 50) ;;
        macd <~ io_lift (calculate_macd_score lib df) ;;
        adx <~ io_lift (calculate_adx_score lib df 14) ;;
        rsi <~ io_lift (calculate_rsi_score lib df 14) ;;
        obv <~ io_lift (calculate_obv_score lib df) ;;
        last_stamp <~ io_lift (iloc (df_index df) (-1)) ;;
        date <~ io_lift (strftime last_stamp) ;;
        io_ret (Some (build_result tk date ma macd adx rsi obv))
  end.

(** Insertion of [x] in front of a list sorted by decreasing key: [x]
    passes only the elements whose key is strictly greater. *)
Fixpoint insert_desc {A : Type} (key : A -> float) (x : A) (l : list A) : list A :=
  match l with
  | [] => [x]
  | y :: rest =>
      if PrimFloat.ltb (key x) (key y) then y :: insert_desc key x rest
      else x :: y :: rest
  end.

(** [l.sort(key=key, reverse=True)]: Python's sort is stable, and stays
    so under [reverse=True]; on keys that are not NaN any stable sort by
    decreasing key returns this list. *)
Definition sort_reverse {A : Type} (key : A -> float) (l : list A) : list A :=
  fold_right (insert_desc key) [] l.

(** The loop of [calculate_batch_scores]: [results] is the list built so far. *)
Fixpoint batch_loop (tickers : list string) (period : string)
         (results : list TrendScoreResult) : io (list TrendScoreResult) :=
  match tickers with
  | [] => io_ret results
  | tk :: rest =>
      score_data <~ calculate_trend_score tk period ;;
      batch_loop rest period
        (match score_data with
         | Some r => results ++ [r]
         | None => results
         end)
  end.

(** [calculate_batch_scores(tickers, period)]. *)
Definition calculate_batch_scores (tickers : list string) (period : string)
  : io (list TrendScoreResult) :=
  results <~ batch_loop tickers period [] ;;
  io_ret (sort_reverse normalized_trend_score results).

End Engine.

(* ===================================================================== *)
(** * The aggregation as the specification words it *)
(* ===================================================================== *)





(** What the aggregation would return if the weighted sum were rounded to
    its three presentation decimals before being rescaled. *)
Definition normalized_from_rounded (ma macd adx rsi obv : Z) : float :=
  py_round (normalized (py_round (weighted_raw ma macd adx rsi obv) 3)) 2.

(** The documented range of each component score. *)
Definition scores_in_range (ma macd adx rsi obv : Z) : Prop :=
  (-3 <= ma <= 3 /\ -2 <= macd <= 2 /\ -2 <= adx <= 2 /\
   -1 <= rsi <= 1 /\ -1 <= obv <= 1)%Z.

(* ===================================================================== *)
(** * Event traces *)
(* ===================================================================== *)





(* ===================================================================== *)
(** * Vocabulary of the statements *)
(* ===================================================================== *)

(** What [calculate_trend_score] makes of a fetched frame: nothing below
    50 rows, else the five scorers' answers aggregated under the date of
    the last row, or the exception of the first step that raises. *)
Definition score_frame (lib : NumLib) (df : DataFrame) (tk : string)
  : res (option TrendScoreResult) :=
  if (len df <? 50)%Z then Ok None
  else
    ma <- calculate_ma_score lib df 20 50 ;;
    macd <- calculate_macd_score lib df ;;
    adx <- calculate_adx_score lib df 14 ;;
    rsi <- calculate_rsi_score lib df 14 ;;
    obv <- calculate_obv_score lib df ;;
    last_stamp <- iloc (df_index df) (-1) ;;
    date <- strftime last_stamp ;;
    Ok (Some (build_result tk date ma macd adx rsi obv)).

(** [r] is what [calculate_trend_score] builds for ticker [tk] from the
    frame [df]: the five scorers' answers on [df], aggregated, under the
    date of the last row. *)
Definition scored_from (lib : NumLib) (df : DataFrame) (tk : string)
           (r : TrendScoreResult) : Prop :=
  exists (date : string) (ma macd adx rsi obv : Z),
    iloc (df_index df) (-1) = Ok (Date date)
    /\ calculate_ma_score lib df 20 50 = Ok ma
    /\ calculate_macd_score lib df = Ok macd
    /\ calculate_adx_score lib df 14 = Ok adx
    /\ calculate_rsi_score lib df 14 = Ok rsi
    /\ calculate_obv_score lib df = Ok obv
    /\ r = build_result tk date ma macd adx rsi obv.

(** The results of single-ticker scoring over [tickers] that are not
    [None], in input order. *)
Definition survivors (lib : NumLib) (world : World) (fixed_end_date : option string)
           (tickers : list string) (period : string) : list TrendScoreResult :=
  flat_map (fun tk =>
              match outcome (calculate_trend_score lib world fixed_end_date tk period) with
              | Ok (Some r) => [r]
              | _ => []
              end) tickers.

(** The tickers that a batch gets to: all of them up to the first whose
    single-ticker scoring raises, that one included. *)
Fixpoint attempted (lib : NumLib) (world : World) (fixed_end_date : option string)
         (tickers : list string) (period : string) : list string :=
  match tickers with
  | [] => []
  | tk :: rest =>
      tk :: match outcome (calculate_trend_score lib world fixed_end_date tk period) with
            | Ok _ => attempted lib world fixed_end_date rest period
            | Raise _ => []
            end
  end.

(** The exception of the first ticker whose single-ticker scoring raises,
    if there is one. *)
Fixpoint first_raised (lib : NumLib) (world : World) (fixed_end_date : option string)
         (tickers : list string) (period : string) : option exn :=
  match tickers with
  | [] => None
  | tk :: rest =>
      match outcome (calculate_trend_score lib world fixed_end_date tk period) with
      | Ok _ => first_raised lib world fixed_end_date rest period
      | Raise e => Some e
      end
  end.

(** [a] may stand before [b] in a ranking by decreasing key. *)
Definition key_desc {A : Type} (key : A -> float) (a b : A) : Prop :=
  (key b <=? key a) = true.

(** The elements of [l] whose key equals [k], in the order of [l]. *)
Definition with_key {A : Type} (key : A -> float) (k : float) (l : list A) : list A :=
  filter (fun a => key a =? k) l.

(* ===================================================================== *)
(** * Stand-ins for the libraries and the provider, for concrete runs *)
(* ===================================================================== *)

Definition fsum (s : Series) : float := fold_left PrimFloat.add s 0.

(** The mean of the [w] values of [s] that end at position [i]; NaN while
    fewer than [w] values are there. *)
Definition window_mean (w : nat) (s : Series) (i : nat) : float :=
  if (S i <? w)%nat then nan
  else fsum (firstn w (skipn (S i - w) s)) / of_int (Z.of_nat w).

(** A plain rolling mean. *)
Definition simple_rolling_mean (w : Z) (s : Series) : res Series :=
  if (w <? 0)%Z then Raise ValueError
  else Ok (map (window_mean (Z.to_nat w) s) (seq 0 (List.length s))).

Lemma simple_rolling_mean_length (w : Z) (s : Series) :
  (1 <= w)%Z ->
  exists r, simple_rolling_mean w s = Ok r /\ List.length r = List.length s.
Proof.
  intros Hw. unfold simple_rolling_mean.
  destruct (Z.ltb_spec w 0) as [Hneg | _]; [lia |].
  eexists. split; [reflexivity |].
  now rewrite length_map, length_seq.
Qed.

(** A library whose indicator calls answer with the given outcomes
    whatever the prices, over the plain rolling mean. *)
Definition stub_lib (macd signal adx plus_di minus_di rsi obv : res Series)
           (slope : res float) : NumLib :=
  {| rolling_mean := simple_rolling_mean;
     ta_macd := fun _ => macd;
     ta_macd_signal := fun _ => signal;
     ta_adx := fun _ _ _ _ => adx;
     ta_adx_pos := fun _ _ _ _ => plus_di;
     ta_adx_neg := fun _ _ _ _ => minus_di;
     ta_rsi := fun _ _ => rsi;
     ta_obv := fun _ _ => obv;
     polyfit_slope := fun _ => slope;
     rolling_mean_length := simple_rolling_mean_length |}.

(** A library in which every ta and numpy call fails. *)
Definition failing_lib : NumLib :=
  let boom := Raise (LibraryError "unavailable") in
  stub_lib boom boom boom boom boom boom boom (Raise (LibraryError "unavailable")).

(** A library whose latest RSI is [r]. *)
Definition rsi_lib (r : float) : NumLib :=
  let boom := Raise (LibraryError "unavailable") in
  stub_lib boom boom boom boom boom (Ok [50; r]) boom (Raise (LibraryError "unavailable")).

Definition day_label (i : nat) : string :=
  ("day-" ++ NilEmpty.string_of_uint (Nat.to_uint i))%string.

(** One daily bar: its date and its five prices and volume. *)
Record Bar : Type := mkBar {
  bar_date : Timestamp;
  bar_open : float;
  bar_high : float;
  bar_low : float;
  bar_close : float;
  bar_volume : float
}.

(** The frame of a list of bars, oldest first. *)
Definition frame_of_bars (rows : list Bar) : DataFrame :=
  {| df_index := map bar_date rows;
     df_columns := [ ("Open"%string, map bar_open rows);
                     ("High"%string, map bar_high rows);
                     ("Low"%string, map bar_low rows);
                     ("Close"%string, map bar_close rows);
                     ("Volume"%string, map bar_volume rows) ] |}.

(** [n] daily bars that all close at [price]. *)
Definition flat_bars (n : nat) (price : float) : list Bar :=
  map (fun i => mkBar (Date (day_label i)) price price price price 1000) (seq 0 n).

(** Bars with the given closes. *)
Definition bars_of_closes (closes : list float) : list Bar :=
  map (fun ic => mkBar (Date (day_label (fst ic))) (snd ic) (snd ic) (snd ic) (snd ic) 1000)
      (combine (seq 0 (List.length closes)) closes).

(** [n] bars at [price] of which the last one has a null "t". *)
Definition bars_with_null_last_t (n : nat) (price : float) : list Bar :=
  flat_bars (n - 1) price ++ [mkBar NaT price price price price 1000].

(** A bar as a row of an answer, and back: the date travels as text
    under "t", a missing date as null. *)
Definition row_of_bar (b : Bar) : Row :=
  [ ("t"%string, match bar_date b with Date d => CellText d | NaT => CellNull end);
    ("o"%string, CellNumber (bar_open b));
    ("h"%string, CellNumber (bar_high b));
    ("l"%string, CellNumber (bar_low b));
    ("c"%string, CellNumber (bar_close b));
    ("v"%string, CellNumber (bar_volume b)) ].

Fixpoint cell_at (key : string) (row : Row) : cell :=
  match row with
  | [] => CellNull
  | (k, c) :: rest => if String.eqb k key then c else cell_at key rest
  end.

Definition number_at (key : string) (row : Row) : float :=
  match cell_at key row with
  | CellNumber x => x
  | _ => nan
  end.

Definition bar_of_row (row : Row) : Bar :=
  mkBar (match cell_at "t" row with CellText d => Date d | _ => NaT end)
        (number_at "o" row) (number_at "h" row) (number_at "l" row)
        (number_at "c" row) (number_at "v" row).

(** A provider that holds a key and answers every range request for
    ticker [tk] with the rows of [book tk], over a frame construction
    that reads each row as a bar. *)
Definition mock_world (book : string -> list Bar) : World :=
  {| api_key := Some "key"%string;
     utc_today := 20000;
     strptime := fun _ => Ok 19999%Z;
     strftime_day := fun _ => "2024-10-03"%string;
     polygon_prev := fun _ => Ok (Some 19998%Z);
     polygon_range := fun tk _ _ => Ok (map row_of_bar (book tk));
     frame_of_results := fun rows => Ok (frame_of_bars (map bar_of_row rows)) |}.

(** A world without a provider key. *)
Definition keyless_world (key : option string) : World :=
  {| api_key := key;
     utc_today := 20000;
     strptime := fun _ => Ok 19999%Z;
     strftime_day := fun _ => "2024-10-03"%string;
     polygon_prev := fun _ => Ok None;
     polygon_range := fun _ _ _ => Ok (map row_of_bar (flat_bars 50 100));
     frame_of_results := fun rows => Ok (frame_of_bars (map bar_of_row rows)) |}.

(** A frame of fifty rows that has a Volume column and no Close column. *)
Definition frame_without_close : DataFrame :=
  {| df_index := map (fun i => Date (day_label i)) (seq 0 50);
     df_columns := [ ("Volume"%string, repeat 1000 50) ] |}.

(** Thirty closes at 100, then twenty that alternate 99 and 101: the means
    of the last 20 and of the last 50 closes are both 100, the last close
    is 101. *)
Definition tie_closes : list float :=
  repeat 100 30 ++ List.concat (repeat [99; 101] 10).

(* ===================================================================== *)
(** * Facts about binary64 comparisons *)
(* ===================================================================== *)

Module PyFloatFacts.

Lemma compare_cont_antisym (p q : positive) :
  Pos.compare_cont Eq q p = CompOpp (Pos.compare_cont Eq p q).
Proof.
  change (Pos.compare_cont Eq q p) with (Pos.compare q p).
  change (Pos.compare_cont Eq p q) with (Pos.compare p q).
  apply Pos.compare_antisym.
Qed.

Lemma SFcompare_antisym (a b : spec_float) :
  SFcompare b a = option_map CompOpp (SFcompare a b).
Proof.
  destruct a as [sa|sa| |sa ma ea], b as [sb|sb| |sb mb eb]; simpl;
    try reflexivity;
    try (destruct sa; reflexivity); try (destruct sb; reflexivity);
    try (destruct sa, sb; reflexivity).
  destruct sa, sb; try reflexivity;
    rewrite (Z.compare_antisym ea eb), (compare_cont_antisym ma mb);
    destruct (ea ?= eb)%Z; simpl; try reflexivity;
    destruct (Pos.compare_cont Eq ma mb); reflexivity.
Qed.

Lemma SFcompare_none (a b : spec_float) :
  SFcompare a b = None -> SFeqb a a = false \/ SFeqb b b = false.
Proof.
  destruct a, b; simpl; try discriminate; auto.
Qed.

Lemma SFleb_trans (a b c : spec_float) :
  SFleb a b = true -> SFleb b c = true -> SFleb a c = true.
Proof.
  unfold SFleb.
  destruct a as [sa|sa| |sa ma ea], b as [sb|sb| |sb mb eb], c as [sc|sc| |sc mc ec];
    simpl; try congruence;
    try (destruct sa; simpl; congruence);
    try (destruct sb; simpl; congruence);
    try (destruct sc; simpl; congruence);
    try (destruct sa, sb; simpl; congruence);
    try (destruct sa, sc; simpl; congruence);
    try (destruct sb, sc; simpl; congruence);
    try (destruct sa, sb, sc; simpl; congruence).
  change (Pos.compare_cont Eq ma mb) with (Pos.compare ma mb).
  change (Pos.compare_cont Eq mb mc) with (Pos.compare mb mc).
  change (Pos.compare_cont Eq ma mc) with (Pos.compare ma mc).
  destruct sa, sb, sc; simpl; try congruence;
    destruct (Z.compare_spec ea eb), (Z.compare_spec eb ec), (Z.compare_spec ea ec);
    try congruence; try lia;
    destruct (Pos.compare_spec ma mb), (Pos.compare_spec mb mc), (Pos.compare_spec ma mc);
    simpl; try congruence; try lia.
Qed.

(** [a < b] excludes [b < a]. *)
Lemma ltb_asym (a b : float) : (a <? b) = true -> (b <? a) = false.
Proof.
  rewrite !ltb_spec. unfold SFltb.
  rewrite (SFcompare_antisym (Prim2SF a) (Prim2SF b)).
  destruct (SFcompare (Prim2SF a) (Prim2SF b)) as [[]|]; simpl; congruence.
Qed.

(** [a == b] excludes both strict comparisons. *)
Lemma eqb_not_ltb (a b : float) :
  (a =? b) = true -> (a <? b) = false /\ (b <? a) = false.
Proof.
  rewrite eqb_spec, !ltb_spec. unfold SFltb, SFeqb.
  rewrite (SFcompare_antisym (Prim2SF a) (Prim2SF b)).
  destruct (SFcompare (Prim2SF a) (Prim2SF b)) as [[]|]; simpl; try congruence; auto.
Qed.

Lemma ltb_leb (a b : float) : (a <? b) = true -> (a <=? b) = true.
Proof.
  rewrite ltb_spec, leb_spec. unfold SFltb, SFleb.
  destruct (SFcompare (Prim2SF a) (Prim2SF b)) as [[]|]; simpl; congruence.
Qed.

(** On two values that are not NaN, "not [a < b]" is [b <= a]. *)
Lemma not_ltb_leb (a b : float) :
  (a =? a) = true -> (b =? b) = true -> (a <? b) = false -> (b <=? a) = true.
Proof.
  rewrite !eqb_spec, ltb_spec, leb_spec. intros Ha Hb.
  unfold SFltb, SFleb. rewrite (SFcompare_antisym (Prim2SF a) (Prim2SF b)).
  destruct (SFcompare (Prim2SF a) (Prim2SF b)) as [[]|] eqn:E; simpl; try congruence.
  destruct (SFcompare_none _ _ E); congruence.
Qed.

Lemma leb_trans (a b c : float) :
  (a <=? b) = true -> (b <=? c) = true -> (a <=? c) = true.
Proof. rewrite !leb_spec. apply SFleb_trans. Qed.

(** A value that compares with another one is not NaN. *)
Lemma leb_not_nan_r (a b : float) : (a <=? b) = true -> (b =? b) = true.
Proof.
  rewrite leb_spec, eqb_spec. unfold SFleb, SFeqb.
  destruct (Prim2SF a) as [sa|sa| |sa ma ea], (Prim2SF b) as [sb|sb| |sb mb eb]; simpl;
    try congruence; try (destruct sb; reflexivity).
  all: intros _; destruct sb;
    rewrite ?Z.compare_refl, ?Pos.compare_cont_refl; reflexivity.
Qed.

Lemma float_neq (x y : float) : PrimFloat.Leibniz.eqb x y = false -> x <> y.
Proof.
  intros H E. apply Leibniz.eqb_spec in E. congruence.
Qed.

End PyFloatFacts.

Import PyFloatFacts.

(* ===================================================================== *)
(** * The aggregation *)
(* ===================================================================== *)

Lemma score_sum_cases (ma macd adx rsi obv : Z) :
  scores_in_range ma macd adx rsi obv ->
  In (ma + macd + adx + rsi + obv)%Z
     [-9; -8; -7; -6; -5; -4; -3; -2; -1; 0; 1; 2; 3; 4; 5; 6; 7; 8; 9]%Z.
Proof.
  unfold scores_in_range. intros H.
  remember (ma + macd + adx + rsi + obv)%Z as s eqn:Hs.
  assert (Hr : (-9 <= s <= 9)%Z) by lia. clear - Hr.
  simpl. lia.
Qed.

(** Runs a goal that mentions the scores only through their sum at each
    of the nineteen sums. *)
Ltac each_score_sum H :=
  let s := fresh "s" in
  let Hin := fresh "Hin" in
  pose proof (score_sum_cases _ _ _ _ _ H) as Hin;
  match type of Hin with In ?e _ => generalize dependent e end;
  clear; intros s Hin; simpl in Hin;
  repeat (destruct Hin as [Hin | Hin]; [subst s; vm_compute; auto |]);
  contradiction.








(** Outside the documented ranges the clamp decides: a sum of 10 and a
    sum of 500 give 100, a sum of -10 and a sum of -500 give 0, where the
    rescaled values are 105.56, 2772.22, -5.56 and -2672.22. *)
Example clamp_at_work :
  normalized_trend_score (build_result "SPY" "2024-01-02" 3 2 2 1 2) = 100
  /\ normalized_trend_score (build_result "SPY" "2024-01-02" 100 100 100 100 100) = 100
  /\ normalized_trend_score (build_result "SPY" "2024-01-02" (-3) (-2) (-2) (-1) (-2)) = 0
  /\ normalized_trend_score (build_result "SPY" "2024-01-02" (-100) (-100) (-100) (-100) (-100)) = 0
  /\ py_round ((weighted_raw 3 2 2 1 2 + 2.1) / 4.2 * 100) 2 = 105.56
  /\ py_round ((weighted_raw (-3) (-2) (-2) (-1) (-2) + 2.1) / 4.2 * 100) 2 = -5.56.
Proof. repeat split; reflexivity. Qed.

(** Rounding the weighted sum before rescaling it would show: one point
    of score gives 55.56, and 55.55 from the rounded 0.233. *)
Lemma rounding_the_intermediate_differs :
  normalized_trend_score (build_result "SPY" "2024-01-02" 1 0 0 0 0) = 55.56
  /\ normalized_from_rounded 1 0 0 0 0 = 55.55.
Proof. split; reflexivity. Qed.

(** The normalized score of in-range component scores lies in [0, 100]. *)
Lemma normalized_trend_score_bounds :
  forall (tk date : string) (ma macd adx rsi obv : Z),
    scores_in_range ma macd adx rsi obv ->
    (0 <=? normalized_trend_score (build_result tk date ma macd adx rsi obv)) = true
    /\ (normalized_trend_score (build_result tk date ma macd adx rsi obv) <=? 100) = true.
Proof.
  intros tk date ma macd adx rsi obv H.
  unfold build_result, weighted_raw; simpl.
  each_score_sum H.
Qed.

(** The extreme cases: all scores at their maximum give 100, all at their
    minimum give 0. *)
Lemma extreme_scores :
  normalized_trend_score (build_result "SPY" "2024-01-02" 3 2 2 1 1) = 100
  /\ normalized_trend_score (build_result "SPY" "2024-01-02" (-3) (-2) (-2) (-1) (-1)) = 0.
Proof. split; reflexivity. Qed.

(** C5, as stated: five equal component scores do not always give 50;
    five scores of 1 give 77.78. *)
Lemma equal_scores_not_always_50 :
  (-1 <= 1 <= 1)%Z
  /\ normalized_trend_score (build_result "SPY" "2024-01-02" 1 1 1 1 1) = 77.78
  /\ normalized_trend_score (build_result "SPY" "2024-01-02" 1 1 1 1 1) <> 50.
Proof.
  split; [lia |]. split; [reflexivity |].
  apply float_neq. reflexivity.
Qed.

(** C5, amended.  Five equal component scores give a normalized score of
    exactly 50 when, and only when, they are all zero. *)
Theorem equal_scores_50_iff_zero :
  forall (tk date : string) (s : Z),
    (-1 <= s <= 1)%Z ->
    (normalized_trend_score (build_result tk date s s s s s) = 50 <-> s = 0%Z).
Proof.
  intros tk date s Hs.
  assert (Hc : s = (-1)%Z \/ s = 0%Z \/ s = 1%Z) by lia.
  destruct Hc as [-> | [-> | ->]]; split; intros H; try reflexivity; try lia;
    exfalso; revert H; apply float_neq; reflexivity.
Qed.

Lemma equal_scores_50_iff_zero_witness :
  (-1 <= 0 <= 1)%Z
  /\ normalized_trend_score (build_result "SPY" "2024-01-02" 0 0 0 0 0) = 50.
Proof.
  assert (H : (-1 <= 0 <= 1)%Z) by lia.
  split; [exact H |].
  exact (proj2 (equal_scores_50_iff_zero "SPY" "2024-01-02" 0 H) eq_refl).
Defined.

(* ===================================================================== *)
(** * The indicator scorers *)
(* ===================================================================== *)

Ltac split_ifs :=
  repeat match goal with
         | |- context [if ?c then _ else _] => destruct c
         end.

Lemma ma_ladder_range (p s l : float) : (-3 <= ma_ladder p s l <= 3)%Z.
Proof. unfold ma_ladder. split_ifs; lia. Qed.

Lemma macd_ladder_range (m s p : float) : (-2 <= macd_ladder m s p <= 2)%Z.
Proof. unfold macd_ladder. split_ifs; lia. Qed.

Lemma adx_ladder_range (a p m : float) : (-2 <= adx_ladder a p m <= 2)%Z.
Proof. unfold adx_ladder. split_ifs; lia. Qed.

Lemma rsi_ladder_range (r : float) : (-1 <= rsi_ladder r <= 1)%Z.
Proof. unfold rsi_ladder. split_ifs; lia. Qed.

Lemma obv_ladder_range (t : float) : (-1 <= obv_ladder t <= 1)%Z.
Proof. unfold obv_ladder. split_ifs; lia. Qed.

Create HintDb ladders.

#[local] Hint Resolve ma_ladder_range macd_ladder_range adx_ladder_range
  rsi_ladder_range obv_ladder_range : ladders.

(** Runs a scorer body one call at a time: each call returns or raises. *)
Ltac run_body :=
  repeat (simpl;
          match goal with
          | |- context [bind ?c _] => destruct c eqn:?
          | |- context [if ?c then _ else _] => destruct c eqn:?
          end);
  simpl.

Ltac close_scorer :=
  eexists; split; [reflexivity | auto with ladders; lia].

Lemma iloc_map {A B : Type} (f : A -> B) (s : list A) (i : Z) :
  iloc (map f s) i = match iloc s i with
                     | Ok x => Ok (f x)
                     | Raise e => Raise e
                     end.
Proof.
  unfold iloc, slen. rewrite length_map, nth_error_map.
  destruct (_ || _); [reflexivity |].
  destruct (nth_error s _); reflexivity.
Qed.

Lemma iloc_last_ok {A : Type} (s : list A) :
  s <> [] -> exists x, iloc s (-1) = Ok x.
Proof.
  intros Hs. unfold iloc, slen.
  assert (Hlen : (0 < List.length s)%nat) by (destruct s; [congruence | simpl; lia]).
  change (-1 <? 0)%Z with true. cbv iota.
  remember (-1 + Z.of_nat (List.length s))%Z as j eqn:Hj.
  assert (Hj1 : (j <? 0)%Z = false) by (apply Z.ltb_ge; lia).
  assert (Hj2 : (Z.of_nat (List.length s) <=? j)%Z = false) by (apply Z.leb_gt; lia).
  rewrite Hj1, Hj2. cbn [orb].
  destruct (nth_error s (Z.to_nat j)) eqn:E; [eexists; reflexivity |].
  apply nth_error_None in E. lia.
Qed.

(** The MACD scorer returns, within its range, whatever its library calls do. *)
Lemma calculate_macd_score_returns (lib : NumLib) (data : DataFrame) :
  exists v, calculate_macd_score lib data = Ok v /\ (-2 <= v <= 2)%Z.
Proof.
  unfold calculate_macd_score, try_except. run_body; close_scorer.
Qed.

(** The ADX scorer returns, within its range, whatever its library calls do. *)
Lemma calculate_adx_score_returns (lib : NumLib) (data : DataFrame) (period : Z) :
  exists v, calculate_adx_score lib data period = Ok v /\ (-2 <= v <= 2)%Z.
Proof.
  unfold calculate_adx_score, try_except. run_body; close_scorer.
Qed.

(** The RSI scorer returns, within its range, whatever its library calls do. *)
Lemma calculate_rsi_score_returns (lib : NumLib) (data : DataFrame) (period : Z) :
  exists v, calculate_rsi_score lib data period = Ok v /\ (-1 <= v <= 1)%Z.
Proof.
  unfold calculate_rsi_score, try_except. run_body; close_scorer.
Qed.

(** The OBV scorer returns, within its range, whatever its library calls do. *)
Lemma calculate_obv_score_returns (lib : NumLib) (data : DataFrame) :
  exists v, calculate_obv_score lib data = Ok v /\ (-1 <= v <= 1)%Z.
Proof.
  unfold calculate_obv_score, try_except. run_body; close_scorer.
Qed.

(** What the MA scorer returns lies in its range. *)
Lemma calculate_ma_score_range (lib : NumLib) (data : DataFrame) (sp lp v : Z) :
  calculate_ma_score lib data sp lp = Ok v -> (-3 <= v <= 3)%Z.
Proof.
  unfold calculate_ma_score.
  destruct (len data <? lp)%Z; [intros [= <-]; lia |].
  repeat match goal with
         | |- context [bind ?c _] => destruct c; simpl; try discriminate
         end.
  intros [= <-]. apply ma_ladder_range.
Qed.

(** On the frame of a non-empty list of bars the MA scorer returns: the
    Close column is there and the rolling means are as long as it. *)
Lemma calculate_ma_score_returns_on_bars (lib : NumLib) (rows : list Bar) :
  rows <> [] ->
  exists v, calculate_ma_score lib (frame_of_bars rows) 20 50 = Ok v /\ (-3 <= v <= 3)%Z.
Proof.
  intros Hrows.
  assert (Hv : exists v, calculate_ma_score lib (frame_of_bars rows) 20 50 = Ok v).
  { unfold calculate_ma_score.
    destruct (len (frame_of_bars rows) <? 50)%Z; [eauto |].
    change (getitem (frame_of_bars rows) "Close") with (Ok (map bar_close rows)).
    simpl.
    assert (Hne : forall r : Series,
               List.length r = List.length (map bar_close rows) -> r <> []).
    { intros r Hr ->. rewrite length_map in Hr. destruct rows; [congruence | discriminate]. }
    destruct (rolling_mean_length lib 20 (map bar_close rows)) as (sm & -> & Hsm); [lia |].
    destruct (rolling_mean_length lib 50 (map bar_close rows)) as (lm & -> & Hlm); [lia |].
    simpl.
    destruct (iloc_last_ok sm (Hne _ Hsm)) as (ls & ->).
    destruct (iloc_last_ok lm (Hne _ Hlm)) as (ll & ->).
    destruct (iloc_last_ok (map bar_close rows)) as (lp & ->).
    { intros E. apply (Hne (map bar_close rows) eq_refl E). }
    simpl. eauto. }
  destruct Hv as (v & Hv). exists v. split; [exact Hv |].
  eapply calculate_ma_score_range; eassumption.
Qed.

(** C8.  Below its minimum length each scorer returns the neutral score
    0 without raising: 50 bars for MA, 34 for MACD, 28 for ADX with the
    default period 14, 14 for RSI, 10 for OBV. *)
Theorem short_series_scores_zero :
  forall (lib : NumLib) (data : DataFrame),
    ((len data < 50)%Z -> calculate_ma_score lib data 20 50 = Ok 0%Z)
    /\ ((len data < 34)%Z -> calculate_macd_score lib data = Ok 0%Z)
    /\ ((len data < 28)%Z -> calculate_adx_score lib data 14 = Ok 0%Z)
    /\ ((len data < 14)%Z -> calculate_rsi_score lib data 14 = Ok 0%Z)
    /\ ((len data < 10)%Z -> calculate_obv_score lib data = Ok 0%Z).
Proof.
  intros lib data.
  unfold calculate_ma_score, calculate_macd_score, calculate_adx_score,
    calculate_rsi_score, calculate_obv_score.
  repeat split; intros H;
    match goal with
    | |- context [(?a <? ?b)%Z] =>
        let E := fresh in
        assert (E : (a <? b)%Z = true) by (apply Z.ltb_lt; lia);
        rewrite E; reflexivity
    end.
Qed.

Lemma short_series_scores_zero_witness :
  (len (frame_of_bars (flat_bars 9 100)) < 10)%Z
  /\ calculate_ma_score (rsi_lib 80) (frame_of_bars (flat_bars 9 100)) 20 50 = Ok 0%Z
  /\ calculate_rsi_score (rsi_lib 80) (frame_of_bars (flat_bars 9 100)) 14 = Ok 0%Z
  /\ calculate_obv_score (rsi_lib 80) (frame_of_bars (flat_bars 9 100)) = Ok 0%Z.
Proof.
  assert (H : (len (frame_of_bars (flat_bars 9 100)) < 10)%Z) by reflexivity.
  split; [exact H |].
  destruct (short_series_scores_zero (rsi_lib 80) (frame_of_bars (flat_bars 9 100)))
    as (Hma & _ & _ & Hrsi & Hobv).
  split; [apply Hma; reflexivity |].
  split; [apply Hrsi; reflexivity | apply Hobv; exact H].
Defined.

(** The guards of the MA, ADX and RSI scorers follow their period arguments. *)
Lemma length_guards_follow_periods :
  forall (lib : NumLib) (data : DataFrame) (short_period long_period period : Z),
    ((len data < long_period)%Z ->
       calculate_ma_score lib data short_period long_period = Ok 0%Z)
    /\ ((len data < period + 14)%Z -> calculate_adx_score lib data period = Ok 0%Z)
    /\ ((len data < period)%Z -> calculate_rsi_score lib data period = Ok 0%Z).
Proof.
  intros lib data sp lp period.
  unfold calculate_ma_score, calculate_adx_score, calculate_rsi_score.
  repeat split; intros H;
    match goal with
    | |- context [(?a <? ?b)%Z] =>
        let E := fresh in
        assert (E : (a <? b)%Z = true) by (apply Z.ltb_lt; lia);
        rewrite E; reflexivity
    end.
Qed.

(** A series of 49 bars is too short for the MA scorer only; one of 9
    bars is too short for all five. *)
Example short_series_runs :
  calculate_ma_score failing_lib (frame_of_bars (flat_bars 49 100)) 20 50 = Ok 0%Z
  /\ calculate_obv_score failing_lib (frame_of_bars (flat_bars 9 100)) = Ok 0%Z
  /\ calculate_rsi_score (rsi_lib 80) (frame_of_bars (flat_bars 13 100)) 14 = Ok 0%Z
  /\ calculate_rsi_score (rsi_lib 80) (frame_of_bars (flat_bars 14 100)) 14 = Ok (-1)%Z.
Proof. repeat split; reflexivity. Qed.

(** The RSI scorer on a series whose library calls return. *)
Lemma calculate_rsi_score_on (lib : NumLib) (data : DataFrame) (period : Z)
      (close rsi : Series) (latest_rsi : float) :
  (period <= len data)%Z ->
  getitem data "Close" = Ok close ->
  ta_rsi lib close period = Ok rsi ->
  iloc rsi (-1) = Ok latest_rsi ->
  calculate_rsi_score lib data period
  = Ok (if isna latest_rsi then 0%Z else rsi_ladder latest_rsi).
Proof.
  intros Hlen Hclose Hrsi Hlast.
  unfold calculate_rsi_score.
  assert (E : (len data <? period)%Z = false) by (apply Z.ltb_ge; lia).
  rewrite E, Hclose. cbn [bind]. rewrite Hrsi. cbn [bind].
  unfold isna_series. rewrite iloc_map, Hlast. cbn [bind].
  destruct (isna latest_rsi); reflexivity.
Qed.

(** C4, as stated: on a series whose latest RSI(14) is exactly 70.0 the
    RSI scorer returns 1, not 0. *)
Lemma rsi_70_does_not_score_zero :
  iloc [50; 70] (-1) = Ok 70
  /\ calculate_rsi_score (rsi_lib 70) (frame_of_bars (flat_bars 50 100)) 14 = Ok 1%Z
  /\ calculate_rsi_score (rsi_lib 70) (frame_of_bars (flat_bars 50 100)) 14 <> Ok 0%Z.
Proof.
  split; [reflexivity |]. split; [reflexivity |].
  intros H. vm_compute in H. discriminate H.
Qed.

(** C4, amended.  A latest RSI(14) of exactly 70.0 scores +1: it is above
    60 and not strictly above 70; a latest RSI of 70.01 scores -1. *)
Theorem rsi_boundary_70 :
  forall (lib : NumLib) (data : DataFrame) (close rsi : Series),
    (14 <= len data)%Z ->
    getitem data "Close" = Ok close ->
    ta_rsi lib close 14 = Ok rsi ->
    (iloc rsi (-1) = Ok 70 -> calculate_rsi_score lib data 14 = Ok 1%Z)
    /\ (iloc rsi (-1) = Ok 70.01 -> calculate_rsi_score lib data 14 = Ok (-1)%Z).
Proof.
  intros lib data close rsi Hlen Hclose Hrsi.
  split; intros Hlast;
    rewrite (calculate_rsi_score_on lib data 14 close rsi _ Hlen Hclose Hrsi Hlast);
    reflexivity.
Qed.

Lemma rsi_boundary_70_witness :
  (14 <= len (frame_of_bars (flat_bars 50 100)))%Z
  /\ calculate_rsi_score (rsi_lib 70) (frame_of_bars (flat_bars 50 100)) 14 = Ok 1%Z
  /\ calculate_rsi_score (rsi_lib 70.01) (frame_of_bars (flat_bars 50 100)) 14 = Ok (-1)%Z.
Proof.
  assert (Hlen : (14 <= len (frame_of_bars (flat_bars 50 100)))%Z)
    by (vm_compute; discriminate).
  split; [exact Hlen |].
  split.
  - exact (proj1 (rsi_boundary_70 (rsi_lib 70) (frame_of_bars (flat_bars 50 100))
                    (map bar_close (flat_bars 50 100)) [50; 70]
                    Hlen eq_refl eq_refl) eq_refl).
  - exact (proj2 (rsi_boundary_70 (rsi_lib 70.01) (frame_of_bars (flat_bars 50 100))
                    (map bar_close (flat_bars 50 100)) [50; 70.01]
                    Hlen eq_refl eq_refl) eq_refl).
Defined.

(** The whole RSI table at its boundaries. *)
Example rsi_ladder_table :
  map rsi_ladder [29.99; 30; 39.99; 40; 60; 60.01; 70; 70.01]
  = [1; -1; -1; 0; 0; 1; 1; -1]%Z.
Proof. reflexivity. Qed.

(** The MA scorer on a series whose pandas calls return. *)
Lemma calculate_ma_score_on (lib : NumLib) (data : DataFrame) (short_period long_period : Z)
      (close short_ma long_ma : Series) (latest_price latest_short latest_long : float) :
  (long_period <= len data)%Z ->
  getitem data "Close" = Ok close ->
  rolling_mean lib short_period close = Ok short_ma ->
  rolling_mean lib long_period close = Ok long_ma ->
  iloc short_ma (-1) = Ok latest_short ->
  iloc long_ma (-1) = Ok latest_long ->
  iloc close (-1) = Ok latest_price ->
  calculate_ma_score lib data short_period long_period
  = Ok (ma_ladder latest_price latest_short latest_long).
Proof.
  intros Hlen Hclose Hs Hl Hls Hll Hp.
  unfold calculate_ma_score.
  assert (E : (len data <? long_period)%Z = false) by (apply Z.ltb_ge; lia).
  rewrite E, Hclose. cbn [bind]. rewrite Hs. cbn [bind]. rewrite Hl. cbn [bind].
  rewrite Hls. cbn [bind]. rewrite Hll. cbn [bind]. rewrite Hp. reflexivity.
Qed.

(** The MA ladder when the two means are equal: the sign of price minus mean. *)
Lemma ma_ladder_tie (latest_price latest_short latest_long : float) :
  (latest_short =? latest_long) = true ->
  ma_ladder latest_price latest_short latest_long
  = if gtb latest_price latest_short then 1%Z
    else if latest_price <? latest_short then (-1)%Z
    else 0%Z.
Proof.
  intros Htie. apply eqb_not_ltb in Htie. destruct Htie as [Hsl Hls].
  unfold ma_ladder, gtb. rewrite Hsl, Hls.
  rewrite !andb_false_r. reflexivity.
Qed.

(** C10.  When the 20-bar and 50-bar means are equal and the last close
    is strictly above them the MA scorer returns 1; with equal means it
    returns 0 only when the last close is neither strictly above nor
    strictly below the 20-bar mean. *)
Theorem ma_tie_scores_by_price :
  forall (lib : NumLib) (data : DataFrame) (close short_ma long_ma : Series)
         (latest_price latest_short latest_long : float),
    (50 <= len data)%Z ->
    getitem data "Close" = Ok close ->
    rolling_mean lib 20 close = Ok short_ma ->
    rolling_mean lib 50 close = Ok long_ma ->
    iloc short_ma (-1) = Ok latest_short ->
    iloc long_ma (-1) = Ok latest_long ->
    iloc close (-1) = Ok latest_price ->
    (latest_short =? latest_long) = true ->
    (gtb latest_price latest_short = true ->
       calculate_ma_score lib data 20 50 = Ok 1%Z)
    /\ (calculate_ma_score lib data 20 50 = Ok 0%Z <->
          gtb latest_price latest_short = false
          /\ (latest_price <? latest_short) = false).
Proof.
  intros lib data close short_ma long_ma p s l Hlen Hc Hs Hl Hls Hll Hp Htie.
  rewrite (calculate_ma_score_on lib data 20 50 close short_ma long_ma p s l
             Hlen Hc Hs Hl Hls Hll Hp).
  rewrite (ma_ladder_tie p s l Htie).
  split.
  - intros ->. reflexivity.
  - destruct (gtb p s), (p <? s); split;
      try (intros [= ]); try (intros [? ?]; discriminate); auto.
Qed.

Lemma ma_tie_scores_by_price_witness :
  (50 <= len (frame_of_bars (bars_of_closes tie_closes)))%Z
  /\ (100 =? 100) = true
  /\ gtb 101 100 = true
  /\ calculate_ma_score failing_lib (frame_of_bars (bars_of_closes tie_closes)) 20 50
     = Ok 1%Z.
Proof.
  assert (Hlen : (50 <= len (frame_of_bars (bars_of_closes tie_closes)))%Z)
    by (vm_compute; discriminate).
  split; [exact Hlen |].
  split; [reflexivity |].
  split; [reflexivity |].
  refine (proj1 (ma_tie_scores_by_price failing_lib
                   (frame_of_bars (bars_of_closes tie_closes))
                   tie_closes _ _ 101 100 100 Hlen _ _ _ _ _ _ _) _);
    reflexivity.
Defined.

(** With equal means, a close above scores 1, one below scores -1 and one
    level with them scores 0. *)
Example ma_ladder_tie_runs :
  ma_ladder 101 100 100 = 1%Z /\ ma_ladder 99 100 100 = (-1)%Z
  /\ ma_ladder 100 100 100 = 0%Z.
Proof. repeat split; reflexivity. Qed.

(** C7, at a frame without a Close column: the MA scorer, which has no
    handler, raises KeyError to its caller; the four other scorers catch
    it and return 0. *)
Theorem ma_scorer_propagates_key_error :
  forall lib : NumLib,
    calculate_ma_score lib frame_without_close 20 50 = Raise (KeyError "Close")
    /\ calculate_macd_score lib frame_without_close = Ok 0%Z
    /\ calculate_adx_score lib frame_without_close 14 = Ok 0%Z
    /\ calculate_rsi_score lib frame_without_close 14 = Ok 0%Z
    /\ calculate_obv_score lib frame_without_close = Ok 0%Z.
Proof.
  intros lib. repeat split; reflexivity.
Qed.

(** The four scorers written with a handler never raise, whatever the
    frame and whatever the library does. *)
Lemma guarded_scorers_never_raise :
  forall (lib : NumLib) (data : DataFrame) (period : Z),
    ~ raises (calculate_macd_score lib data)
    /\ ~ raises (calculate_adx_score lib data period)
    /\ ~ raises (calculate_rsi_score lib data period)
    /\ ~ raises (calculate_obv_score lib data).
Proof.
  intros lib data period. unfold raises.
  destruct (calculate_macd_score_returns lib data) as (v1 & -> & _).
  destruct (calculate_adx_score_returns lib data period) as (v2 & -> & _).
  destruct (calculate_rsi_score_returns lib data period) as (v3 & -> & _).
  destruct (calculate_obv_score_returns lib data) as (v4 & -> & _).
  repeat split; intros (e & He); discriminate He.
Qed.

(** When a library call fails inside one of the four guarded scorers the
    score is the neutral 0. *)
Example guarded_scorers_map_failure_to_zero :
  let data := frame_of_bars (flat_bars 50 100) in
  calculate_macd_score failing_lib data = Ok 0%Z
  /\ calculate_adx_score failing_lib data 14 = Ok 0%Z
  /\ calculate_rsi_score failing_lib data 14 = Ok 0%Z
  /\ calculate_obv_score failing_lib data = Ok 0%Z.
Proof. repeat split; reflexivity. Qed.

(* ===================================================================== *)
(** * Fetching *)
(* ===================================================================== *)

Ltac unfold_io :=
  unfold io_try, io_bind, io_lift, io_emit, io_ret, outcome, trace_of in *.







(** [_latest_trading_date] always returns a text, after at most one request. *)
Lemma latest_trading_date_returns (world : World) (tk : string) :
  exists text,
    outcome (_latest_trading_date world tk) = Ok text
    /\ (trace_of (_latest_trading_date world tk) = []
        \/ trace_of (_latest_trading_date world tk)
           = [HttpGetPrev (_normalize_polygon_ticker tk)]).
Proof.
  unfold _latest_trading_date. unfold_io.
  destruct (negb (truthy (api_key world))); [simpl; eauto |].
  destruct (polygon_prev world (_normalize_polygon_ticker tk)) as [[day|]|e];
    simpl; eauto.
Qed.



Lemma io_try_none_returns {A : Type} (body : io (option A)) :
  exists o, outcome (io_try body (fun _ => io_ret None)) = Ok o.
Proof. destruct body as [t [o|e]]; simpl; eauto. Qed.

(** [get_stock_data] never raises: it answers "nothing" or a frame. *)
Lemma get_stock_data_outcome (world : World) (fixed_end_date : option string)
      (tk period : string) :
  exists o, outcome (get_stock_data world fixed_end_date tk period) = Ok o.
Proof.
  unfold get_stock_data.
  destruct (negb (truthy (api_key world))); [exists None; reflexivity |].
  apply io_try_none_returns.
Qed.


(* ===================================================================== *)
(** * Scoring one ticker *)
(* ===================================================================== *)

Lemma io_lift_bind {A B : Type} (c : res A) (k : A -> io B) :
  io_bind (io_lift c) k = match c with
                          | Ok a => k a
                          | Raise e => ([], Raise e)
                          end.
Proof.
  destruct c as [a|e]; [| reflexivity].
  unfold io_bind, io_lift. destruct (k a). reflexivity.
Qed.

(** The scoring steps of [calculate_trend_score] send nothing and end as
    [score_frame] says. *)
Lemma scoring_steps (lib : NumLib) (df : DataFrame) (tk : string) :
  (if (len df <? 50)%Z then io_ret None
   else
     ma <~ io_lift (calculate_ma_score lib df 20 50) ;;
     macd <~ io_lift (calculate_macd_score lib df) ;;
     adx <~ io_lift (calculate_adx_score lib df 14) ;;
     rsi <~ io_lift (calculate_rsi_score lib df 14) ;;
     obv <~ io_lift (calculate_obv_score lib df) ;;
     last_stamp <~ io_lift (iloc (df_index df) (-1)) ;;
     date <~ io_lift (strftime last_stamp) ;;
     io_ret (Some (build_result tk date ma macd adx rsi obv)))
  = ([], score_frame lib df tk).
Proof.
  unfold score_frame. destruct (len df <? 50)%Z; [reflexivity |].
  repeat (rewrite io_lift_bind;
          match goal with
          | |- match ?c with Ok _ => _ | Raise _ => _ end = _ =>
              destruct c; cbn [bind]; [| reflexivity]
          end).
  reflexivity.
Qed.

(** [calculate_trend_score] sends the requests of [get_stock_data] and
    nothing else, and ends as [score_frame] says on the fetched frame. *)
Lemma calculate_trend_score_spec (lib : NumLib) (world : World)
      (fixed_end_date : option string) (tk period : string) :
  calculate_trend_score lib world fixed_end_date tk period
  = (trace_of (get_stock_data world fixed_end_date tk period),
     match outcome (get_stock_data world fixed_end_date tk period) with
     | Ok None => Ok None
     | Ok (Some df) => score_frame lib df tk
     | Raise e => Raise e
     end).
Proof.
  unfold calculate_trend_score.
  destruct (get_stock_data world fixed_end_date tk period) as [t [[df|]|e]];
    unfold trace_of, outcome; cbn [fst snd].
  - unfold io_bind at 1. rewrite scoring_steps. rewrite app_nil_r. reflexivity.
  - unfold io_bind, io_ret. rewrite app_nil_r. reflexivity.
  - reflexivity.
Qed.

Lemma calculate_trend_score_outcome (lib : NumLib) (world : World)
      (fixed_end_date : option string) (tk period : string) :
  outcome (calculate_trend_score lib world fixed_end_date tk period)
  = match outcome (get_stock_data world fixed_end_date tk period) with
    | Ok None => Ok None
    | Ok (Some df) => score_frame lib df tk
    | Raise e => Raise e
    end.
Proof. rewrite calculate_trend_score_spec. reflexivity. Qed.

(** [calculate_trend_score] issues the requests of [get_stock_data] and
    nothing else, also when it raises. *)
Lemma calculate_trend_score_trace (lib : NumLib) (world : World)
      (fixed_end_date : option string) (tk period : string) :
  trace_of (calculate_trend_score lib world fixed_end_date tk period)
  = trace_of (get_stock_data world fixed_end_date tk period).
Proof. rewrite calculate_trend_score_spec. reflexivity. Qed.

Lemma score_frame_short (lib : NumLib) (df : DataFrame) (tk : string) :
  (len df < 50)%Z -> score_frame lib df tk = Ok None.
Proof.
  intros H. unfold score_frame.
  destruct (Z.ltb_spec (len df) 50); [reflexivity | lia].
Qed.

(** The last index entry of a frame that has a row. *)
Lemma last_stamp_ok (df : DataFrame) :
  (1 <= len df)%Z -> exists stamp, iloc (df_index df) (-1) = Ok stamp.
Proof.
  intros H. apply iloc_last_ok. unfold len in H.
  destruct (df_index df); [simpl in H; lia | discriminate].
Qed.

(** From 50 rows on, scoring one frame ends in one of three ways: the MA
    scorer's exception, ValueError for a last row whose date is NaT, or
    a result built from the frame. *)
Lemma score_frame_long (lib : NumLib) (df : DataFrame) (tk : string) :
  (50 <= len df)%Z ->
  (exists e, calculate_ma_score lib df 20 50 = Raise e
             /\ score_frame lib df tk = Raise e)
  \/ (exists ma, calculate_ma_score lib df 20 50 = Ok ma
                 /\ iloc (df_index df) (-1) = Ok NaT
                 /\ score_frame lib df tk = Raise ValueError)
  \/ (exists r, score_frame lib df tk = Ok (Some r) /\ scored_from lib df tk r).
Proof.
  intros H. unfold score_frame.
  destruct (Z.ltb_spec (len df) 50) as [Hlt | _]; [lia |].
  destruct (calculate_ma_score lib df 20 50) as [ma|e] eqn:Hma; cbn [bind];
    [| left; eauto].
  right.
  destruct (calculate_macd_score_returns lib df) as (macd & Hmacd & _).
  destruct (calculate_adx_score_returns lib df 14) as (adx & Hadx & _).
  destruct (calculate_rsi_score_returns lib df 14) as (rsi & Hrsi & _).
  destruct (calculate_obv_score_returns lib df) as (obv & Hobv & _).
  destruct (last_stamp_ok df) as (stamp & Hstamp); [lia |].
  rewrite Hmacd, Hadx, Hrsi, Hobv, Hstamp. cbn [bind].
  destruct stamp as [date|]; cbn [strftime bind].
  - right. eexists. split; [reflexivity |].
    exists date, ma, macd, adx, rsi, obv. repeat split; assumption.
  - left. exists ma. repeat split.
Qed.

(** A result of scoring a frame was built from that frame, of 50 rows or
    more. *)
Lemma score_frame_result (lib : NumLib) (df : DataFrame) (tk : string)
      (r : TrendScoreResult) :
  score_frame lib df tk = Ok (Some r) -> (50 <= len df)%Z /\ scored_from lib df tk r.
Proof.
  intros H.
  destruct (Z.ltb_spec (len df) 50) as [Hlt | Hge].
  - rewrite (score_frame_short lib df tk Hlt) in H. discriminate H.
  - split; [exact Hge |].
    destruct (score_frame_long lib df tk Hge)
      as [(e & _ & E) | [(ma & _ & _ & E) | (r' & E & Hs)]];
      rewrite E in H; try discriminate H.
    injection H as <-. exact Hs.
Qed.

(** Scoring a frame gives nothing only below 50 rows. *)
Lemma score_frame_none (lib : NumLib) (df : DataFrame) (tk : string) :
  score_frame lib df tk = Ok None -> (len df < 50)%Z.
Proof.
  intros H.
  destruct (Z.ltb_spec (len df) 50) as [Hlt | Hge]; [exact Hlt |].
  destruct (score_frame_long lib df tk Hge)
    as [(e & _ & E) | [(ma & _ & _ & E) | (r' & E & Hs)]];
    rewrite E in H; discriminate H.
Qed.

(** A result of single-ticker scoring was built from the fetched frame. *)
Lemma calculate_trend_score_result (lib : NumLib) (world : World)
      (fixed_end_date : option string) (tk period : string) (r : TrendScoreResult) :
  outcome (calculate_trend_score lib world fixed_end_date tk period) = Ok (Some r) ->
  exists df,
    outcome (get_stock_data world fixed_end_date tk period) = Ok (Some df)
    /\ (50 <= len df)%Z
    /\ scored_from lib df tk r.
Proof.
  rewrite calculate_trend_score_outcome.
  destruct (outcome (get_stock_data world fixed_end_date tk period)) as [[df|]|e];
    try discriminate.
  intros H. exists df. split; [reflexivity |]. apply score_frame_result. exact H.
Qed.

(** The component scores of a result built from a frame are in range. *)
Lemma scored_from_in_range (lib : NumLib) (df : DataFrame) (tk : string)
      (r : TrendScoreResult) :
  scored_from lib df tk r ->
  scores_in_range (ma_score r) (macd_score r) (adx_score r) (rsi_score r) (obv_score r)
  /\ (0 <=? normalized_trend_score r) = true
  /\ (normalized_trend_score r <=? 100) = true.
Proof.
  intros (date & ma & macd & adx & rsi & obv & _ & Hma & Hmacd & Hadx & Hrsi & Hobv & ->).
  assert (Hr : scores_in_range ma macd adx rsi obv).
  { unfold scores_in_range.
    pose proof (calculate_ma_score_range _ _ _ _ _ Hma).
    destruct (calculate_macd_score_returns lib df) as (v1 & E1 & ?).
    destruct (calculate_adx_score_returns lib df 14) as (v2 & E2 & ?).
    destruct (calculate_rsi_score_returns lib df 14) as (v3 & E3 & ?).
    destruct (calculate_obv_score_returns lib df) as (v4 & E4 & ?).
    rewrite Hmacd in E1. rewrite Hadx in E2. rewrite Hrsi in E3. rewrite Hobv in E4.
    injection E1 as ->. injection E2 as ->. injection E3 as ->. injection E4 as ->.
    repeat split; lia. }
  split; [exact Hr |].
  apply normalized_trend_score_bounds. exact Hr.
Qed.

(** C2.  When the fetched series has at least 50 bars, every result that
    single-ticker scoring returns has its component scores in [-3,3],
    [-2,2], [-2,2], [-1,1] and [-1,1] and its normalized score in
    [0,100].  Scoring returns such a result when the MA scorer returns
    and the last row carries a date; it raises the MA scorer's exception
    when that scorer raises, and ValueError when the date of the last row
    is NaT. *)
Theorem scored_result_in_ranges :
  forall (lib : NumLib) (world : World) (fixed_end_date : option string)
         (tk period : string) (df : DataFrame),
    outcome (get_stock_data world fixed_end_date tk period) = Ok (Some df) ->
    (50 <= len df)%Z ->
    let scored := outcome (calculate_trend_score lib world fixed_end_date tk period) in
    (forall r, scored = Ok (Some r) ->
       (-3 <= ma_score r <= 3)%Z
       /\ (-2 <= macd_score r <= 2)%Z
       /\ (-2 <= adx_score r <= 2)%Z
       /\ (-1 <= rsi_score r <= 1)%Z
       /\ (-1 <= obv_score r <= 1)%Z
       /\ (0 <=? normalized_trend_score r) = true
       /\ (normalized_trend_score r <=? 100) = true)
    /\ (forall ma date,
          calculate_ma_score lib df 20 50 = Ok ma ->
          iloc (df_index df) (-1) = Ok (Date date) ->
          exists r, scored = Ok (Some r))
    /\ (forall e, calculate_ma_score lib df 20 50 = Raise e -> scored = Raise e)
    /\ (forall ma,
          calculate_ma_score lib df 20 50 = Ok ma ->
          iloc (df_index df) (-1) = Ok NaT ->
          scored = Raise ValueError).
Proof.
  intros lib world fixed tk period df Hfetch Hlen scored. subst scored.
  rewrite calculate_trend_score_outcome, Hfetch.
  split; [| split; [| split]].
  - intros r Hr. apply score_frame_result in Hr. destruct Hr as [_ Hs].
    destruct (scored_from_in_range lib df tk r Hs) as ((? & ? & ? & ? & ?) & ? & ?).
    repeat split; assumption || lia.
  - intros ma date Hma Hdate.
    destruct (score_frame_long lib df tk Hlen)
      as [(e & E & _) | [(ma' & _ & E & _) | (r & E & _)]]; [congruence | congruence |].
    exists r. exact E.
  - intros e Hma.
    destruct (score_frame_long lib df tk Hlen)
      as [(e' & E & Hs) | [(ma' & E & _) | (r & _ & Hs)]]; [congruence | congruence |].
    destruct Hs as (date & ma & macd & adx & rsi & obv & _ & E & _). congruence.
  - intros ma Hma Hdate.
    destruct (score_frame_long lib df tk Hlen)
      as [(e' & E & _) | [(ma' & _ & _ & Hs) | (r & _ & Hs)]]; [congruence | exact Hs |].
    destruct Hs as (date & ma' & macd & adx & rsi & obv & E & _). congruence.
Qed.

Lemma scored_result_in_ranges_witness :
  exists r,
    outcome (calculate_trend_score failing_lib
               (mock_world (fun _ => bars_of_closes tie_closes)) None "SPY" "6mo")
    = Ok (Some r)
    /\ (-3 <= ma_score r <= 3)%Z
    /\ (-2 <= macd_score r <= 2)%Z
    /\ (-2 <= adx_score r <= 2)%Z
    /\ (-1 <= rsi_score r <= 1)%Z
    /\ (-1 <= obv_score r <= 1)%Z
    /\ (0 <=? normalized_trend_score r) = true
    /\ (normalized_trend_score r <=? 100) = true.
Proof.
  destruct (scored_result_in_ranges failing_lib
              (mock_world (fun _ => bars_of_closes tie_closes)) None "SPY" "6mo"
              (frame_of_bars (bars_of_closes tie_closes)))
    as (Hrange & Hreturns & _).
  - reflexivity.
  - vm_compute. discriminate.
  - destruct (Hreturns 1%Z "day-49"%string) as (r & Hr); [reflexivity | reflexivity |].
    exists r. split; [exact Hr |]. apply Hrange. exact Hr.
Defined.

(** C3.  Single-ticker scoring returns [None] exactly when the fetch
    returned [None] or a series of fewer than 50 bars.  So 49 bars give
    [None]; 50 bars never give [None]: they give a result when the MA
    scorer returns and the last row carries a date, and an exception
    otherwise (that of the MA scorer, or ValueError for a last row whose
    date is NaT). *)
Theorem null_iff_no_data_or_short :
  forall (lib : NumLib) (world : World) (fixed_end_date : option string)
         (tk period : string),
    let fetched := outcome (get_stock_data world fixed_end_date tk period) in
    let scored := outcome (calculate_trend_score lib world fixed_end_date tk period) in
    (scored = Ok None <->
       fetched = Ok None \/ exists df, fetched = Ok (Some df) /\ (len df < 50)%Z)
    /\ (forall df, fetched = Ok (Some df) -> len df = 49%Z -> scored = Ok None)
    /\ (forall df, fetched = Ok (Some df) -> len df = 50%Z ->
          (exists r, scored = Ok (Some r)) \/ raises scored)
    /\ (forall df ma date,
          fetched = Ok (Some df) -> len df = 50%Z ->
          calculate_ma_score lib df 20 50 = Ok ma ->
          iloc (df_index df) (-1) = Ok (Date date) ->
          exists r, scored = Ok (Some r))
    /\ (forall df,
          fetched = Ok (Some df) -> len df = 50%Z ->
          raises scored ->
          raises (calculate_ma_score lib df 20 50) \/ iloc (df_index df) (-1) = Ok NaT).
Proof.
  intros lib world fixed tk period fetched scored. subst fetched scored.
  rewrite calculate_trend_score_outcome.
  destruct (get_stock_data_outcome world fixed tk period) as ([df|] & ->).
  - split; [| split; [| split; [| split]]].
    + split.
      * intros H. right. exists df. split; [reflexivity |].
        eapply score_frame_none. exact H.
      * intros [[=] | (df' & [= <-] & Hlt)]. apply score_frame_short. exact Hlt.
    + intros df' [= <-] Hlen. apply score_frame_short. lia.
    + intros df' [= <-] Hlen.
      destruct (score_frame_long lib df tk)
        as [(e & _ & E) | [(ma & _ & _ & E) | (r & E & _)]]; [lia | | |];
        rewrite E; [right | right | left]; unfold raises; eauto.
    + intros df' ma date [= <-] Hlen Hma Hdate.
      destruct (score_frame_long lib df tk)
        as [(e & E & _) | [(ma' & _ & E & _) | (r & E & _)]];
        [lia | congruence | congruence |].
      exists r. exact E.
    + intros df' [= <-] Hlen (e & He).
      destruct (score_frame_long lib df tk)
        as [(e' & E & _) | [(ma & _ & E & _) | (r & E & _)]]; [lia | | |].
      * left. exists e'. exact E.
      * right. exact E.
      * congruence.
  - split; [| split; [| split; [| split]]].
    + split; [intros _; left; reflexivity | reflexivity].
    + intros df [=].
    + intros df [=].
    + intros df ma date [=].
    + intros df [=].
Qed.

Lemma null_iff_no_data_or_short_witness :
  outcome (calculate_trend_score failing_lib (mock_world (fun _ => flat_bars 49 100))
             None "SPY" "6mo") = Ok None
  /\ exists r,
      outcome (calculate_trend_score failing_lib (mock_world (fun _ => flat_bars 50 100))
                 None "SPY" "6mo") = Ok (Some r).
Proof.
  split.
  - destruct (null_iff_no_data_or_short failing_lib
                (mock_world (fun _ => flat_bars 49 100)) None "SPY" "6mo")
      as (_ & H49 & _).
    apply (H49 (frame_of_bars (flat_bars 49 100))); reflexivity.
  - destruct (null_iff_no_data_or_short failing_lib
                (mock_world (fun _ => flat_bars 50 100)) None "SPY" "6mo")
      as (_ & _ & _ & H50 & _).
    apply (H50 (frame_of_bars (flat_bars 50 100)) 0%Z "day-49"%string); reflexivity.
Defined.

(** The boundary on concrete series: 49 bars, 50 bars, and no key at all. *)
Example insufficient_data_boundary :
  outcome (calculate_trend_score failing_lib (mock_world (fun _ => flat_bars 49 100))
             None "SPY" "6mo") = Ok None
  /\ outcome (calculate_trend_score failing_lib (mock_world (fun _ => flat_bars 50 100))
                None "SPY" "6mo")
     = Ok (Some (build_result "SPY" "day-49" 0 0 0 0 0))
  /\ outcome (calculate_trend_score failing_lib (keyless_world None) None "SPY" "6mo")
     = Ok None.
Proof. repeat split; reflexivity. Qed.

(** Fifty bars of which the last has a null "t": the frame is fetched,
    its last index entry is NaT, and scoring raises ValueError where it
    formats that date; with 49 such bars the length guard answers first. *)
Example null_last_date_raises :
  let world := mock_world (fun _ => bars_with_null_last_t 50 100) in
  outcome (get_stock_data world None "SPY" "6mo")
  = Ok (Some (frame_of_bars (bars_with_null_last_t 50 100)))
  /\ iloc (df_index (frame_of_bars (bars_with_null_last_t 50 100))) (-1) = Ok NaT
  /\ outcome (calculate_trend_score failing_lib world None "SPY" "6mo") = Raise ValueError
  /\ outcome (calculate_trend_score failing_lib
                (mock_world (fun _ => bars_with_null_last_t 49 100)) None "SPY" "6mo")
     = Ok None.
Proof. repeat split; reflexivity. Qed.

(* ===================================================================== *)
(** * Ranking *)
(* ===================================================================== *)

Section Ranking.

Context {A : Type}.
Variable key : A -> float.

Lemma insert_desc_perm (x : A) (l : list A) :
  Permutation (insert_desc key x l) (x :: l).
Proof.
  induction l as [|y rest IH]; simpl; [reflexivity |].
  destruct (key x <? key y); [| reflexivity].
  rewrite IH. apply perm_swap.
Qed.

Lemma sort_reverse_perm (l : list A) : Permutation (sort_reverse key l) l.
Proof.
  induction l as [|x rest IH]; simpl; [reflexivity |].
  unfold sort_reverse in *. simpl.
  rewrite insert_desc_perm. now constructor.
Qed.

Lemma insert_desc_hd (x : A) (l : list A) (a : A) :
  key_desc key a x -> HdRel (key_desc key) a l ->
  HdRel (key_desc key) a (insert_desc key x l).
Proof.
  intros Hax Hal. destruct l as [|y rest]; simpl; [constructor; exact Hax |].
  inversion Hal; subst.
  destruct (key x <? key y); constructor; assumption.
Qed.

Lemma insert_desc_sorted (x : A) (l : list A) :
  (key x =? key x) = true ->
  Forall (fun a => (key a =? key a) = true) l ->
  Sorted (key_desc key) l ->
  Sorted (key_desc key) (insert_desc key x l).
Proof.
  intros Hx Hl Hs. induction l as [|y rest IH]; simpl.
  - repeat constructor.
  - inversion Hl as [|? ? Hy Hrest]; subst.
    inversion Hs as [|? ? Hsrest Hhd]; subst.
    destruct (key x <? key y) eqn:E.
    + constructor; [apply IH; assumption |].
      apply insert_desc_hd; [| exact Hhd].
      unfold key_desc. apply ltb_leb. exact E.
    + constructor; [exact Hs |]. constructor.
      unfold key_desc. apply not_ltb_leb; assumption.
Qed.

Lemma sort_reverse_sorted (l : list A) :
  Forall (fun a => (key a =? key a) = true) l ->
  Sorted (key_desc key) (sort_reverse key l).
Proof.
  induction l as [|x rest IH]; intros Hl; unfold sort_reverse in *; simpl.
  - constructor.
  - inversion Hl; subst.
    apply insert_desc_sorted; auto.
    eapply Permutation_Forall; [| eassumption].
    symmetry. apply sort_reverse_perm.
Qed.

Lemma key_desc_trans : Relations_1.Transitive (key_desc key).
Proof.
  intros a b c Hab Hbc. unfold key_desc in *.
  eapply leb_trans; eassumption.
Qed.

(** On keys that are not NaN the sorted list is in decreasing key order,
    every element against every later one. *)
Lemma sort_reverse_strongly_sorted (l : list A) :
  Forall (fun a => (key a =? key a) = true) l ->
  StronglySorted (key_desc key) (sort_reverse key l).
Proof.
  intros Hl. apply Sorted_StronglySorted; [apply key_desc_trans |].
  apply sort_reverse_sorted. exact Hl.
Qed.

Lemma ltb_eqb_distinct (a b k : float) :
  (a <? b) = true -> (a =? k) = true -> (b =? k) = false.
Proof.
  intros Hab Hak. destruct (b =? k) eqn:Hbk; [| reflexivity].
  exfalso.
  assert (Hka : (k <=? a) = true).
  { revert Hak. rewrite eqb_spec, leb_spec. unfold SFeqb, SFleb.
    rewrite (SFcompare_antisym (Prim2SF a) (Prim2SF k)).
    destruct (SFcompare (Prim2SF a) (Prim2SF k)) as [[]|]; simpl; congruence. }
  assert (Hbk' : (b <=? k) = true).
  { revert Hbk. rewrite eqb_spec, leb_spec. unfold SFeqb, SFleb.
    destruct (SFcompare (Prim2SF b) (Prim2SF k)) as [[]|]; simpl; congruence. }
  pose proof (leb_trans _ _ _ Hbk' Hka) as Hba.
  revert Hab Hba. rewrite ltb_spec, leb_spec. unfold SFltb, SFleb.
  rewrite (SFcompare_antisym (Prim2SF a) (Prim2SF b)).
  destruct (SFcompare (Prim2SF a) (Prim2SF b)) as [[]|]; simpl; congruence.
Qed.

Lemma insert_desc_with_key (k : float) (x : A) (l : list A) :
  with_key key k (insert_desc key x l) = with_key key k (x :: l).
Proof.
  unfold with_key. induction l as [|y rest IH]; simpl; [reflexivity |].
  destruct (key x <? key y) eqn:E; [| reflexivity].
  simpl. rewrite IH. simpl.
  destruct (key x =? k) eqn:Ex; [| reflexivity].
  rewrite (ltb_eqb_distinct _ _ _ E Ex). reflexivity.
Qed.

(** Stability: the elements of one key keep their order. *)
Lemma sort_reverse_stable (k : float) (l : list A) :
  with_key key k (sort_reverse key l) = with_key key k l.
Proof.
  induction l as [|x rest IH]; [reflexivity |].
  unfold sort_reverse in *. simpl fold_right.
  rewrite insert_desc_with_key. unfold with_key in *. simpl.
  rewrite IH. reflexivity.
Qed.

End Ranking.

(** Three scores in input order 72.4, 88.1, 55.0 come out as 88.1, 72.4,
    55.0; of two equal scores the first seen stays first. *)
Example sort_reverse_runs :
  sort_reverse (fun p : string * float => snd p)
    [("A", 72.4); ("B", 88.1); ("C", 55.0)]%string
  = [("B", 88.1); ("A", 72.4); ("C", 55.0)]%string
  /\ sort_reverse (fun p : string * float => snd p)
       [("A", 50); ("B", 88.1); ("C", 50); ("D", 88.1)]%string
     = [("B", 88.1); ("D", 88.1); ("A", 50); ("C", 50)]%string.
Proof. split; reflexivity. Qed.

(* ===================================================================== *)
(** * Scoring a batch *)
(* ===================================================================== *)

(** The loop appends the survivors to what it was given unless the
    scoring of a ticker raises, which ends it; its requests are those of
    the fetches of the tickers it got to, in input order. *)
Lemma batch_loop_spec (lib : NumLib) (world : World) (fixed_end_date : option string)
      (period : string) (tickers : list string) :
  forall results : list TrendScoreResult,
    batch_loop lib world fixed_end_date tickers period results
    = (flat_map (fun tk => trace_of (get_stock_data world fixed_end_date tk period))
                (attempted lib world fixed_end_date tickers period),
       match first_raised lib world fixed_end_date tickers period with
       | Some e => Raise e
       | None => Ok (results ++ survivors lib world fixed_end_date tickers period)
       end).
Proof.
  induction tickers as [|tk rest IH]; intros results.
  - simpl. unfold survivors. simpl. rewrite app_nil_r. reflexivity.
  - cbn [batch_loop attempted first_raised flat_map]. unfold survivors. cbn [flat_map].
    fold (survivors lib world fixed_end_date rest period).
    pose proof (calculate_trend_score_trace lib world fixed_end_date tk period) as Ht.
    destruct (calculate_trend_score lib world fixed_end_date tk period) as [t [o|e]];
      unfold trace_of, outcome in *; cbn [fst snd] in *; subst t.
    + unfold io_bind. rewrite IH.
      destruct o as [r|]; [rewrite <- app_assoc |]; reflexivity.
    + unfold io_bind. cbn [flat_map]. rewrite app_nil_r. reflexivity.
Qed.

(** What batch scoring returns and requests, in one place. *)
Lemma calculate_batch_scores_spec (lib : NumLib) (world : World)
      (fixed_end_date : option string) (tickers : list string) (period : string) :
  calculate_batch_scores lib world fixed_end_date tickers period
  = (flat_map (fun tk => trace_of (get_stock_data world fixed_end_date tk period))
              (attempted lib world fixed_end_date tickers period),
     match first_raised lib world fixed_end_date tickers period with
     | Some e => Raise e
     | None => Ok (sort_reverse normalized_trend_score
                     (survivors lib world fixed_end_date tickers period))
     end).
Proof.
  unfold calculate_batch_scores. rewrite batch_loop_spec. unfold io_bind, io_ret.
  destruct (first_raised lib world fixed_end_date tickers period); [reflexivity |].
  rewrite app_nil_r. reflexivity.
Qed.

(** No ticker's scoring raises exactly when there is no first exception. *)
Lemma first_raised_none (lib : NumLib) (world : World) (fixed_end_date : option string)
      (period : string) (tickers : list string) :
  first_raised lib world fixed_end_date tickers period = None
  <-> forall tk, In tk tickers ->
        ~ raises (outcome (calculate_trend_score lib world fixed_end_date tk period)).
Proof.
  induction tickers as [|tk rest IH]; simpl.
  - split; [intros _ tk [] | reflexivity].
  - destruct (outcome (calculate_trend_score lib world fixed_end_date tk period))
      as [o|e] eqn:E.
    + rewrite IH. split.
      * intros H tk' [<- | Hin]; [rewrite E; intros (e & He); discriminate He | auto].
      * intros H tk' Hin. apply H. right. exact Hin.
    + split; [discriminate |].
      intros H. exfalso. apply (H tk); [left; reflexivity |].
      rewrite E. exists e. reflexivity.
Qed.


(** Every survivor was built from a fetched frame. *)
Lemma survivors_scored (lib : NumLib) (world : World) (fixed_end_date : option string)
      (period : string) (tickers : list string) :
  Forall (fun r => exists df tk, scored_from lib df tk r)
         (survivors lib world fixed_end_date tickers period).
Proof.
  unfold survivors. induction tickers as [|tk rest IH]; simpl; [constructor |].
  apply Forall_app. split; [| exact IH].
  destruct (outcome (calculate_trend_score lib world fixed_end_date tk period))
    as [[r|]|e] eqn:E; repeat constructor.
  destruct (calculate_trend_score_result lib world fixed_end_date tk period r E)
    as (df & _ & _ & Hs).
  eauto.
Qed.

(** C6.  A batch that returns returns the results of the tickers whose
    single-ticker scoring is not [None], ordered by decreasing normalized
    score, those of equal score in their input order.  The batch returns
    when no ticker's scoring raises; a ticker whose scoring raises is not
    skipped: the batch raises. *)
Theorem batch_ranks_the_survivors :
  forall (lib : NumLib) (world : World) (fixed_end_date : option string)
         (tickers : list string) (period : string),
    let ranking := outcome (calculate_batch_scores lib world fixed_end_date tickers period) in
    let kept := survivors lib world fixed_end_date tickers period in
    (forall results,
       ranking = Ok results ->
       Permutation results kept
       /\ StronglySorted (key_desc normalized_trend_score) results
       /\ forall k : float,
           with_key normalized_trend_score k results
           = with_key normalized_trend_score k kept)
    /\ ((forall tk, In tk tickers ->
           ~ raises (outcome (calculate_trend_score lib world fixed_end_date tk period))) ->
        exists results, ranking = Ok results)
    /\ (forall tk, In tk tickers ->
          raises (outcome (calculate_trend_score lib world fixed_end_date tk period)) ->
          raises ranking).
Proof.
  intros lib world fixed tickers period ranking kept. subst ranking kept.
  rewrite calculate_batch_scores_spec. unfold outcome at 1 2 3. cbn [snd].
  pose proof (first_raised_none lib world fixed period tickers) as Hnone.
  split; [| split].
  - intros results H.
    destruct (first_raised lib world fixed tickers period); [discriminate H |].
    injection H as <-.
    split; [apply sort_reverse_perm |].
    split; [| intros k; apply sort_reverse_stable].
    apply sort_reverse_strongly_sorted.
    eapply Forall_impl; [| apply survivors_scored].
    intros r (df & tk & Hs).
    destruct (scored_from_in_range lib df tk r Hs) as (_ & H0 & _).
    eapply leb_not_nan_r. exact H0.
  - intros H. apply Hnone in H. rewrite H. eexists. reflexivity.
  - intros tk Hin Hr.
    destruct (first_raised lib world fixed tickers period) as [e|];
      [exists e; reflexivity |].
    exfalso. exact (proj1 Hnone eq_refl tk Hin Hr).
Qed.

(** A batch of four tickers, one without enough history: the three
    survivors come out by decreasing score, the two of score 50 in input
    order. *)
Example batch_run :
  let book := fun tk : string =>
                if String.eqb tk "UP" then bars_of_closes tie_closes
                else if String.eqb tk "NEW" then flat_bars 10 100
                else flat_bars 50 100 in
  option_map (map (fun r => (ticker r, normalized_trend_score r)))
    (match outcome (calculate_batch_scores failing_lib (mock_world book) None
                      ["AAA"; "NEW"; "UP"; "BBB"]%string "6mo") with
     | Ok results => Some results
     | Raise _ => None
     end)
  = Some [("UP", 55.56); ("AAA", 50); ("BBB", 50)]%string.
Proof. reflexivity. Qed.

(** A batch of three tickers of which the second has a last row without
    date: the batch raises ValueError after the requests of the first two
    tickers, and the third is never requested. *)
Example batch_aborts_on_raise :
  let book := fun tk : string =>
                if String.eqb tk "BAD" then bars_with_null_last_t 50 100
                else flat_bars 50 100 in
  calculate_batch_scores failing_lib (mock_world book) (Some "2024-06-28"%string)
    ["AAA"; "BAD"; "BBB"]%string "6mo"
  = ([HttpGetRange "AAA" 19813 19999; HttpGetRange "BAD" 19813 19999], Raise ValueError).
Proof. reflexivity. Qed.




(** The requests of a batch of two tickers scored as of a fixed date. *)
Example batch_trace_run :
  trace_of (calculate_batch_scores failing_lib (mock_world (fun _ => flat_bars 50 100))
              (Some "2024-06-28"%string) ["AAPL"; "BRK-B"]%string "1y")
  = [HttpGetRange "AAPL" 19634 19999; HttpGetRange "BRK.B" 19634 19999].
Proof. reflexivity. Qed.

(* ===================================================================== *)
(** * More on the order of binary64 values *)
(* ===================================================================== *)

Module PyFloatOrder.

Ltac by_float_cases a b c sa sb sc :=
  destruct a as [sa|sa| |sa ? ?], b as [sb|sb| |sb ? ?], c as [sc|sc| |sc ? ?];
  simpl; try congruence;
  try (destruct sa; simpl; congruence);
  try (destruct sb; simpl; congruence);
  try (destruct sc; simpl; congruence);
  try (destruct sa, sb; simpl; congruence);
  try (destruct sa, sc; simpl; congruence);
  try (destruct sb, sc; simpl; congruence);
  try (destruct sa, sb, sc; simpl; congruence).

Lemma SFltb_leb_trans (a b c : spec_float) :
  SFltb a b = true -> SFleb b c = true -> SFltb a c = true.
Proof.
  unfold SFltb, SFleb.
  by_float_cases a b c sa sb sc.
  repeat match goal with
         | |- context [Pos.compare_cont Eq ?x ?y] =>
             change (Pos.compare_cont Eq x y) with (Pos.compare x y)
         end.
  destruct sa, sb, sc; simpl; try congruence;
    repeat match goal with
           | |- context [(?x ?= ?y)%Z] => destruct (Z.compare_spec x y)
           end; try congruence; try lia;
    repeat match goal with
           | |- context [(?x ?= ?y)%positive] => destruct (Pos.compare_spec x y)
           end; simpl; try congruence; try lia.
Qed.

Lemma SFleb_ltb_trans (a b c : spec_float) :
  SFleb a b = true -> SFltb b c = true -> SFltb a c = true.
Proof.
  unfold SFltb, SFleb.
  by_float_cases a b c sa sb sc.
  repeat match goal with
         | |- context [Pos.compare_cont Eq ?x ?y] =>
             change (Pos.compare_cont Eq x y) with (Pos.compare x y)
         end.
  destruct sa, sb, sc; simpl; try congruence;
    repeat match goal with
           | |- context [(?x ?= ?y)%Z] => destruct (Z.compare_spec x y)
           end; try congruence; try lia;
    repeat match goal with
           | |- context [(?x ?= ?y)%positive] => destruct (Pos.compare_spec x y)
           end; simpl; try congruence; try lia.
Qed.

Lemma ltb_leb_trans (a b c : float) :
  (a <? b) = true -> (b <=? c) = true -> (a <? c) = true.
Proof. rewrite !ltb_spec, leb_spec. apply SFltb_leb_trans. Qed.

Lemma leb_ltb_trans (a b c : float) :
  (a <=? b) = true -> (b <? c) = true -> (a <? c) = true.
Proof. rewrite !ltb_spec, leb_spec. apply SFleb_ltb_trans. Qed.

Lemma ltb_trans (a b c : float) :
  (a <? b) = true -> (b <? c) = true -> (a <? c) = true.
Proof.
  intros Hab Hbc. eapply ltb_leb_trans; [exact Hab |].
  apply PyFloatFacts.ltb_leb. exact Hbc.
Qed.

(** [a <= b] excludes [b < a]. *)
Lemma leb_not_ltb (a b : float) : (a <=? b) = true -> (b <? a) = false.
Proof.
  rewrite ltb_spec, leb_spec. unfold SFltb, SFleb.
  rewrite (PyFloatFacts.SFcompare_antisym (Prim2SF a) (Prim2SF b)).
  destruct (SFcompare (Prim2SF a) (Prim2SF b)) as [[]|]; simpl; congruence.
Qed.

(** NaN compares with nothing. *)
Lemma nan_ltb (x y : float) :
  isna x = true -> (x <? y) = false /\ (y <? x) = false.
Proof.
  unfold isna, is_nan. rewrite eqb_spec, !ltb_spec. unfold SFeqb, SFltb.
  destruct (Prim2SF x) as [sx|sx| |sx mx ex]; simpl.
  - discriminate.
  - destruct sx; discriminate.
  - intros _. split; [reflexivity | destruct (Prim2SF y); reflexivity].
  - destruct sx; rewrite Z.compare_refl, Pos.compare_cont_refl; discriminate.
Qed.

Lemma not_nan_eqb (x : float) : isna x = false -> (x =? x) = true.
Proof.
  unfold isna, is_nan. destruct (x =? x); [reflexivity | discriminate].
Qed.

(** On values that are not NaN, [a <= b] is "not [b < a]". *)
Lemma leb_negb_ltb (a b : float) :
  isna a = false -> isna b = false -> (a <=? b) = negb (b <? a).
Proof.
  intros Ha Hb. apply not_nan_eqb in Ha. apply not_nan_eqb in Hb.
  destruct (b <? a) eqn:E; simpl.
  - destruct (a <=? b) eqn:E'; [| reflexivity].
    apply leb_not_ltb in E'. congruence.
  - apply PyFloatFacts.not_ltb_leb; assumption.
Qed.

End PyFloatOrder.

Import PyFloatOrder.

(* ===================================================================== *)
(** * The aggregation as a function of the sum of the scores *)
(* ===================================================================== *)

(** The nineteen sums that five in-range component scores can have. *)
Definition all_sums : list Z :=
  [-9; -8; -7; -6; -5; -4; -3; -2; -1; 0; 1; 2; 3; 4; 5; 6; 7; 8; 9]%Z.

(** The two presented values, from the sum of the five scores. *)
Definition normalized_of_sum (s : Z) : float :=
  py_round (normalized (of_int s * weight)) 2.

Definition weighted_of_sum (s : Z) : float :=
  py_round (of_int s * weight) 3.

Lemma build_result_of_sum (tk date : string) (ma macd adx rsi obv : Z) :
  normalized_trend_score (build_result tk date ma macd adx rsi obv)
  = normalized_of_sum (ma + macd + adx + rsi + obv)
  /\ weighted_raw_score (build_result tk date ma macd adx rsi obv)
     = weighted_of_sum (ma + macd + adx + rsi + obv).
Proof. split; reflexivity. Qed.

Lemma for_each_sum (P : Z -> Prop) :
  Forall P all_sums ->
  forall ma macd adx rsi obv : Z,
    scores_in_range ma macd adx rsi obv -> P (ma + macd + adx + rsi + obv)%Z.
Proof.
  intros HP ma macd adx rsi obv H.
  rewrite Forall_forall in HP. apply HP.
  apply score_sum_cases. exact H.
Qed.

Lemma sums_ordered_like_scores :
  forallb (fun a =>
             forallb (fun b =>
                        Bool.eqb (a <? b)%Z (normalized_of_sum a <? normalized_of_sum b)
                        && Bool.eqb (a <? b)%Z (weighted_of_sum a <? weighted_of_sum b))
                     all_sums)
          all_sums = true.
Proof. vm_compute. reflexivity. Qed.

(** X: ranking by normalized score is ranking by the sum of the component
    scores.  For two in-range score tuples, the first has the smaller sum
    exactly when it has the smaller normalized score, and exactly when it
    has the smaller weighted raw score: rounding merges no two sums. *)
Theorem normalized_score_orders_like_sum :
  forall (tk1 d1 tk2 d2 : string) (ma1 macd1 adx1 rsi1 obv1 ma2 macd2 adx2 rsi2 obv2 : Z),
    scores_in_range ma1 macd1 adx1 rsi1 obv1 ->
    scores_in_range ma2 macd2 adx2 rsi2 obv2 ->
    let r1 := build_result tk1 d1 ma1 macd1 adx1 rsi1 obv1 in
    let r2 := build_result tk2 d2 ma2 macd2 adx2 rsi2 obv2 in
    ((ma1 + macd1 + adx1 + rsi1 + obv1 < ma2 + macd2 + adx2 + rsi2 + obv2)%Z
     <-> (normalized_trend_score r1 <? normalized_trend_score r2) = true)
    /\ ((ma1 + macd1 + adx1 + rsi1 + obv1 < ma2 + macd2 + adx2 + rsi2 + obv2)%Z
        <-> (weighted_raw_score r1 <? weighted_raw_score r2) = true).
Proof.
  intros tk1 d1 tk2 d2 ma1 macd1 adx1 rsi1 obv1 ma2 macd2 adx2 rsi2 obv2 H1 H2 r1 r2.
  subst r1 r2.
  destruct (build_result_of_sum tk1 d1 ma1 macd1 adx1 rsi1 obv1) as [-> ->].
  destruct (build_result_of_sum tk2 d2 ma2 macd2 adx2 rsi2 obv2) as [-> ->].
  pose proof (score_sum_cases _ _ _ _ _ H1) as I1.
  pose proof (score_sum_cases _ _ _ _ _ H2) as I2.
  pose proof sums_ordered_like_scores as Hall.
  rewrite forallb_forall in Hall. specialize (Hall _ I1).
  rewrite forallb_forall in Hall. specialize (Hall _ I2).
  apply andb_true_iff in Hall. destruct Hall as [Hn Hw].
  apply Bool.eqb_prop in Hn. apply Bool.eqb_prop in Hw.
  rewrite <- Hn, <- Hw, Z.ltb_lt. split; reflexivity.
Qed.

Lemma normalized_score_orders_like_sum_witness :
  scores_in_range 1 0 (-1) 0 0 /\ scores_in_range 3 2 0 (-1) 1
  /\ (normalized_trend_score (build_result "A" "2024-01-02" 1 0 (-1) 0 0)
      <? normalized_trend_score (build_result "B" "2024-01-02" 3 2 0 (-1) 1)) = true.
Proof.
  assert (H1 : scores_in_range 1 0 (-1) 0 0) by (unfold scores_in_range; lia).
  assert (H2 : scores_in_range 3 2 0 (-1) 1) by (unfold scores_in_range; lia).
  split; [exact H1 |]. split; [exact H2 |].
  apply (proj1 (normalized_score_orders_like_sum "A" "2024-01-02" "B" "2024-01-02"
                  1 0 (-1) 0 0 3 2 0 (-1) 1 H1 H2)).
  reflexivity.
Defined.

(** X: the scale is symmetric around 50.  Negating the five in-range
    scores mirrors the result: the two normalized scores add up to 100
    and the two weighted raw scores to 0. *)
Theorem negated_scores_mirror :
  forall (tk date : string) (ma macd adx rsi obv : Z),
    scores_in_range ma macd adx rsi obv ->
    (normalized_trend_score (build_result tk date ma macd adx rsi obv)
     + normalized_trend_score (build_result tk date (- ma) (- macd) (- adx) (- rsi) (- obv))
     = 100)
    /\ (weighted_raw_score (build_result tk date ma macd adx rsi obv)
        + weighted_raw_score (build_result tk date (- ma) (- macd) (- adx) (- rsi) (- obv))
        = 0).
Proof.
  intros tk date ma macd adx rsi obv H.
  destruct (build_result_of_sum tk date ma macd adx rsi obv) as [-> ->].
  destruct (build_result_of_sum tk date (- ma) (- macd) (- adx) (- rsi) (- obv)) as [-> ->].
  replace (- ma + - macd + - adx + - rsi + - obv)%Z
    with (- (ma + macd + adx + rsi + obv))%Z by lia.
  apply (for_each_sum
           (fun s => normalized_of_sum s + normalized_of_sum (- s) = 100
                     /\ weighted_of_sum s + weighted_of_sum (- s) = 0));
    [| exact H].
  unfold all_sums. repeat constructor; vm_compute; reflexivity.
Qed.

Lemma negated_scores_mirror_witness :
  scores_in_range 2 1 (-1) 1 0
  /\ normalized_trend_score (build_result "SPY" "2024-01-02" 2 1 (-1) 1 0) = 66.67
  /\ normalized_trend_score (build_result "SPY" "2024-01-02" (-2) (-1) 1 (-1) 0) = 33.33
  /\ (66.67 + 33.33 = 100).
Proof.
  assert (H : scores_in_range 2 1 (-1) 1 0) by (unfold scores_in_range; lia).
  split; [exact H |]. split; [reflexivity |]. split; [reflexivity |].
  exact (proj1 (negated_scores_mirror "SPY" "2024-01-02" 2 1 (-1) 1 0 H)).
Defined.

(** X: on in-range scores the clamp to [0, 100] never changes the value:
    the rescaled sum is already inside, and the two ends are reached only
    by the extreme sums, 100 at +9 and 0 at -9. *)
Theorem clamp_is_idle_on_in_range_scores :
  forall (tk date : string) (ma macd adx rsi obv : Z),
    scores_in_range ma macd adx rsi obv ->
    normalized (weighted_raw ma macd adx rsi obv)
      = (weighted_raw ma macd adx rsi obv + 2.1) / 4.2 * 100
    /\ (normalized_trend_score (build_result tk date ma macd adx rsi obv) = 100
        <-> (ma + macd + adx + rsi + obv = 9)%Z)
    /\ (normalized_trend_score (build_result tk date ma macd adx rsi obv) = 0
        <-> (ma + macd + adx + rsi + obv = -9)%Z).
Proof.
  intros tk date ma macd adx rsi obv H.
  destruct (build_result_of_sum tk date ma macd adx rsi obv) as [-> _].
  unfold weighted_raw.
  apply (for_each_sum
           (fun s => normalized (of_int s * weight) = (of_int s * weight + 2.1) / 4.2 * 100
                     /\ (normalized_of_sum s = 100 <-> s = 9%Z)
                     /\ (normalized_of_sum s = 0 <-> s = (-9)%Z)));
    [| exact H].
  unfold all_sums.
  repeat constructor;
    try (vm_compute; reflexivity);
    try (intros _; vm_compute; reflexivity);
    try discriminate;
    try (intros E; exfalso; revert E; apply float_neq; vm_compute; reflexivity).
Qed.

Lemma clamp_is_idle_on_in_range_scores_witness :
  scores_in_range 3 2 2 1 1
  /\ normalized (weighted_raw 3 2 2 1 1) = (weighted_raw 3 2 2 1 1 + 2.1) / 4.2 * 100
  /\ normalized_trend_score (build_result "SPY" "2024-01-02" 3 2 2 1 1) = 100.
Proof.
  assert (H : scores_in_range 3 2 2 1 1) by (unfold scores_in_range; lia).
  split; [exact H |].
  destruct (clamp_is_idle_on_in_range_scores "SPY" "2024-01-02" 3 2 2 1 1 H)
    as (Hc & H100 & _).
  split; [exact Hc | apply H100; reflexivity].
Defined.

(* ===================================================================== *)
(** * What the scorers answer on series whose library calls return *)
(* ===================================================================== *)

Lemma iloc_prev_ok {A : Type} (s : list A) :
  (1 < slen s)%Z -> exists x, iloc s (-2) = Ok x.
Proof.
  unfold iloc, slen. intros Hs.
  change (-2 <? 0)%Z with true. cbv iota.
  remember (-2 + Z.of_nat (List.length s))%Z as j eqn:Hj.
  assert (Hj1 : (j <? 0)%Z = false) by (apply Z.ltb_ge; lia).
  assert (Hj2 : (Z.of_nat (List.length s) <=? j)%Z = false) by (apply Z.leb_gt; lia).
  rewrite Hj1, Hj2. cbn [orb].
  destruct (nth_error s (Z.to_nat j)) eqn:E; [eexists; reflexivity |].
  apply nth_error_None in E. lia.
Qed.

(** The direction of the MA ladder is that of the close against the short
    mean; the long mean only adds strength. *)
Lemma ma_ladder_sign (p s l : float) :
  ((0 < ma_ladder p s l)%Z <-> gtb p s = true)
  /\ ((ma_ladder p s l < 0)%Z <-> (p <? s) = true)
  /\ ((2 <= ma_ladder p s l)%Z -> gtb s l = true)
  /\ ((ma_ladder p s l <= -2)%Z -> (s <? l) = true).
Proof.
  unfold ma_ladder, gtb.
  destruct (s <? p) eqn:E1; [pose proof (ltb_asym _ _ E1) as E1' |];
    destruct (l <? s) eqn:E2; destruct (p <? s) eqn:E3; destruct (s <? l) eqn:E4;
    cbn [andb]; split_ifs; repeat split; intros; try lia; congruence.
Qed.

Lemma macd_ladder_sign (m s p : float) :
  ((0 < macd_ladder m s p)%Z <-> gtb m s = true)
  /\ ((macd_ladder m s p < 0)%Z <-> (m <? s) = true)
  /\ (macd_ladder m s p = 2%Z -> gtb m 0 = true /\ gtb (m - p) 0 = true)
  /\ (macd_ladder m s p = (-2)%Z -> (m <? 0) = true /\ (m - p <? 0) = true).
Proof.
  unfold macd_ladder, gtb.
  destruct (s <? m) eqn:E1; [pose proof (ltb_asym _ _ E1) as E1' |];
    destruct (m <? s) eqn:E2;
    destruct (0 <? m) eqn:E3; destruct (0 <? m - p) eqn:E4;
    destruct (m <? 0) eqn:E5; destruct (m - p <? 0) eqn:E6;
    cbn [andb]; repeat split; intros; try lia; congruence.
Qed.

Lemma adx_ladder_sign (a p m : float) :
  (adx_ladder a p m = 0%Z <-> gtb a 20 = false)
  /\ ((0 < adx_ladder a p m)%Z <-> gtb a 20 = true /\ gtb p m = true)
  /\ ((adx_ladder a p m < 0)%Z <-> gtb a 20 = true /\ gtb p m = false)
  /\ ((adx_ladder a p m = 2 \/ adx_ladder a p m = -2)%Z <-> gtb a 30 = true).
Proof.
  unfold adx_ladder, gtb.
  destruct (30 <? a) eqn:E30.
  - assert (E20 : (20 <? a) = true) by (eapply ltb_trans; [| exact E30]; reflexivity).
    rewrite E20. destruct (m <? p); repeat split; intros; try lia; try congruence;
      try (destruct H; congruence); auto.
  - destruct (20 <? a) eqn:E20; destruct (m <? p); repeat split; intros;
      try lia; try congruence; try (destruct H; congruence); try (destruct H; lia).
Qed.

Lemma obv_ladder_sign (t : float) :
  (obv_ladder t = 1%Z <-> gtb t 0 = true)
  /\ (obv_ladder t = (-1)%Z <-> (t <? 0) = true)
  /\ (obv_ladder t = 0%Z <-> gtb t 0 = false /\ (t <? 0) = false).
Proof.
  unfold obv_ladder, gtb.
  destruct (0 <? t) eqn:E1; [pose proof (ltb_asym _ _ E1) as E1' |];
    destruct (t <? 0) eqn:E2; repeat split; intros; try lia; try congruence;
    try (destruct H; congruence).
Qed.

(** The RSI table by bucket, for a value that is not NaN. *)
Lemma rsi_ladder_buckets (r : float) :
  isna r = false ->
  (rsi_ladder r = (-1)%Z <->
     (70 <? r) = true \/ ((30 <=? r) = true /\ (r <? 40) = true))
  /\ (rsi_ladder r = 1%Z <->
        ((60 <? r) = true /\ (r <=? 70) = true) \/ (r <? 30) = true)
  /\ (rsi_ladder r = 0%Z <-> (40 <=? r) = true /\ (r <=? 60) = true).
Proof.
  intros Hr.
  assert (Hc : forall c : float, isna c = false ->
                 (c <=? r) = negb (r <? c) /\ (r <=? c) = negb (c <? r)).
  { intros c Hc. split; apply leb_negb_ltb; assumption. }
  destruct (Hc 30 eq_refl) as [-> _]. destruct (Hc 70 eq_refl) as [_ ->].
  destruct (Hc 40 eq_refl) as [-> _]. destruct (Hc 60 eq_refl) as [_ ->].
  clear Hc.
  assert (H76 : (70 <? r) = true -> (60 <? r) = true)
    by (intros H; eapply ltb_trans; [| exact H]; reflexivity).
  assert (H34 : (r <? 30) = true -> (r <? 40) = true)
    by (intros H; eapply ltb_trans; [exact H |]; reflexivity).
  assert (H64 : (60 <? r) = true -> (r <? 40) = false).
  { intros H. apply ltb_asym. eapply ltb_trans; [| exact H]. reflexivity. }
  unfold rsi_ladder, gtb.
  destruct (70 <? r); destruct (60 <? r); destruct (r <? 30); destruct (r <? 40);
    cbn [negb];
    try (specialize (H76 eq_refl); discriminate H76);
    try (specialize (H34 eq_refl); discriminate H34);
    try (specialize (H64 eq_refl); discriminate H64);
    repeat split; intros; try lia; try congruence; auto;
    repeat match goal with
           | H : _ \/ _ |- _ => destruct H
           | H : _ /\ _ |- _ => destruct H
           end; congruence.
Qed.

(** The MACD scorer on a series whose ta calls return. *)
Lemma calculate_macd_score_on (lib : NumLib) (data : DataFrame)
      (close macd_line macd_signal : Series) (latest_macd latest_signal : float) :
  (34 <= len data)%Z ->
  getitem data "Close" = Ok close ->
  ta_macd lib close = Ok macd_line ->
  ta_macd_signal lib close = Ok macd_signal ->
  iloc macd_line (-1) = Ok latest_macd ->
  iloc macd_signal (-1) = Ok latest_signal ->
  exists prev_macd,
    calculate_macd_score lib data
    = Ok (if isna latest_macd || isna latest_signal then 0%Z
          else macd_ladder latest_macd latest_signal prev_macd).
Proof.
  intros Hlen Hclose Hline Hsig Hm Hs.
  unfold calculate_macd_score.
  assert (E : (len data <? 34)%Z = false) by (apply Z.ltb_ge; lia).
  rewrite E, Hclose. cbn [bind]. rewrite Hline, Hsig. cbn [bind].
  unfold isna_series. rewrite !iloc_map, Hm, Hs. cbn [bind].
  destruct (isna latest_macd); cbn [bind orb try_except]; [exists 0; reflexivity |].
  destruct (isna latest_signal); cbn [bind orb try_except]; [exists 0; reflexivity |].
  destruct (Z.ltb_spec 1 (slen macd_line)) as [H1 | H1];
    [destruct (iloc_prev_ok macd_line H1) as (pm & ->) |];
    (destruct (Z.ltb_spec 1 (slen macd_signal)) as [H2 | H2];
     [destruct (iloc_prev_ok macd_signal H2) as (ps & ->) |]);
    cbn [bind try_except]; eexists; reflexivity.
Qed.

(** The ADX scorer on a series whose ta calls return. *)
Lemma calculate_adx_score_on (lib : NumLib) (data : DataFrame) (period : Z)
      (high low close adx plus_di minus_di : Series)
      (latest_adx latest_plus_di latest_minus_di : float) :
  (period + 14 <= len data)%Z ->
  getitem data "High" = Ok high ->
  getitem data "Low" = Ok low ->
  getitem data "Close" = Ok close ->
  ta_adx lib high low close period = Ok adx ->
  ta_adx_pos lib high low close period = Ok plus_di ->
  ta_adx_neg lib high low close period = Ok minus_di ->
  iloc adx (-1) = Ok latest_adx ->
  iloc plus_di (-1) = Ok latest_plus_di ->
  iloc minus_di (-1) = Ok latest_minus_di ->
  calculate_adx_score lib data period
  = Ok (if isna latest_adx || isna latest_plus_di || isna latest_minus_di then 0%Z
        else adx_ladder latest_adx latest_plus_di latest_minus_di).
Proof.
  intros Hlen Hh Hl Hc Ha Hp Hm Hla Hlp Hlm.
  unfold calculate_adx_score.
  assert (E : (len data <? period + 14)%Z = false) by (apply Z.ltb_ge; lia).
  rewrite E, Hh, Hl, Hc. cbn [bind]. rewrite Ha, Hp, Hm. cbn [bind].
  unfold isna_series. rewrite !iloc_map, Hla, Hlp, Hlm. cbn [bind].
  destruct (isna latest_adx); cbn [bind orb try_except]; [reflexivity |].
  destruct (isna latest_plus_di); cbn [bind orb try_except]; [reflexivity |].
  destruct (isna latest_minus_di); reflexivity.
Qed.

(** The OBV scorer on a series whose ta call returns. *)
Lemma calculate_obv_score_on (lib : NumLib) (data : DataFrame)
      (close volume obv : Series) :
  (10 <= len data)%Z ->
  getitem data "Close" = Ok close ->
  getitem data "Volume" = Ok volume ->
  ta_obv lib close volume = Ok obv ->
  calculate_obv_score lib data
  = if (slen obv <? 5)%Z then Ok 0%Z
    else match polyfit_slope lib (iloc_last 5 obv) with
         | Ok obv_trend => Ok (obv_ladder obv_trend)
         | Raise _ => Ok 0%Z
         end.
Proof.
  intros Hlen Hc Hv Hobv.
  unfold calculate_obv_score.
  assert (E : (len data <? 10)%Z = false) by (apply Z.ltb_ge; lia).
  rewrite E, Hc. cbn [bind]. rewrite Hv. cbn [bind]. rewrite Hobv. cbn [bind].
  destruct (slen obv <? 5)%Z; [reflexivity |].
  destruct (polyfit_slope lib (iloc_last 5 obv)); reflexivity.
Qed.

(** The last [n] values of a series of at least [n] are [n] values that
    end the series. *)
Lemma iloc_last_suffix (n : nat) (s : Series) :
  (n <= List.length s)%nat ->
  List.length (iloc_last n s) = n
  /\ exists older, s = older ++ iloc_last n s.
Proof.
  intros Hn. unfold iloc_last. split.
  - rewrite length_skipn. lia.
  - exists (firstn (List.length s - n) s). symmetry. apply firstn_skipn.
Qed.

(** X: the MA score points where the last close stands against the short
    mean: positive exactly when the close is strictly above it, negative
    exactly when strictly below, whatever the long mean; the long mean
    only decides between 1 and 2 or 3 (it must lie strictly on the far
    side of the short mean for a score of 2 or more in size). *)
Theorem ma_score_direction :
  forall (lib : NumLib) (data : DataFrame) (short_period long_period : Z)
         (close short_ma long_ma : Series)
         (latest_price latest_short latest_long : float),
    (long_period <= len data)%Z ->
    getitem data "Close" = Ok close ->
    rolling_mean lib short_period close = Ok short_ma ->
    rolling_mean lib long_period close = Ok long_ma ->
    iloc short_ma (-1) = Ok latest_short ->
    iloc long_ma (-1) = Ok latest_long ->
    iloc close (-1) = Ok latest_price ->
    exists v,
      calculate_ma_score lib data short_period long_period = Ok v
      /\ ((0 < v)%Z <-> gtb latest_price latest_short = true)
      /\ ((v < 0)%Z <-> (latest_price <? latest_short) = true)
      /\ ((2 <= v)%Z -> gtb latest_short latest_long = true)
      /\ ((v <= -2)%Z -> (latest_short <? latest_long) = true).
Proof.
  intros lib data sp lp close sm lm p s l Hlen Hc Hs Hl Hls Hll Hp.
  rewrite (calculate_ma_score_on lib data sp lp close sm lm p s l
             Hlen Hc Hs Hl Hls Hll Hp).
  eexists. split; [reflexivity |]. apply ma_ladder_sign.
Qed.

Lemma ma_score_direction_witness :
  (50 <= len (frame_of_bars (bars_of_closes tie_closes)))%Z
  /\ exists v,
      calculate_ma_score failing_lib (frame_of_bars (bars_of_closes tie_closes)) 20 50
      = Ok v
      /\ ((0 < v)%Z <-> gtb 101 100 = true).
Proof.
  assert (Hlen : (50 <= len (frame_of_bars (bars_of_closes tie_closes)))%Z)
    by (vm_compute; discriminate).
  split; [exact Hlen |].
  destruct (ma_score_direction failing_lib (frame_of_bars (bars_of_closes tie_closes))
              20 50 tie_closes _ _ 101 100 100 Hlen
              eq_refl eq_refl eq_refl eq_refl eq_refl eq_refl)
    as (v & Hv & Hpos & _).
  exists v. split; [exact Hv | exact Hpos].
Defined.

(** X: the MACD score is 0 when the latest MACD or signal value is NaN;
    it is positive exactly when the MACD line is strictly above the
    signal line and negative exactly when strictly below; the full 2
    (or -2) needs a positive and rising (negative and falling) MACD. *)
Theorem macd_score_direction :
  forall (lib : NumLib) (data : DataFrame) (close macd_line macd_signal : Series)
         (latest_macd latest_signal : float),
    (34 <= len data)%Z ->
    getitem data "Close" = Ok close ->
    ta_macd lib close = Ok macd_line ->
    ta_macd_signal lib close = Ok macd_signal ->
    iloc macd_line (-1) = Ok latest_macd ->
    iloc macd_signal (-1) = Ok latest_signal ->
    exists v,
      calculate_macd_score lib data = Ok v
      /\ (isna latest_macd = true \/ isna latest_signal = true -> v = 0%Z)
      /\ ((0 < v)%Z <-> gtb latest_macd latest_signal = true)
      /\ ((v < 0)%Z <-> (latest_macd <? latest_signal) = true)
      /\ (v = 2%Z -> gtb latest_macd 0 = true)
      /\ (v = (-2)%Z -> (latest_macd <? 0) = true).
Proof.
  intros lib data close line sig m s Hlen Hc Hline Hsig Hm Hs.
  destruct (calculate_macd_score_on lib data close line sig m s
              Hlen Hc Hline Hsig Hm Hs) as (prev & ->).
  eexists. split; [reflexivity |].
  destruct (isna m) eqn:Nm.
  - destruct (nan_ltb m s Nm) as [E1 E2]. destruct (nan_ltb m 0 Nm) as [E3 E4].
    unfold gtb. rewrite E1, E2, E3, E4. cbn [orb].
    repeat split; intros; try lia; try congruence.
  - destruct (isna s) eqn:Ns; cbn [orb].
    + destruct (nan_ltb s m Ns) as [E1 E2].
      unfold gtb. rewrite E1, E2.
      repeat split; intros; try lia; try congruence.
    + destruct (macd_ladder_sign m s prev) as (Hp & Hn & H2 & H2').
      split; [intros [H | H]; discriminate H |].
      split; [exact Hp |]. split; [exact Hn |].
      split; [intros H; apply H2, H | intros H; apply H2', H].
Qed.

Lemma macd_score_direction_witness :
  (34 <= len (frame_of_bars (flat_bars 50 100)))%Z
  /\ calculate_macd_score
       (stub_lib (Ok [0.5; 1.5]) (Ok [0.4; 1]) (Raise ValueError) (Raise ValueError)
          (Raise ValueError) (Raise ValueError) (Raise ValueError) (Raise ValueError))
       (frame_of_bars (flat_bars 50 100)) = Ok 2%Z
  /\ gtb 1.5 1 = true.
Proof.
  assert (Hlen : (34 <= len (frame_of_bars (flat_bars 50 100)))%Z)
    by (vm_compute; discriminate).
  split; [exact Hlen |].
  destruct (macd_score_direction
              (stub_lib (Ok [0.5; 1.5]) (Ok [0.4; 1]) (Raise ValueError) (Raise ValueError)
                 (Raise ValueError) (Raise ValueError) (Raise ValueError) (Raise ValueError))
              (frame_of_bars (flat_bars 50 100))
              (map bar_close (flat_bars 50 100)) [0.5; 1.5] [0.4; 1] 1.5 1
              Hlen eq_refl eq_refl eq_refl eq_refl eq_refl)
    as (v & Hv & _ & Hpos & _).
  split; [reflexivity | apply Hpos].
  assert (E : Ok v = Ok 2%Z) by (rewrite <- Hv; reflexivity).
  injection E as ->. lia.
Defined.

(** X: the ADX score is 0 when any of the latest ADX, +DI, -DI is NaN.
    Otherwise it is 0 exactly when ADX is not above 20; above 20 it is
    positive exactly when +DI is strictly above -DI and negative in every
    other case, equal DIs included; and it has size 2 exactly when ADX
    is above 30. *)
Theorem adx_score_direction :
  forall (lib : NumLib) (data : DataFrame) (period : Z)
         (high low close adx plus_di minus_di : Series)
         (latest_adx latest_plus_di latest_minus_di : float),
    (period + 14 <= len data)%Z ->
    getitem data "High" = Ok high ->
    getitem data "Low" = Ok low ->
    getitem data "Close" = Ok close ->
    ta_adx lib high low close period = Ok adx ->
    ta_adx_pos lib high low close period = Ok plus_di ->
    ta_adx_neg lib high low close period = Ok minus_di ->
    iloc adx (-1) = Ok latest_adx ->
    iloc plus_di (-1) = Ok latest_plus_di ->
    iloc minus_di (-1) = Ok latest_minus_di ->
    exists v,
      calculate_adx_score lib data period = Ok v
      /\ (isna latest_adx || isna latest_plus_di || isna latest_minus_di = true ->
            v = 0%Z)
      /\ (isna latest_adx || isna latest_plus_di || isna latest_minus_di = false ->
            (v = 0%Z <-> gtb latest_adx 20 = false)
            /\ ((0 < v)%Z <->
                  gtb latest_adx 20 = true /\ gtb latest_plus_di latest_minus_di = true)
            /\ ((v < 0)%Z <->
                  gtb latest_adx 20 = true /\ gtb latest_plus_di latest_minus_di = false)
            /\ ((v = 2 \/ v = -2)%Z <-> gtb latest_adx 30 = true)).
Proof.
  intros lib data period high low close adx pdi mdi a p m
         Hlen Hh Hl Hc Ha Hp Hm Hla Hlp Hlm.
  rewrite (calculate_adx_score_on lib data period high low close adx pdi mdi a p m
             Hlen Hh Hl Hc Ha Hp Hm Hla Hlp Hlm).
  eexists. split; [reflexivity |].
  destruct (isna a || isna p || isna m).
  - split; [reflexivity | discriminate].
  - split; [discriminate |]. intros _. apply adx_ladder_sign.
Qed.

Lemma adx_score_direction_witness :
  (14 + 14 <= len (frame_of_bars (flat_bars 50 100)))%Z
  /\ calculate_adx_score
       (stub_lib (Raise ValueError) (Raise ValueError) (Ok [35]) (Ok [20]) (Ok [20])
          (Raise ValueError) (Raise ValueError) (Raise ValueError))
       (frame_of_bars (flat_bars 50 100)) 14 = Ok (-2)%Z
  /\ gtb 35 20 = true /\ gtb 20 20 = false.
Proof.
  assert (Hlen : (14 + 14 <= len (frame_of_bars (flat_bars 50 100)))%Z)
    by (vm_compute; discriminate).
  split; [exact Hlen |].
  split; [reflexivity |].
  destruct (adx_score_direction
              (stub_lib (Raise ValueError) (Raise ValueError) (Ok [35]) (Ok [20]) (Ok [20])
                 (Raise ValueError) (Raise ValueError) (Raise ValueError))
              (frame_of_bars (flat_bars 50 100)) 14
              (map bar_high (flat_bars 50 100)) (map bar_low (flat_bars 50 100))
              (map bar_close (flat_bars 50 100)) [35] [20] [20] 35 20 20
              Hlen eq_refl eq_refl eq_refl eq_refl eq_refl eq_refl
              eq_refl eq_refl eq_refl)
    as (v & Hv & _ & Hsign).
  destruct (Hsign eq_refl) as (_ & _ & Hneg & _).
  apply Hneg.
  assert (E : Ok v = Ok (-2)%Z) by (rewrite <- Hv; reflexivity).
  injection E as ->. lia.
Defined.

(** X: the RSI score by bucket.  A NaN latest RSI scores 0.  Otherwise
    the score is -1 exactly for RSI > 70 and for 30 <= RSI < 40, +1
    exactly for 60 < RSI <= 70 and for RSI < 30, and 0 exactly for
    40 <= RSI <= 60. *)
Theorem rsi_score_buckets :
  forall (lib : NumLib) (data : DataFrame) (period : Z) (close rsi : Series)
         (latest_rsi : float),
    (period <= len data)%Z ->
    getitem data "Close" = Ok close ->
    ta_rsi lib close period = Ok rsi ->
    iloc rsi (-1) = Ok latest_rsi ->
    (isna latest_rsi = true -> calculate_rsi_score lib data period = Ok 0%Z)
    /\ (isna latest_rsi = false ->
          (calculate_rsi_score lib data period = Ok (-1)%Z <->
             (70 <? latest_rsi) = true
             \/ ((30 <=? latest_rsi) = true /\ (latest_rsi <? 40) = true))
          /\ (calculate_rsi_score lib data period = Ok 1%Z <->
                ((60 <? latest_rsi) = true /\ (latest_rsi <=? 70) = true)
                \/ (latest_rsi <? 30) = true)
          /\ (calculate_rsi_score lib data period = Ok 0%Z <->
                (40 <=? latest_rsi) = true /\ (latest_rsi <=? 60) = true)).
Proof.
  intros lib data period close rsi r Hlen Hc Hrsi Hr.
  rewrite (calculate_rsi_score_on lib data period close rsi r Hlen Hc Hrsi Hr).
  split; intros Hna; rewrite Hna; [reflexivity |].
  destruct (rsi_ladder_buckets r Hna) as (Hm & Hp & Hz).
  split; [split; intros H; [apply Hm; congruence | f_equal; apply Hm; exact H] |].
  split; [split; intros H; [apply Hp; congruence | f_equal; apply Hp; exact H] |].
  split; intros H; [apply Hz; congruence | f_equal; apply Hz; exact H].
Qed.

Lemma rsi_score_buckets_witness :
  (14 <= len (frame_of_bars (flat_bars 50 100)))%Z
  /\ isna 35 = false
  /\ (30 <=? 35) = true /\ (35 <? 40) = true
  /\ calculate_rsi_score (rsi_lib 35) (frame_of_bars (flat_bars 50 100)) 14 = Ok (-1)%Z.
Proof.
  assert (Hlen : (14 <= len (frame_of_bars (flat_bars 50 100)))%Z)
    by (vm_compute; discriminate).
  split; [exact Hlen |].
  split; [reflexivity |]. split; [reflexivity |]. split; [reflexivity |].
  destruct (rsi_score_buckets (rsi_lib 35) (frame_of_bars (flat_bars 50 100)) 14
              (map bar_close (flat_bars 50 100)) [50; 35] 35
              Hlen eq_refl eq_refl eq_refl) as (_ & Hb).
  destruct (Hb eq_refl) as (Hm & _ & _).
  apply Hm. right. split; reflexivity.
Defined.

(** X: the OBV score.  With fewer than five OBV values, or when the line
    fit fails, the score is 0.  Otherwise the fit is made on exactly the
    last five OBV values and the score is the sign of its slope: 1 for a
    slope above 0, -1 for one below 0, and 0 for the rest (a zero or NaN
    slope). *)
Theorem obv_score_is_slope_sign :
  forall (lib : NumLib) (data : DataFrame) (close volume obv : Series),
    (10 <= len data)%Z ->
    getitem data "Close" = Ok close ->
    getitem data "Volume" = Ok volume ->
    ta_obv lib close volume = Ok obv ->
    ((slen obv < 5)%Z -> calculate_obv_score lib data = Ok 0%Z)
    /\ ((5 <= slen obv)%Z ->
          List.length (iloc_last 5 obv) = 5%nat
          /\ (exists older, obv = older ++ iloc_last 5 obv)
          /\ (forall e, polyfit_slope lib (iloc_last 5 obv) = Raise e ->
                calculate_obv_score lib data = Ok 0%Z)
          /\ (forall obv_trend, polyfit_slope lib (iloc_last 5 obv) = Ok obv_trend ->
                (calculate_obv_score lib data = Ok 1%Z <-> gtb obv_trend 0 = true)
                /\ (calculate_obv_score lib data = Ok (-1)%Z <->
                      (obv_trend <? 0) = true)
                /\ (calculate_obv_score lib data = Ok 0%Z <->
                      gtb obv_trend 0 = false /\ (obv_trend <? 0) = false))).
Proof.
  intros lib data close volume obv Hlen Hc Hv Hobv.
  rewrite (calculate_obv_score_on lib data close volume obv Hlen Hc Hv Hobv).
  split; intros Hn.
  - assert (E : (slen obv <? 5)%Z = true) by (apply Z.ltb_lt; exact Hn).
    rewrite E. reflexivity.
  - assert (E : (slen obv <? 5)%Z = false) by (apply Z.ltb_ge; exact Hn).
    rewrite E.
    destruct (iloc_last_suffix 5 obv) as [Hl Hs]; [unfold slen in Hn; lia |].
    split; [exact Hl |]. split; [exact Hs |].
    split; [intros e ->; reflexivity |].
    intros t ->.
    destruct (obv_ladder_sign t) as (Hp & Hm & Hz).
    split; [split; intros H; [apply Hp; congruence | f_equal; apply Hp; exact H] |].
    split; [split; intros H; [apply Hm; congruence | f_equal; apply Hm; exact H] |].
    split; intros H; [apply Hz; congruence | f_equal; apply Hz; exact H].
Qed.

Lemma obv_score_is_slope_sign_witness :
  (10 <= len (frame_of_bars (flat_bars 50 100)))%Z
  /\ calculate_obv_score
       (stub_lib (Raise ValueError) (Raise ValueError) (Raise ValueError)
          (Raise ValueError) (Raise ValueError) (Raise ValueError)
          (Ok [1000; 0; 1000; 2000; 3000; 4000]) (Ok 1000))
       (frame_of_bars (flat_bars 50 100)) = Ok 1%Z.
Proof.
  assert (Hlen : (10 <= len (frame_of_bars (flat_bars 50 100)))%Z)
    by (vm_compute; discriminate).
  split; [exact Hlen |].
  destruct (obv_score_is_slope_sign
              (stub_lib (Raise ValueError) (Raise ValueError) (Raise ValueError)
                 (Raise ValueError) (Raise ValueError) (Raise ValueError)
                 (Ok [1000; 0; 1000; 2000; 3000; 4000]) (Ok 1000))
              (frame_of_bars (flat_bars 50 100))
              (map bar_close (flat_bars 50 100)) (map bar_volume (flat_bars 50 100))
              [1000; 0; 1000; 2000; 3000; 4000]
              Hlen eq_refl eq_refl eq_refl) as (_ & H5).
  destruct (H5 ltac:(vm_compute; discriminate)) as (_ & _ & _ & Hsign).
  apply (proj1 (Hsign 1000 eq_refl)). reflexivity.
Defined.

(* ===================================================================== *)
(** * Tickers, periods and requests *)
(* ===================================================================== *)

(** The characters of a string, first to last. *)
Fixpoint chars (s : string) : list ascii :=
  match s with
  | EmptyString => []
  | String c rest => c :: chars rest
  end.

(** The period names that [_period_to_days] knows. *)
Definition known_periods : list string := ["1mo"; "3mo"; "6mo"; "1y"; "2y"]%string.

(** X: the provider form of a ticker has no hyphen and as many characters
    as the ticker; a ticker without hyphen is its own provider form, so
    normalizing twice is normalizing once. *)
Theorem normalized_ticker_has_no_hyphen :
  forall tk : string,
    ~ In "-"%char (chars (_normalize_polygon_ticker tk))
    /\ String.length (_normalize_polygon_ticker tk) = String.length tk
    /\ (~ In "-"%char (chars tk) -> _normalize_polygon_ticker tk = tk)
    /\ _normalize_polygon_ticker (_normalize_polygon_ticker tk)
       = _normalize_polygon_ticker tk.
Proof.
  unfold _normalize_polygon_ticker.
  assert (H1 : forall tk, ~ In "-"%char (chars (replace_char "-" "." tk))).
  { induction tk as [|c rest IH]; simpl; [tauto |].
    intros [E | E]; [| exact (IH E)].
    destruct (Ascii.eqb_spec c "-"); [discriminate E | congruence]. }
  assert (H2 : forall tk, ~ In "-"%char (chars tk) -> replace_char "-" "." tk = tk).
  { induction tk as [|c rest IH]; simpl; [reflexivity |].
    intros Hn. destruct (Ascii.eqb_spec c "-") as [-> | _]; [tauto |].
    rewrite IH; [reflexivity | tauto]. }
  intros tk. split; [apply H1 |]. split.
  - induction tk as [|c rest IH]; simpl; [reflexivity | now rewrite IH].
  - split; [apply H2 |]. apply H2, H1.
Qed.

(** The provider forms of two class-share tickers. *)
Example normalized_ticker_runs :
  _normalize_polygon_ticker "BRK-B" = "BRK.B"%string
  /\ _normalize_polygon_ticker "BF-B" = "BF.B"%string
  /\ _normalize_polygon_ticker "AAPL" = "AAPL"%string.
Proof. repeat split; reflexivity. Qed.

Lemma period_to_days_unknown (period : string) :
  ~ In period known_periods -> _period_to_days period = 186%Z.
Proof.
  unfold known_periods, _period_to_days. simpl. intros Hn.
  repeat match goal with
         | |- context [String.eqb ?a ?b] =>
             destruct (String.eqb_spec a b); [exfalso; apply Hn; subst; tauto |]
         end.
  reflexivity.
Qed.

Lemma period_to_days_range (period : string) :
  In (_period_to_days period) [31; 93; 186; 365; 730]%Z.
Proof.
  unfold _period_to_days. simpl.
  repeat match goal with
         | |- context [if ?c then _ else _] => destruct c
         end; tauto.
Qed.

(** Scoring reads the period only through its day count. *)
Lemma calculate_trend_score_same_days (lib : NumLib) (world : World)
      (fixed_end_date : option string) (tk p1 p2 : string) :
  _period_to_days p1 = _period_to_days p2 ->
  calculate_trend_score lib world fixed_end_date tk p1
  = calculate_trend_score lib world fixed_end_date tk p2.
Proof.
  intros H. unfold calculate_trend_score, get_stock_data. rewrite H. reflexivity.
Qed.

Lemma batch_loop_same_days (lib : NumLib) (world : World)
      (fixed_end_date : option string) (p1 p2 : string) (tickers : list string) :
  _period_to_days p1 = _period_to_days p2 ->
  forall results,
    batch_loop lib world fixed_end_date tickers p1 results
    = batch_loop lib world fixed_end_date tickers p2 results.
Proof.
  intros H. induction tickers as [|tk rest IH]; intros results; [reflexivity |].
  cbn [batch_loop].
  rewrite (calculate_trend_score_same_days lib world fixed_end_date tk p1 p2 H).
  unfold io_bind.
  destruct (calculate_trend_score lib world fixed_end_date tk p2) as [t [o|e]];
    [| reflexivity].
  rewrite IH. reflexivity.
Qed.

(** X: a period name that is not one of 1mo, 3mo, 6mo, 1y, 2y is taken
    as 6mo all along: fetching, scoring one ticker and scoring a batch
    send the same requests and return the same values as with "6mo". *)
Theorem unknown_period_is_six_months :
  forall (lib : NumLib) (world : World) (fixed_end_date : option string)
         (tickers : list string) (tk period : string),
    ~ In period known_periods ->
    get_stock_data world fixed_end_date tk period
    = get_stock_data world fixed_end_date tk "6mo"
    /\ calculate_trend_score lib world fixed_end_date tk period
       = calculate_trend_score lib world fixed_end_date tk "6mo"
    /\ calculate_batch_scores lib world fixed_end_date tickers period
       = calculate_batch_scores lib world fixed_end_date tickers "6mo".
Proof.
  intros lib world fixed tickers tk period Hn.
  assert (H : _period_to_days period = _period_to_days "6mo")
    by (rewrite (period_to_days_unknown period Hn); reflexivity).
  split; [unfold get_stock_data; rewrite H; reflexivity |].
  split; [apply calculate_trend_score_same_days; exact H |].
  unfold calculate_batch_scores.
  rewrite (batch_loop_same_days lib world fixed period "6mo" tickers H). reflexivity.
Qed.

Lemma unknown_period_is_six_months_witness :
  ~ In "5d"%string known_periods
  /\ get_stock_data (mock_world (fun _ => flat_bars 50 100)) None "SPY" "5d"
     = get_stock_data (mock_world (fun _ => flat_bars 50 100)) None "SPY" "6mo".
Proof.
  assert (Hn : ~ In "5d"%string known_periods).
  { unfold known_periods. simpl. intros [H | [H | [H | [H | [H | []]]]]]; discriminate H. }
  split; [exact Hn |].
  exact (proj1 (unknown_period_is_six_months failing_lib
                  (mock_world (fun _ => flat_bars 50 100)) None [] "SPY" "5d" Hn)).
Defined.

(** X: without a provider key nothing is requested and nothing is
    scored: the fetch and the single-ticker scoring return [None], the
    batch returns the empty list, and no request leaves. *)
Theorem no_key_no_request :
  forall (lib : NumLib) (world : World) (fixed_end_date : option string)
         (tickers : list string) (tk period : string),
    truthy (api_key world) = false ->
    get_stock_data world fixed_end_date tk period = ([], Ok None)
    /\ calculate_trend_score lib world fixed_end_date tk period = ([], Ok None)
    /\ calculate_batch_scores lib world fixed_end_date tickers period = ([], Ok []).
Proof.
  intros lib world fixed tickers tk period Hk.
  assert (Hg : forall tk, get_stock_data world fixed tk period = ([], Ok None))
    by (intros tk'; unfold get_stock_data; rewrite Hk; reflexivity).
  assert (Hc : forall tk, calculate_trend_score lib world fixed tk period = ([], Ok None))
    by (intros tk'; unfold calculate_trend_score; rewrite Hg; reflexivity).
  split; [apply Hg |]. split; [apply Hc |].
  unfold calculate_batch_scores.
  assert (Hl : forall results,
             batch_loop lib world fixed tickers period results = ([], Ok results)).
  { induction tickers as [|t rest IH]; intros results; [reflexivity |].
    cbn [batch_loop]. rewrite Hc. unfold io_bind. rewrite IH. reflexivity. }
  rewrite Hl. reflexivity.
Qed.

Lemma no_key_no_request_witness :
  truthy (api_key (keyless_world (Some ""%string))) = false
  /\ calculate_batch_scores failing_lib (keyless_world (Some ""%string))
       None ["AAPL"; "MSFT"]%string "6mo"
     = ([], Ok []).
Proof.
  split; [reflexivity |].
  exact (proj2 (proj2 (no_key_no_request failing_lib (keyless_world (Some ""%string))
                         None ["AAPL"; "MSFT"]%string "SPY" "6mo" eq_refl))).
Defined.

(** What [get_stock_data] makes of the provider's answer to the range
    request: the frame that pandas builds from the rows when the answer
    holds at least one and pandas does not raise. *)
Definition frame_of_answer (world : World) (answer : res (list Row)) : option DataFrame :=
  match answer with
  | Ok (r :: rows) =>
      match frame_of_results world (r :: rows) with
      | Ok df => Some df
      | Raise _ => None
      end
  | Ok [] => None
  | Raise _ => None
  end.

(** The end day of a live fetch: the day the provider's "prev" answer
    carries, today when it carries none or the request fails. *)
Definition live_end_day (world : World) (ptk : string) : Z :=
  match polygon_prev world ptk with
  | Ok (Some day) => day
  | Ok None => utc_today world
  | Raise _ => utc_today world
  end.

(** Whether an evaluation date was fixed: [None] and the empty string are not. *)
Definition is_live (fixed_end_date : option string) : Prop :=
  fixed_end_date = None \/ fixed_end_date = Some ""%string.

(** A calendar for concrete runs: it reads and prints three dates, one of
    them in the first year, and prints any other day with a three-digit
    year, which it does not read back. *)
Definition calendar_world (today : Z) : World :=
  {| api_key := Some "key"%string;
     utc_today := today;
     strptime := fun s =>
       if String.eqb s "2024-06-28" then Ok 19902%Z
       else if String.eqb s "2024-10-03" then Ok 19999%Z
       else if String.eqb s "0001-03-01" then Ok (-719103)%Z
       else Raise ValueError;
     strftime_day := fun d =>
       if (d =? 19902)%Z then "2024-06-28"%string
       else if (d =? 19999)%Z then "2024-10-03"%string
       else if (d =? -719103)%Z then "0001-03-01"%string
       else "702-06-15"%string;
     polygon_prev := fun _ => Ok None;
     polygon_range := fun _ _ _ => Ok (map row_of_bar (flat_bars 50 100));
     frame_of_results := fun rows => Ok (frame_of_bars (map bar_of_row rows)) |}.

Lemma minus_days_overflow (e days : Z) :
  (e - days < datetime_min)%Z -> minus_days e days = Raise OverflowError.
Proof.
  intros H. unfold minus_days.
  destruct (Z.ltb_spec (e - days) datetime_min); [reflexivity | lia].
Qed.

Lemma minus_days_ok (e days : Z) :
  (datetime_min <= e - days)%Z -> minus_days e days = Ok (e - days)%Z.
Proof.
  intros H. unfold minus_days.
  destruct (Z.ltb_spec (e - days) datetime_min); [lia | reflexivity].
Qed.

(** The fetch from the end day on: nothing is sent when the window would
    start before 0001-01-01, else one range request. *)
Lemma fetch_from_end_day (world : World) (tk period : string) (e : Z) :
  let ptk := _normalize_polygon_ticker tk in
  let days := _period_to_days period in
  io_try
    (start_day <~ io_lift (minus_days e days) ;;
     _ <~ io_emit (HttpGetRange ptk start_day e) ;;
     results <~ io_lift (polygon_range world ptk start_day e) ;;
     match results with
     | [] => io_ret None
     | _ :: _ =>
         df <~ io_lift (frame_of_results world results) ;;
         io_ret (Some df)
     end)
    (fun _ => io_ret None)
  = if (e - days <? datetime_min)%Z then ([], Ok None)
    else ([HttpGetRange ptk (e - days) e],
          Ok (frame_of_answer world (polygon_range world ptk (e - days) e))).
Proof.
  intros ptk days. unfold minus_days.
  destruct (e - days <? datetime_min)%Z; [reflexivity |].
  unfold io_try, io_bind, io_lift, io_emit, io_ret, frame_of_answer.
  destruct (polygon_range world ptk (e - days) e) as [[|r rows]|x]; try reflexivity.
  destruct (frame_of_results world (r :: rows)); reflexivity.
Qed.

(** A fetch as of a fixed date that parses. *)
Lemma fixed_date_get_stock_data (world : World) (d tk period : string) (e : Z) :
  truthy (api_key world) = true ->
  d <> ""%string ->
  strptime world d = Ok e ->
  let ptk := _normalize_polygon_ticker tk in
  let days := _period_to_days period in
  get_stock_data world (Some d) tk period
  = if (e - days <? datetime_min)%Z then ([], Ok None)
    else ([HttpGetRange ptk (e - days) e],
          Ok (frame_of_answer world (polygon_range world ptk (e - days) e))).
Proof.
  intros Hk Hd He ptk days. subst ptk days.
  assert (Ed : String.eqb d "" = false) by (apply String.eqb_neq; exact Hd).
  pose proof (fetch_from_end_day world tk period e) as Hfetch. cbv zeta in Hfetch.
  rewrite <- Hfetch.
  unfold get_stock_data. rewrite Hk, Ed, He. cbn [negb]. rewrite io_lift_bind.
  reflexivity.
Qed.

(** X: scoring as of a fixed date never asks for the latest trading day.
    With a key and a fixed end date, a date that does not parse gives
    [None] without any request, and so does a date that parses to a day
    [e] so early that the window of [days] days would start before
    0001-01-01 ([days] is one of 31, 93, 186, 365, 730).  Otherwise
    exactly one request leaves, for the provider form of the ticker and
    the window from [e - days] to [e], and the result is the frame that
    pandas builds from the answer, [None] when the request fails, returns
    no row, or pandas raises. *)
Theorem fixed_date_fetch :
  forall (world : World) (d tk period : string),
    truthy (api_key world) = true ->
    d <> ""%string ->
    let ptk := _normalize_polygon_ticker tk in
    let days := _period_to_days period in
    (forall x, strptime world d = Raise x ->
       get_stock_data world (Some d) tk period = ([], Ok None))
    /\ (forall e, strptime world d = Ok e -> (e - days < datetime_min)%Z ->
          get_stock_data world (Some d) tk period = ([], Ok None))
    /\ (forall e, strptime world d = Ok e -> (datetime_min <= e - days)%Z ->
          get_stock_data world (Some d) tk period
          = ([HttpGetRange ptk (e - days) e],
             Ok (frame_of_answer world (polygon_range world ptk (e - days) e))))
    /\ In days [31; 93; 186; 365; 730]%Z.
Proof.
  intros world d tk period Hk Hd ptk days. subst ptk days.
  assert (Ed : String.eqb d "" = false) by (apply String.eqb_neq; exact Hd).
  split; [| split; [| split; [| apply period_to_days_range]]].
  - intros x Hx. unfold get_stock_data. rewrite Hk, Ed, Hx. reflexivity.
  - intros e He Hlow. rewrite (fixed_date_get_stock_data world d tk period e Hk Hd He).
    destruct (Z.ltb_spec (e - _period_to_days period) datetime_min); [reflexivity | lia].
  - intros e He Hok. rewrite (fixed_date_get_stock_data world d tk period e Hk Hd He).
    destruct (Z.ltb_spec (e - _period_to_days period) datetime_min); [lia | reflexivity].
Qed.

Lemma fixed_date_fetch_witness :
  truthy (api_key (calendar_world 19999)) = true
  /\ "2024-06-28"%string <> ""%string
  /\ trace_of (get_stock_data (calendar_world 19999) (Some "2024-06-28"%string) "BRK-B" "1y")
     = [HttpGetRange "BRK.B" 19537 19902]
  /\ get_stock_data (calendar_world 19999) (Some "0001-03-01"%string) "BRK-B" "6mo"
     = ([], Ok None).
Proof.
  assert (Hd : "2024-06-28"%string <> ""%string) by discriminate.
  split; [reflexivity |]. split; [exact Hd |].
  destruct (fixed_date_fetch (calendar_world 19999)
              "2024-06-28" "BRK-B" "1y" eq_refl Hd) as (_ & _ & H & _).
  rewrite (H 19902%Z eq_refl); [| vm_compute; discriminate].
  split; reflexivity.
Defined.

(** The latest trading date of a ticker, with a key: one "prev" request
    for its provider form, and the text of the live end day. *)
Lemma latest_trading_date_with_key (world : World) (tk : string) :
  truthy (api_key world) = true ->
  _latest_trading_date world tk
  = ([HttpGetPrev (_normalize_polygon_ticker tk)],
     Ok (strftime_day world (live_end_day world (_normalize_polygon_ticker tk)))).
Proof.
  intros Hk. unfold _latest_trading_date, live_end_day. rewrite Hk. cbn [negb].
  unfold io_try, io_bind, io_lift, io_emit, io_ret.
  destruct (polygon_prev world (_normalize_polygon_ticker tk)) as [[day|]|x];
    reflexivity.
Qed.

(** X: a live fetch first asks the provider for the latest trading day of
    the ticker, in its provider form, and takes today when that request
    fails or carries no day.  When the text of that day is not empty,
    what follows depends on reading it back: if [strptime] refuses it
    (as it does for the text of a year below 1000), or if the window
    would start before 0001-01-01, the fetch gives [None] after the
    "prev" request alone; otherwise one range request follows, for the
    window of [days] days that ends on the day read back, and the result
    is the frame that pandas builds from the answer. *)
Theorem live_fetch :
  forall (world : World) (fixed_end_date : option string) (tk period : string),
    truthy (api_key world) = true ->
    is_live fixed_end_date ->
    let ptk := _normalize_polygon_ticker tk in
    let days := _period_to_days period in
    let latest_str := strftime_day world (live_end_day world ptk) in
    latest_str <> ""%string ->
    (forall x, strptime world latest_str = Raise x ->
       get_stock_data world fixed_end_date tk period = ([HttpGetPrev ptk], Ok None))
    /\ (forall e, strptime world latest_str = Ok e -> (e - days < datetime_min)%Z ->
          get_stock_data world fixed_end_date tk period = ([HttpGetPrev ptk], Ok None))
    /\ (forall e, strptime world latest_str = Ok e -> (datetime_min <= e - days)%Z ->
          get_stock_data world fixed_end_date tk period
          = ([HttpGetPrev ptk; HttpGetRange ptk (e - days) e],
             Ok (frame_of_answer world (polygon_range world ptk (e - days) e)))).
Proof.
  intros world fixed tk period Hk Hlive ptk days latest_str Htext.
  assert (Et : String.eqb latest_str "" = false) by (apply String.eqb_neq; exact Htext).
  assert (Hlatest : latest_or_spy world tk = ([HttpGetPrev ptk], Ok latest_str)).
  { unfold latest_or_spy. rewrite (latest_trading_date_with_key world tk Hk).
    fold ptk. fold latest_str. unfold io_bind. rewrite Et. reflexivity. }
  assert (Hget : get_stock_data world fixed tk period
                 = io_try
                     (end_day <~ (latest_str' <~ latest_or_spy world tk ;;
                                  io_lift (strptime world latest_str')) ;;
                      start_day <~ io_lift (minus_days end_day days) ;;
                      _ <~ io_emit (HttpGetRange ptk start_day end_day) ;;
                      results <~ io_lift (polygon_range world ptk start_day end_day) ;;
                      match results with
                      | [] => io_ret None
                      | _ :: _ =>
                          df <~ io_lift (frame_of_results world results) ;;
                          io_ret (Some df)
                      end)
                     (fun _ => io_ret None)).
  { unfold get_stock_data. rewrite Hk. cbn [negb].
    destruct Hlive as [-> | ->]; reflexivity. }
  rewrite Hget, Hlatest. clear Hget Hlatest.
  split; [| split].
  - intros x Hx. unfold io_bind at 2. unfold io_lift at 1. rewrite Hx. reflexivity.
  - intros e He Hlow. unfold io_bind at 2. unfold io_lift at 1. rewrite He.
    cbn [app]. unfold io_bind at 1. unfold io_lift at 1.
    rewrite (minus_days_overflow e days Hlow). reflexivity.
  - intros e He Hok. unfold io_bind at 2. unfold io_lift at 1. rewrite He.
    cbn [app]. unfold io_bind at 1. unfold io_lift at 1.
    rewrite (minus_days_ok e days Hok).
    unfold io_try, io_bind, io_lift, io_emit, io_ret, frame_of_answer.
    destruct (polygon_range world ptk (e - days) e) as [[|r rows]|x]; try reflexivity.
    destruct (frame_of_results world (r :: rows)); reflexivity.
Qed.

Lemma live_fetch_witness :
  truthy (api_key (calendar_world 19999)) = true
  /\ is_live None
  /\ strftime_day (calendar_world 19999) (live_end_day (calendar_world 19999) "BRK.B")
     <> ""%string
  /\ trace_of (get_stock_data (calendar_world 19999) None "BRK-B" "3mo")
     = [HttpGetPrev "BRK.B"; HttpGetRange "BRK.B" 19906 19999].
Proof.
  assert (Hl : is_live None) by (left; reflexivity).
  assert (Ht : strftime_day (calendar_world 19999)
                 (live_end_day (calendar_world 19999) "BRK.B") <> ""%string)
    by (vm_compute; discriminate).
  split; [reflexivity |]. split; [exact Hl |]. split; [exact Ht |].
  destruct (live_fetch (calendar_world 19999) None "BRK-B" "3mo" eq_refl Hl Ht)
    as (_ & _ & H).
  rewrite (H 19999%Z eq_refl); [reflexivity | vm_compute; discriminate].
Defined.

(** Live fetches that stop after the "prev" request: on a day whose text
    has a three-digit year, which is not read back, and on a day of the
    first year, from which the window cannot be counted back. *)
Example live_fetch_stops_runs :
  get_stock_data (calendar_world (-462963)) None "SPY" "6mo" = ([HttpGetPrev "SPY"], Ok None)
  /\ get_stock_data (calendar_world (-719103)) None "SPY" "6mo"
     = ([HttpGetPrev "SPY"], Ok None)
  /\ get_stock_data (calendar_world (-719103)) None "SPY" "1mo"
     = ([HttpGetPrev "SPY"; HttpGetRange "SPY" (-719134) (-719103)],
        Ok (Some (frame_of_bars (flat_bars 50 100)))).
Proof. repeat split; reflexivity. Qed.

(** Whether an event is a range request. *)
Definition is_range (e : event) : bool :=
  match e with
  | HttpGetRange _ _ _ => true
  | _ => false
  end.

(** X: the fetch never raises and sends at most three requests.
    Whatever fails after the key check (a date that is not read, a window
    that would start before 0001-01-01, a request, pandas) ends in
    [None].  What is sent are "prev" requests, for the provider form of
    the ticker or for SPY, and at most one range request, for the
    provider form of the ticker.  A frame that is returned is the one
    pandas built from the rows, at least one, that a range request sent
    for a window of [days] days answered with. *)
Theorem get_stock_data_absorbs_failures :
  forall (world : World) (fixed_end_date : option string) (tk period : string),
    let ptk := _normalize_polygon_ticker tk in
    let days := _period_to_days period in
    let fetch := get_stock_data world fixed_end_date tk period in
    (exists o, outcome fetch = Ok o)
    /\ (List.length (trace_of fetch) <= 3)%nat
    /\ (List.length (filter is_range (trace_of fetch)) <= 1)%nat
    /\ Forall (fun e => e = HttpGetPrev ptk \/ e = HttpGetPrev "SPY"
                        \/ exists end_day, e = HttpGetRange ptk (end_day - days) end_day)
              (trace_of fetch)
    /\ (forall df,
          outcome fetch = Ok (Some df) ->
          exists end_day row rows,
            In (HttpGetRange ptk (end_day - days) end_day) (trace_of fetch)
            /\ polygon_range world ptk (end_day - days) end_day = Ok (row :: rows)
            /\ frame_of_results world (row :: rows) = Ok df).
Proof.
  intros world fixed tk period ptk days fetch. subst fetch.
  unfold get_stock_data, latest_or_spy, _latest_trading_date, minus_days.
  fold ptk. fold days.
  change (_normalize_polygon_ticker "SPY") with "SPY"%string.
  unfold io_try, io_bind, io_lift, io_emit, io_ret, outcome, trace_of.
  destruct (negb (truthy (api_key world)));
    [| destruct fixed as [d|]; [destruct (String.eqb d "") |]];
    repeat (cbv beta iota zeta;
            match goal with
            | |- context [polygon_prev ?w ?t] =>
                destruct (polygon_prev w t) as [[?|]|?] eqn:?
            | |- context [String.eqb ?a ?b] => destruct (String.eqb a b) eqn:?
            | |- context [strptime ?w ?s] => destruct (strptime w s) eqn:?
            | |- context [Z.ltb ?a ?b] => destruct (Z.ltb a b) eqn:?
            | |- context [polygon_range ?w ?a ?b ?c] =>
                destruct (polygon_range w a b c) as [[|? ?]|?] eqn:?
            | |- context [frame_of_results ?w ?r] =>
                destruct (frame_of_results w r) eqn:?
            end);
    cbv beta iota zeta; cbn [fst snd app List.length filter is_range];
    (split; [eexists; reflexivity |]);
    (split; [lia |]); (split; [lia |]);
    (split;
     [repeat (apply Forall_cons;
              [first [ left; reflexivity
                     | right; left; reflexivity
                     | right; right; eexists; reflexivity ] |]);
      apply Forall_nil |]);
    intros df' [=]; subst;
    do 3 eexists; (split; [| split; eassumption]); simpl; tauto.
Qed.

(** A fetch with a key on a calendar that reads the date back: two
    requests and a frame; on one that does not: one request and nothing. *)
Example get_stock_data_runs :
  get_stock_data (calendar_world 19999) None "BRK-B" "1mo"
  = ([HttpGetPrev "BRK.B"; HttpGetRange "BRK.B" 19968 19999],
     Ok (Some (frame_of_bars (flat_bars 50 100))))
  /\ get_stock_data (calendar_world (-462963)) None "BRK-B" "1mo"
     = ([HttpGetPrev "BRK.B"], Ok None).
Proof. split; reflexivity. Qed.

(* ===================================================================== *)
(** * More on scoring one ticker and a batch *)
(* ===================================================================== *)

Lemma scored_from_ticker (lib : NumLib) (df : DataFrame) (tk : string)
      (r : TrendScoreResult) :
  scored_from lib df tk r ->
  ticker r = tk /\ iloc (df_index df) (-1) = Ok (Date (latest_date r)).
Proof.
  intros (date & ma & macd & adx & rsi & obv & Hd & _ & _ & _ & _ & _ & ->).
  split; [reflexivity | exact Hd].
Qed.

(** X: a result names the ticker as the caller gave it (not its provider
    form) and the date of the last row of the fetched frame, which had at
    least 50 rows; its five scores are the five scorers' answers on that
    frame. *)
Theorem result_names_ticker_and_last_date :
  forall (lib : NumLib) (world : World) (fixed_end_date : option string)
         (tk period : string) (r : TrendScoreResult),
    outcome (calculate_trend_score lib world fixed_end_date tk period) = Ok (Some r) ->
    ticker r = tk
    /\ exists df,
        outcome (get_stock_data world fixed_end_date tk period) = Ok (Some df)
        /\ (50 <= len df)%Z
        /\ iloc (df_index df) (-1) = Ok (Date (latest_date r))
        /\ calculate_ma_score lib df 20 50 = Ok (ma_score r)
        /\ calculate_macd_score lib df = Ok (macd_score r)
        /\ calculate_adx_score lib df 14 = Ok (adx_score r)
        /\ calculate_rsi_score lib df 14 = Ok (rsi_score r)
        /\ calculate_obv_score lib df = Ok (obv_score r).
Proof.
  intros lib world fixed tk period r H.
  destruct (calculate_trend_score_result lib world fixed tk period r H)
    as (df & Hg & Hge & Hs).
  destruct (scored_from_ticker lib df tk r Hs) as [Ht Hd].
  split; [exact Ht |]. exists df.
  destruct Hs as (date & ma & macd & adx & rsi & obv
                  & _ & Hma & Hmacd & Hadx & Hrsi & Hobv & ->).
  repeat split; assumption.
Qed.

Lemma result_names_ticker_and_last_date_witness :
  ticker (build_result "BRK-B" "day-49" 0 0 0 0 0) = "BRK-B"%string
  /\ exists df,
      outcome (get_stock_data (mock_world (fun _ => flat_bars 50 100)) None "BRK-B" "6mo")
      = Ok (Some df)
      /\ iloc (df_index df) (-1) = Ok (Date "day-49"%string).
Proof.
  destruct (result_names_ticker_and_last_date failing_lib
              (mock_world (fun _ => flat_bars 50 100)) None "BRK-B" "6mo"
              (build_result "BRK-B" "day-49" 0 0 0 0 0) eq_refl)
    as (Ht & df & Hg & _ & Hd & _).
  split; [exact Ht |]. exists df. split; [exact Hg | exact Hd].
Defined.

(** Every survivor is the result of the scoring of its own ticker, a
    ticker of the input; there is at most one per input ticker. *)
Lemma survivors_tickers (lib : NumLib) (world : World) (fixed_end_date : option string)
      (period : string) (tickers : list string) :
  Forall (fun r => In (ticker r) tickers
                   /\ outcome (calculate_trend_score lib world fixed_end_date
                                 (ticker r) period) = Ok (Some r))
         (survivors lib world fixed_end_date tickers period)
  /\ (List.length (survivors lib world fixed_end_date tickers period)
      <= List.length tickers)%nat.
Proof.
  unfold survivors. induction tickers as [|tk rest [IHf IHl]]; simpl.
  - split; [constructor | lia].
  - assert (Hrest : Forall (fun r => (tk = ticker r \/ In (ticker r) rest)
                                     /\ outcome (calculate_trend_score lib world
                                                   fixed_end_date (ticker r) period)
                                        = Ok (Some r))
                           (flat_map
                              (fun tk0 =>
                                 match outcome (calculate_trend_score lib world
                                                  fixed_end_date tk0 period) with
                                 | Ok (Some r) => [r]
                                 | _ => []
                                 end) rest)).
    { eapply Forall_impl; [| exact IHf]. simpl. intros r [H1 H2]. auto. }
    destruct (outcome (calculate_trend_score lib world fixed_end_date tk period))
      as [[r|]|e] eqn:E; simpl.
    + split; [| lia]. constructor; [| exact Hrest].
      destruct (calculate_trend_score_result lib world fixed_end_date tk period r E)
        as (df & _ & _ & Hs).
      destruct (scored_from_ticker lib df tk r Hs) as [Ht _].
      rewrite Ht. split; [left; reflexivity | exact E].
    + split; [exact Hrest | lia].
    + split; [exact Hrest | lia].
Qed.

(** X: a batch that returns returns at most one result per input ticker,
    each for a ticker of the input and each the result of the
    single-ticker scoring of that ticker: no result is invented.  An
    empty input gives an empty ranking, and a batch of tickers none of
    which raises returns. *)
Theorem batch_results_come_from_input :
  forall (lib : NumLib) (world : World) (fixed_end_date : option string)
         (tickers : list string) (period : string),
    let ranking := outcome (calculate_batch_scores lib world fixed_end_date tickers period) in
    (forall results,
       ranking = Ok results ->
       (List.length results <= List.length tickers)%nat
       /\ forall r, In r results ->
            In (ticker r) tickers
            /\ outcome (calculate_trend_score lib world fixed_end_date (ticker r) period)
               = Ok (Some r))
    /\ (tickers = [] -> ranking = Ok [])
    /\ ((forall tk, In tk tickers ->
           exists o, outcome (calculate_trend_score lib world fixed_end_date tk period)
                     = Ok o) ->
        exists results, ranking = Ok results).
Proof.
  intros lib world fixed tickers period ranking. subst ranking.
  rewrite calculate_batch_scores_spec. unfold outcome at 1 2 3. cbn [snd].
  split; [| split].
  - intros results H.
    destruct (first_raised lib world fixed tickers period); [discriminate H |].
    injection H as <-.
    pose proof (sort_reverse_perm normalized_trend_score
                  (survivors lib world fixed tickers period)) as Hperm.
    destruct (survivors_tickers lib world fixed period tickers) as [Hf Hl].
    split; [rewrite (Permutation_length Hperm); exact Hl |].
    intros r Hr. apply (Permutation_in _ Hperm) in Hr.
    rewrite Forall_forall in Hf. apply Hf. exact Hr.
  - intros ->. reflexivity.
  - intros H.
    assert (Hn : first_raised lib world fixed tickers period = None).
    { apply first_raised_none. intros tk Hin (e & He).
      destruct (H tk Hin) as (o & Ho). congruence. }
    rewrite Hn. eexists. reflexivity.
Qed.



(* ===================================================================== *)
(** * The tool layer (api/routers/tool_registry.py,
      register_trend_analysis_tools) *)
(* ===================================================================== *)

Set Warnings "-register-all".

(** A value read by [json.loads]. *)
Inductive json : Type :=
| JNull
| JBool (b : bool)
| JNumber (literal : string)
| JString (s : string)
| JArray (items : list json)
| JObject (members : list (string * json)).

(** What [json.loads] does with a text: it returns the value read,
    raises [JSONDecodeError] on text that is not JSON, or raises
    something else (RecursionError on nesting deeper than the
    interpreter's recursion limit). *)
Inductive loads_outcome : Type :=
| Loaded (value : json)
| JSONDecodeError
| OtherLoadsError (name : string).

(** What escapes a tool: an exception of [json.loads] other than
    [JSONDecodeError], [AttributeError] from [t.upper()] on a value that
    is not a string, or whatever the scorer raised. *)
Inductive tool_exn : Type :=
| LoadsError (name : string)
| AttributeError
| ScorerError (e : exn).

(** A tool returns a payload or lets an exception through. *)
Inductive reply (A : Type) : Type :=
| Returns (a : A)
| Throws (e : tool_exn).
Arguments Returns {A} a.
Arguments Throws {A} e.

(** The payloads of [trend_calculate_single_score]: the error dictionary
    (its message names the ticker as given, its "ticker" entry the
    uppercased one) or the dumped result. *)
Inductive single_payload : Type :=
| SingleError (asked ticker period : string)
| SingleScore (result : TrendScoreResult).

(** The "summary" dictionary of [trend_calculate_batch_scores]. *)
Record Summary : Type := mkSummary {
  total_processed : Z;
  highest_score : float;
  lowest_score : float;
  average_score : float
}.

(** The payloads of [trend_calculate_batch_scores]: one of its three
    error dictionaries, or the results with their summary. *)
Inductive batch_payload : Type :=
| ErrorNotAList
| ErrorInvalidJson
| ErrorNoData (tickers : list string) (period : string)
| BatchScores (results : list TrendScoreResult) (summary : Summary).

(** Builtin [max] over a non-empty run of floats: the value kept changes
    only for a strictly greater one. *)
Definition max_of (first : float) (others : list float) : float :=
  fold_left py_max others first.

(** Builtin [min] over a non-empty run of floats: the value kept changes
    only for a strictly smaller one. *)
Definition min_of (first : float) (others : list float) : float :=
  fold_left py_min others first.

Section Tools.

Variable lib : NumLib.
Variable world : World.
(** [str.upper]. *)
Variable upper : string -> string.
(** [json.loads]. *)
Variable json_loads : string -> loads_outcome.
(** Builtin [sum] over floats. *)
Variable py_sum : list float -> float.

(** [calculate_single_trend_score(ticker, period, fixed_end_date)]. *)
Definition calculate_single_trend_score (tk period : string)
           (fixed_end_date : option string) : list event * reply single_payload :=
  match calculate_trend_score lib world fixed_end_date (upper tk) period with
  | (t, Ok None) => (t, Returns (SingleError tk (upper tk) period))
  | (t, Ok (Some result)) => (t, Returns (SingleScore result))
  | (t, Raise e) => (t, Throws (ScorerError e))
  end.

(** [[t.upper() for t in ticker_list]]: [None] when an item has no
    [upper], that is when it is not a string. *)
Fixpoint upper_all (items : list json) : option (list string) :=
  match items with
  | [] => Some []
  | JString s :: rest =>
      match upper_all rest with
      | Some l => Some (upper s :: l)
      | None => None
      end
  | _ :: _ => None
  end.

(** The summary of a non-empty list of results. *)
Definition summary_of (first : TrendScoreResult) (others : list TrendScoreResult)
  : Summary :=
  let scores := map normalized_trend_score (first :: others) in
  {| total_processed := Z.of_nat (List.length (first :: others));
     highest_score := max_of (normalized_trend_score first)
                             (map normalized_trend_score others);
     lowest_score := min_of (normalized_trend_score first)
                            (map normalized_trend_score others);
     average_score := py_sum scores / of_int (Z.of_nat (List.length (first :: others))) |}.

(** [calculate_batch_trend_scores(tickers, period, fixed_end_date)]. *)
Definition calculate_batch_trend_scores (tickers period : string)
           (fixed_end_date : option string) : list event * reply batch_payload :=
  match json_loads tickers with
  | OtherLoadsError name => ([], Throws (LoadsError name))
  | JSONDecodeError => ([], Returns ErrorInvalidJson)
  | Loaded (JArray items) =>
      match upper_all items with
      | None => ([], Throws AttributeError)
      | Some ticker_list =>
          match calculate_batch_scores lib world fixed_end_date ticker_list period with
          | (t, Raise e) => (t, Throws (ScorerError e))
          | (t, Ok []) => (t, Returns (ErrorNoData ticker_list period))
          | (t, Ok (first :: others)) =>
              (t, Returns (BatchScores (first :: others) (summary_of first others)))
          end
      end
  | Loaded _ => ([], Returns ErrorNotAList)
  end.

End Tools.

(** [str.upper] on the letters a to z; other characters stay. *)
Definition ascii_upper (c : ascii) : ascii :=
  let n := nat_of_ascii c in
  if ((97 <=? n) && (n <=? 122))%nat then ascii_of_nat (n - 32) else c.

Fixpoint upper_ascii (s : string) : string :=
  match s with
  | EmptyString => EmptyString
  | String c rest => String (ascii_upper c) (upper_ascii rest)
  end.

(** A reader that does the same with every text. *)
Definition constant_loads (j : loads_outcome) : string -> loads_outcome := fun _ => j.

(** A plain left-to-right sum. *)
Definition plain_sum (l : list float) : float := fold_left PrimFloat.add l 0.

Lemma leb_refl_not_nan (x : float) : (x =? x) = true -> (x <=? x) = true.
Proof.
  rewrite eqb_spec, leb_spec. unfold SFeqb, SFleb.
  destruct (SFcompare (Prim2SF x) (Prim2SF x)) as [[]|]; congruence.
Qed.

Lemma leb_antisym_eqb (a b : float) :
  (a <=? b) = true -> (b <=? a) = true -> (a =? b) = true.
Proof.
  rewrite eqb_spec, !leb_spec. unfold SFeqb, SFleb.
  rewrite (SFcompare_antisym (Prim2SF a) (Prim2SF b)).
  destruct (SFcompare (Prim2SF a) (Prim2SF b)) as [[]|]; simpl; congruence.
Qed.

(** [max] over values none of which exceeds the first is the first. *)
Lemma max_of_first (first : float) (others : list float) :
  Forall (fun x => (x <=? first) = true) others ->
  max_of first others = first.
Proof.
  unfold max_of. induction others as [|x rest IH]; intros H; [reflexivity |].
  inversion H as [|? ? Hx Hrest]; subst. simpl.
  assert (Hstep : py_max first x = first)
    by (unfold py_max; rewrite (leb_not_ltb _ _ Hx); reflexivity).
  rewrite Hstep. apply IH. exact Hrest.
Qed.

(** [min] over values that are not NaN is one of them and is below all. *)
Lemma min_of_spec (others : list float) :
  forall first : float,
    (first =? first) = true ->
    Forall (fun x => (x =? x) = true) others ->
    (min_of first others <=? first) = true
    /\ Forall (fun x => (min_of first others <=? x) = true) others
    /\ (min_of first others = first \/ In (min_of first others) others).
Proof.
  unfold min_of. induction others as [|x rest IH]; intros first Hf Ho; simpl.
  - split; [apply leb_refl_not_nan; exact Hf |]. split; [constructor | left; reflexivity].
  - inversion Ho as [|? ? Hx Hrest]; subst.
    assert (Hstep : py_min first x = if x <? first then x else first) by reflexivity.
    rewrite Hstep. clear Hstep. destruct (x <? first) eqn:E.
    + destruct (IH x Hx Hrest) as (H1 & H2 & H3).
      split; [eapply leb_trans; [exact H1 | apply ltb_leb; exact E] |].
      split; [constructor; assumption |].
      right. destruct H3 as [-> | H3]; [left; reflexivity | right; exact H3].
    + destruct (IH first Hf Hrest) as (H1 & H2 & H3).
      split; [exact H1 |].
      split; [| destruct H3 as [H3 | H3]; [left; exact H3 | right; right; exact H3]].
      constructor; [| exact H2].
      eapply leb_trans; [exact H1 |]. apply not_ltb_leb; assumption.
Qed.

(** The ranking that batch scoring returns: in decreasing order, every
    score a number between 0 and 100. *)
Lemma batch_ranking_sorted (lib : NumLib) (world : World)
      (fixed_end_date : option string) (tickers : list string) (period : string) :
  let results := sort_reverse normalized_trend_score
                   (survivors lib world fixed_end_date tickers period) in
  StronglySorted (key_desc normalized_trend_score) results
  /\ Forall (fun r => (0 <=? normalized_trend_score r) = true
                      /\ (normalized_trend_score r <=? 100) = true) results.
Proof.
  intros results. subst results.
  assert (Hb : Forall (fun r => (0 <=? normalized_trend_score r) = true
                                /\ (normalized_trend_score r <=? 100) = true)
                      (survivors lib world fixed_end_date tickers period)).
  { eapply Forall_impl; [| apply survivors_scored].
    intros r (df & tk & Hs).
    destruct (scored_from_in_range lib df tk r Hs) as (_ & H0 & H100). auto. }
  split.
  - apply sort_reverse_strongly_sorted.
    eapply Forall_impl; [| exact Hb]. intros r [H0 _]. eapply leb_not_nan_r. exact H0.
  - eapply Permutation_Forall; [| exact Hb].
    symmetry. apply sort_reverse_perm.
Qed.

Lemma upper_all_strings (upper : string -> string) (names : list string) :
  upper_all upper (map JString names) = Some (map upper names).
Proof.
  induction names as [|n rest IH]; simpl; [reflexivity | now rewrite IH].
Qed.

Lemma upper_all_not_string (upper : string -> string) (items : list json) :
  (exists j, In j items /\ forall s, j <> JString s) ->
  upper_all upper items = None.
Proof.
  induction items as [|i rest IH]; intros (j & Hin & Hj); [destruct Hin |].
  destruct Hin as [-> | Hin].
  - destruct j; try reflexivity. exfalso. exact (Hj s eq_refl).
  - simpl. rewrite IH by eauto. destruct i; reflexivity.
Qed.

Lemma last_in_nonempty {A : Type} (a : A) (l : list A) (d : A) :
  In (last (a :: l) d) (a :: l).
Proof.
  revert a. induction l as [|b l IH]; intros a; [left; reflexivity |].
  change (last (a :: b :: l) d) with (last (b :: l) d). right. apply IH.
Qed.

Lemma strongly_sorted_last {A : Type} (R : A -> A -> Prop) (l : list A) (d : A) :
  StronglySorted R l ->
  forall x, In x l -> x = last l d \/ R x (last l d).
Proof.
  induction 1 as [|a l Hs IH Hall]; intros x Hin; [destruct Hin |].
  destruct l as [|b rest].
  - destruct Hin as [<- | []]. left. reflexivity.
  - change (last (a :: b :: rest) d) with (last (b :: rest) d).
    destruct Hin as [<- | Hin]; [| apply IH; exact Hin].
    right. rewrite Forall_forall in Hall. apply Hall.
    clear. generalize b. induction rest as [|c rest IH]; intros b'; [left; reflexivity |].
    change (last (b' :: c :: rest) d) with (last (c :: rest) d).
    right. apply IH.
Qed.

(** X: the single-score tool scores the uppercased ticker and sends that
    scoring's requests and no other.  It answers with the error payload
    exactly when the scoring returned nothing, and with the result
    scored, under the uppercased ticker, when there is one.  It lets an
    exception through exactly when the scoring raises, which happens
    only on a fetched frame of 50 rows or more: the exception is the MA
    scorer's, or ValueError for a last row whose date is NaT. *)
Theorem single_tool_mirrors_scoring :
  forall (lib : NumLib) (world : World) (upper : string -> string)
         (tk period : string) (fixed_end_date : option string),
    let fetched := get_stock_data world fixed_end_date (upper tk) period in
    let scoring := calculate_trend_score lib world fixed_end_date (upper tk) period in
    let answer := calculate_single_trend_score lib world upper tk period fixed_end_date in
    fst answer = trace_of fetched
    /\ ((outcome scoring = Ok None
         /\ snd answer = Returns (SingleError tk (upper tk) period))
        \/ (exists r,
              outcome scoring = Ok (Some r)
              /\ snd answer = Returns (SingleScore r)
              /\ ticker r = upper tk)
        \/ (exists e df,
              outcome scoring = Raise e
              /\ snd answer = Throws (ScorerError e)
              /\ outcome fetched = Ok (Some df)
              /\ (50 <= len df)%Z
              /\ (calculate_ma_score lib df 20 50 = Raise e
                  \/ (iloc (df_index df) (-1) = Ok NaT /\ e = ValueError)))).
Proof.
  intros lib world upper tk period fixed fetched scoring answer.
  subst fetched scoring answer.
  unfold calculate_single_trend_score.
  rewrite calculate_trend_score_spec.
  destruct (get_stock_data_outcome world fixed (upper tk) period) as ([df|] & Hg);
    unfold outcome in *; cbn [snd]; rewrite Hg.
  - destruct (Z.ltb_spec (len df) 50) as [Hlt | Hge].
    + rewrite (score_frame_short lib df (upper tk) Hlt).
      split; [reflexivity |]. left. split; reflexivity.
    + destruct (score_frame_long lib df (upper tk) Hge)
        as [(e & Hma & E) | [(ma & Hma & Hnat & E) | (r & E & Hs)]]; rewrite E.
      * split; [reflexivity |]. right. right. exists e, df.
        repeat split; try reflexivity; try assumption. left. exact Hma.
      * split; [reflexivity |]. right. right. exists ValueError, df.
        repeat split; try reflexivity; try assumption. right. split; [exact Hnat | reflexivity].
      * split; [reflexivity |]. right. left. exists r.
        split; [reflexivity |]. split; [reflexivity |].
        apply (scored_from_ticker lib df (upper tk) r Hs).
  - split; [reflexivity |]. left. split; reflexivity.
Qed.

(** The single-score tool on a ticker given in lower case: with 50 bars,
    with 49, and with 50 bars of which the last has no date. *)
Example single_tool_run :
  calculate_single_trend_score failing_lib (mock_world (fun _ => flat_bars 50 100))
    upper_ascii "brk-b" "6mo" (Some "2024-06-28"%string)
  = ([HttpGetRange "BRK.B" 19813 19999],
     Returns (SingleScore (build_result "BRK-B" "day-49" 0 0 0 0 0)))
  /\ calculate_single_trend_score failing_lib (mock_world (fun _ => flat_bars 49 100))
       upper_ascii "brk-b" "6mo" (Some "2024-06-28"%string)
     = ([HttpGetRange "BRK.B" 19813 19999], Returns (SingleError "brk-b" "BRK-B" "6mo"))
  /\ calculate_single_trend_score failing_lib
       (mock_world (fun _ => bars_with_null_last_t 50 100))
       upper_ascii "brk-b" "6mo" (Some "2024-06-28"%string)
     = ([HttpGetRange "BRK.B" 19813 19999], Throws (ScorerError ValueError)).
Proof. repeat split; reflexivity. Qed.

(** X: what the batch tool does with input it cannot score, always
    before any request: text that [json.loads] refuses as not JSON gives
    the invalid-JSON error, any other exception of [json.loads] goes
    through, JSON that is not a list gives the not-a-list error, an
    empty list the no-data error, and a list with an item that is not a
    string lets [AttributeError] through. *)
Theorem batch_tool_on_bad_input :
  forall (lib : NumLib) (world : World) (upper : string -> string)
         (json_loads : string -> loads_outcome) (py_sum : list float -> float)
         (tickers period : string) (fixed_end_date : option string),
    let answer :=
      calculate_batch_trend_scores lib world upper json_loads py_sum
        tickers period fixed_end_date in
    (json_loads tickers = JSONDecodeError -> answer = ([], Returns ErrorInvalidJson))
    /\ (forall name, json_loads tickers = OtherLoadsError name ->
          answer = ([], Throws (LoadsError name)))
    /\ (forall j, json_loads tickers = Loaded j -> (forall items, j <> JArray items) ->
          answer = ([], Returns ErrorNotAList))
    /\ (json_loads tickers = Loaded (JArray []) ->
          answer = ([], Returns (ErrorNoData [] period)))
    /\ (forall items, json_loads tickers = Loaded (JArray items) ->
          (exists j, In j items /\ forall s, j <> JString s) ->
          answer = ([], Throws AttributeError)).
Proof.
  intros lib world upper json_loads py_sum tickers period fixed answer. subst answer.
  unfold calculate_batch_trend_scores.
  split; [intros ->; reflexivity |].
  split; [intros name ->; reflexivity |].
  split; [intros j -> Hj; destruct j; try reflexivity; exfalso; exact (Hj items eq_refl) |].
  split; [intros ->; reflexivity |].
  intros items -> Hbad. rewrite (upper_all_not_string upper items Hbad). reflexivity.
Qed.

(** The batch tool on a number, on a list holding a number, on text that
    does not parse, and on text nested too deep to be read. *)
Example batch_tool_bad_input_runs :
  let tool := fun j =>
                calculate_batch_trend_scores failing_lib
                  (mock_world (fun _ => flat_bars 50 100)) upper_ascii
                  (constant_loads j) plain_sum "..." "6mo" None in
  tool (Loaded (JNumber "7")) = ([], Returns ErrorNotAList)
  /\ tool (Loaded (JArray [JString "aapl"; JNumber "7"])) = ([], Throws AttributeError)
  /\ tool JSONDecodeError = ([], Returns ErrorInvalidJson)
  /\ tool (OtherLoadsError "RecursionError")
     = ([], Throws (LoadsError "RecursionError")).
Proof. repeat split; reflexivity. Qed.

(** X: on a JSON list of strings the batch tool scores the uppercased
    tickers and sends that batch's requests.  When the batch raises, the
    tool lets its exception through.  When the batch returns no result
    the tool answers with the no-data error.  Otherwise its summary
    counts the results (at most one per ticker), its highest score is
    the score of the first result, its lowest score equals the score of
    the last result, every result's score lies between the two, and both
    lie in [0, 100]. *)
Theorem batch_tool_summary :
  forall (lib : NumLib) (world : World) (upper : string -> string)
         (json_loads : string -> loads_outcome) (py_sum : list float -> float)
         (tickers period : string) (fixed_end_date : option string)
         (names : list string),
    json_loads tickers = Loaded (JArray (map JString names)) ->
    let ticker_list := map upper names in
    let batch := calculate_batch_scores lib world fixed_end_date ticker_list period in
    let answer :=
      calculate_batch_trend_scores lib world upper json_loads py_sum
        tickers period fixed_end_date in
    fst answer = trace_of batch
    /\ ((exists e, outcome batch = Raise e /\ snd answer = Throws (ScorerError e))
        \/ (outcome batch = Ok []
            /\ snd answer = Returns (ErrorNoData ticker_list period))
        \/ exists first others summary,
            outcome batch = Ok (first :: others)
            /\ snd answer = Returns (BatchScores (first :: others) summary)
            /\ total_processed summary = Z.of_nat (List.length (first :: others))
            /\ (total_processed summary <= Z.of_nat (List.length names))%Z
            /\ highest_score summary = normalized_trend_score first
            /\ (lowest_score summary
                =? normalized_trend_score (last (first :: others) first)) = true
            /\ Forall (fun r =>
                         (lowest_score summary <=? normalized_trend_score r) = true
                         /\ (normalized_trend_score r <=? highest_score summary) = true)
                      (first :: others)
            /\ (0 <=? lowest_score summary) = true
            /\ (highest_score summary <=? 100) = true).
Proof.
  intros lib world upper json_loads py_sum tickers period fixed names Hjson
         ticker_list batch answer.
  subst answer batch. unfold calculate_batch_trend_scores.
  rewrite Hjson, upper_all_strings. fold ticker_list.
  rewrite calculate_batch_scores_spec. unfold outcome, trace_of. cbn [fst snd].
  destruct (first_raised lib world fixed ticker_list period) as [e|].
  { split; [reflexivity |]. left. exists e. split; reflexivity. }
  destruct (batch_ranking_sorted lib world fixed ticker_list period) as [Hsorted Hbounds].
  pose proof (sort_reverse_perm normalized_trend_score
                (survivors lib world fixed ticker_list period)) as Hperm.
  destruct (survivors_tickers lib world fixed period ticker_list) as [_ Hcount].
  rewrite <- (Permutation_length Hperm) in Hcount.
  destruct (sort_reverse normalized_trend_score
              (survivors lib world fixed ticker_list period)) as [|first others].
  - split; [reflexivity |]. right. left. split; reflexivity.
  - split; [reflexivity |]. right. right.
    exists first, others, (summary_of py_sum first others).
    split; [reflexivity |]. split; [reflexivity |]. split; [reflexivity |].
    split.
    { unfold summary_of, total_processed. subst ticker_list.
      rewrite length_map in Hcount. lia. }
    assert (Hnan : Forall (fun r => (normalized_trend_score r =? normalized_trend_score r)
                                    = true) (first :: others)).
    { eapply Forall_impl; [| exact Hbounds]. intros r [H0 _].
      eapply leb_not_nan_r. exact H0. }
    inversion Hsorted as [|? ? Hs' Hall]; subst.
    inversion Hnan as [|? ? Hf Ho]; subst.
    assert (Hmax : highest_score (summary_of py_sum first others)
                   = normalized_trend_score first).
    { unfold summary_of, highest_score. apply max_of_first.
      rewrite Forall_map. eapply Forall_impl; [| exact Hall]. intros r Hr. exact Hr. }
    destruct (min_of_spec (map normalized_trend_score others)
                (normalized_trend_score first) Hf) as (Hm1 & Hm2 & Hm3).
    { rewrite Forall_map. exact Ho. }
    assert (Hlow : lowest_score (summary_of py_sum first others)
                   = min_of (normalized_trend_score first)
                       (map normalized_trend_score others)) by reflexivity.
    rewrite Forall_map in Hm2.
    assert (Hbelow : Forall (fun r => (lowest_score (summary_of py_sum first others)
                                       <=? normalized_trend_score r) = true)
                            (first :: others)).
    { rewrite Hlow. constructor; assumption. }
    assert (Hmember : exists r, In r (first :: others)
                                /\ lowest_score (summary_of py_sum first others)
                                   = normalized_trend_score r).
    { rewrite Hlow. destruct Hm3 as [Hm3 | Hm3].
      - exists first. split; [left; reflexivity | exact Hm3].
      - apply in_map_iff in Hm3. destruct Hm3 as (r & Hr & Hin).
        exists r. split; [right; exact Hin | symmetry; exact Hr]. }
    split; [exact Hmax |].
    split.
    { apply leb_antisym_eqb.
      - rewrite Forall_forall in Hbelow. apply Hbelow. apply last_in_nonempty.
      - destruct Hmember as (r & Hin & ->).
        destruct (strongly_sorted_last _ _ first Hsorted r Hin) as [<- | Hr].
        + apply leb_refl_not_nan. rewrite Forall_forall in Hnan. apply Hnan. exact Hin.
        + exact Hr. }
    split.
    { rewrite Hmax. rewrite Forall_forall in Hbelow |- *. intros r Hr.
      split; [apply Hbelow; exact Hr |].
      destruct Hr as [<- | Hr]; [apply leb_refl_not_nan; exact Hf |].
      rewrite Forall_forall in Hall. apply Hall. exact Hr. }
    rewrite Hmax. rewrite Forall_forall in Hbounds.
    split; [| apply Hbounds; left; reflexivity].
    destruct Hmember as (r & Hin & ->). apply Hbounds. exact Hin.
Qed.

Lemma batch_tool_summary_witness :
  constant_loads (Loaded (JArray (map JString ["aaa"; "new"; "up"]%string))) "tickers"
  = Loaded (JArray (map JString ["aaa"; "new"; "up"]%string))
  /\ fst (calculate_batch_trend_scores failing_lib
            (mock_world (fun tk => if String.eqb tk "UP" then bars_of_closes tie_closes
                                   else if String.eqb tk "NEW" then flat_bars 10 100
                                   else flat_bars 50 100))
            upper_ascii
            (constant_loads (Loaded (JArray (map JString ["aaa"; "new"; "up"]%string))))
            plain_sum "tickers" "6mo" (Some "2024-06-28"%string))
     = [HttpGetRange "AAA" 19813 19999; HttpGetRange "NEW" 19813 19999;
        HttpGetRange "UP" 19813 19999].
Proof.
  split; [reflexivity |].
  rewrite (proj1 (batch_tool_summary failing_lib
                    (mock_world (fun tk => if String.eqb tk "UP"
                                           then bars_of_closes tie_closes
                                           else if String.eqb tk "NEW" then flat_bars 10 100
                                           else flat_bars 50 100))
                    upper_ascii
                    (constant_loads (Loaded (JArray (map JString ["aaa"; "new"; "up"]%string))))
                    plain_sum "tickers" "6mo" (Some "2024-06-28"%string)
                    ["aaa"; "new"; "up"]%string eq_refl)).
  reflexivity.
Defined.

(** The batch tool on three tickers, one without enough history; and on
    three tickers of which the second has a last row without date. *)
Example batch_tool_run :
  match snd (calculate_batch_trend_scores failing_lib
               (mock_world (fun tk => if String.eqb tk "UP" then bars_of_closes tie_closes
                                      else if String.eqb tk "NEW" then flat_bars 10 100
                                      else flat_bars 50 100))
               upper_ascii
               (constant_loads (Loaded (JArray (map JString ["aaa"; "new"; "up"]%string))))
               plain_sum "tickers" "6mo" None) with
  | Returns (BatchScores results summary) =>
      map ticker results = ["UP"; "AAA"]%string
      /\ total_processed summary = 2%Z
      /\ highest_score summary = 55.56
      /\ lowest_score summary = 50
  | _ => False
  end
  /\ calculate_batch_trend_scores failing_lib
       (mock_world (fun tk => if String.eqb tk "BAD" then bars_with_null_last_t 50 100
                              else flat_bars 50 100))
       upper_ascii
       (constant_loads (Loaded (JArray (map JString ["aaa"; "bad"; "bbb"]%string))))
       plain_sum "tickers" "6mo" (Some "2024-06-28"%string)
     = ([HttpGetRange "AAA" 19813 19999; HttpGetRange "BAD" 19813 19999],
        Throws (ScorerError ValueError)).
Proof. split; [vm_compute; repeat split; reflexivity | reflexivity]. Qed.

(* ===================================================================== *)
(** * The reading of a score (run_trend_test.py) *)
(* ===================================================================== *)

(** The six readings that the test run prints for a normalized score. *)
Inductive trend_reading : Type :=
| StrongBullish
| MediumBullish
| SlightBullish
| SlightBearish
| MediumBearish
| StrongBearish.

(** The ladder of [test_trend_scorer_with_env]: [score >= 90], [>= 70],
    [>= 50], [>= 30], [>= 10], else. *)
Definition trend_reading_of (score : float) : trend_reading :=
  if 90 <=? score then StrongBullish
  else if 70 <=? score then MediumBullish
  else if 50 <=? score then SlightBullish
  else if 30 <=? score then SlightBearish
  else if 10 <=? score then MediumBearish
  else StrongBearish.

(** X: the reading of a result by the sum of its in-range scores: strong
    bullish from +8, medium bullish from +4 to +7, slight bullish from 0
    to +3, slight bearish from -3 to -1, medium bearish from -7 to -4,
    strong bearish up to -8.  The ladder is not symmetric: a sum of 0
    (score 50) reads slight bullish, and -4 reads medium bearish where +4
    reads medium bullish. *)
Theorem reading_by_score_sum :
  forall (tk date : string) (ma macd adx rsi obv : Z),
    scores_in_range ma macd adx rsi obv ->
    let s := (ma + macd + adx + rsi + obv)%Z in
    let reading :=
      trend_reading_of (normalized_trend_score (build_result tk date ma macd adx rsi obv)) in
    (reading = StrongBullish <-> (8 <= s)%Z)
    /\ (reading = MediumBullish <-> (4 <= s <= 7)%Z)
    /\ (reading = SlightBullish <-> (0 <= s <= 3)%Z)
    /\ (reading = SlightBearish <-> (-3 <= s <= -1)%Z)
    /\ (reading = MediumBearish <-> (-7 <= s <= -4)%Z)
    /\ (reading = StrongBearish <-> (s <= -8)%Z).
Proof.
  intros tk date ma macd adx rsi obv H s reading. subst s reading.
  destruct (build_result_of_sum tk date ma macd adx rsi obv) as [-> _].
  apply (for_each_sum
           (fun s =>
              let reading := trend_reading_of (normalized_of_sum s) in
              (reading = StrongBullish <-> (8 <= s)%Z)
              /\ (reading = MediumBullish <-> (4 <= s <= 7)%Z)
              /\ (reading = SlightBullish <-> (0 <= s <= 3)%Z)
              /\ (reading = SlightBearish <-> (-3 <= s <= -1)%Z)
              /\ (reading = MediumBearish <-> (-7 <= s <= -4)%Z)
              /\ (reading = StrongBearish <-> (s <= -8)%Z)));
    [| exact H].
  unfold all_sums.
  repeat (apply Forall_cons; [| try apply Forall_nil]);
    match goal with
    | |- context [trend_reading_of ?x] =>
        let v := eval vm_compute in (trend_reading_of x) in
        change (trend_reading_of x) with v
    end;
    cbv zeta;
    repeat match goal with
           | |- _ /\ _ => split
           | |- _ <-> _ => split; intros
           end;
    try reflexivity; try lia; try discriminate.
Qed.

Lemma reading_by_score_sum_witness :
  scores_in_range 0 0 0 0 0
  /\ trend_reading_of (normalized_trend_score (build_result "SPY" "2024-01-02" 0 0 0 0 0))
     = SlightBullish.
Proof.
  assert (H : scores_in_range 0 0 0 0 0) by (unfold scores_in_range; lia).
  split; [exact H |].
  destruct (reading_by_score_sum "SPY" "2024-01-02" 0 0 0 0 0 H)
    as (_ & _ & Hs & _).
  apply Hs. lia.
Defined.

(* ===================================================================== *)
(** * The declared score ranges *)
(* ===================================================================== *)

(** [self.score_ranges]. *)
Definition score_ranges : list (string * (Z * Z)) :=
  [ ("MA", (-3, 3)); ("MACD", (-2, 2)); ("ADX", (-2, 2));
    ("RSI", (-1, 1)); ("OBV", (-1, 1)) ]%string%Z.

(** [self.score_ranges[name]]; the empty range for another name. *)
Fixpoint range_of (name : string) (ranges : list (string * (Z * Z))) : Z * Z :=
  match ranges with
  | [] => (1, 0)%Z
  | (n, r) :: rest => if String.eqb n name then r else range_of name rest
  end.

(** The values of a ladder are exactly those of a range. *)
Definition fills (range : Z * Z) (reached : Z -> Prop) : Prop :=
  forall v : Z, (fst range <= v <= snd range)%Z <-> reached v.

(** X: the declared score ranges are exact.  Each scoring ladder returns
    only values of the range declared under its name in [score_ranges],
    and returns every one of them for some latest values; the five upper
    bounds add up to 9 and the lower ones to -9, the sums at which the
    normalized score reaches 100 and 0. *)
Theorem score_ranges_are_exact :
  fills (range_of "MA" score_ranges) (fun v => exists p s l, ma_ladder p s l = v)
  /\ fills (range_of "MACD" score_ranges) (fun v => exists m s p, macd_ladder m s p = v)
  /\ fills (range_of "ADX" score_ranges) (fun v => exists a p m, adx_ladder a p m = v)
  /\ fills (range_of "RSI" score_ranges) (fun v => exists r, rsi_ladder r = v)
  /\ fills (range_of "OBV" score_ranges) (fun v => exists t, obv_ladder t = v)
  /\ fold_right (fun nr acc => (snd (snd nr) + acc)%Z) 0%Z score_ranges = 9%Z
  /\ fold_right (fun nr acc => (fst (snd nr) + acc)%Z) 0%Z score_ranges = (-9)%Z.
Proof.
  unfold fills. simpl.
  split; [| split; [| split; [| split; [| split; [| split; reflexivity]]]]];
    intros v; split.
  - intros Hv.
    assert (Hc : (v = -3 \/ v = -2 \/ v = -1 \/ v = 0 \/ v = 1 \/ v = 2 \/ v = 3)%Z) by lia.
    destruct Hc as [-> | [-> | [-> | [-> | [-> | [-> | ->]]]]]].
    + exists 90, 94, 100. reflexivity.
    + exists 90, 97, 100. reflexivity.
    + exists 99, 100, 100. reflexivity.
    + exists 100, 100, 100. reflexivity.
    + exists 110, 101, 100. reflexivity.
    + exists 110, 103, 100. reflexivity.
    + exists 110, 106, 100. reflexivity.
  - intros (p & s & l & <-). apply ma_ladder_range.
  - intros Hv.
    assert (Hc : (v = -2 \/ v = -1 \/ v = 0 \/ v = 1 \/ v = 2)%Z) by lia.
    destruct Hc as [-> | [-> | [-> | [-> | ->]]]].
    + exists (-1), 0, 0. reflexivity.
    + exists (-1), 0, (-2). reflexivity.
    + exists 0, 0, 0. reflexivity.
    + exists 1, 0, 2. reflexivity.
    + exists 1, 0, 0. reflexivity.
  - intros (m & s & p & <-). apply macd_ladder_range.
  - intros Hv.
    assert (Hc : (v = -2 \/ v = -1 \/ v = 0 \/ v = 1 \/ v = 2)%Z) by lia.
    destruct Hc as [-> | [-> | [-> | [-> | ->]]]].
    + exists 35, 10, 20. reflexivity.
    + exists 25, 10, 20. reflexivity.
    + exists 15, 10, 20. reflexivity.
    + exists 25, 20, 10. reflexivity.
    + exists 35, 20, 10. reflexivity.
  - intros (a & p & m & <-). apply adx_ladder_range.
  - intros Hv.
    assert (Hc : (v = -1 \/ v = 0 \/ v = 1)%Z) by lia.
    destruct Hc as [-> | [-> | ->]].
    + exists 75. reflexivity.
    + exists 50. reflexivity.
    + exists 65. reflexivity.
  - intros (r & <-). apply rsi_ladder_range.
  - intros Hv.
    assert (Hc : (v = -1 \/ v = 0 \/ v = 1)%Z) by lia.
    destruct Hc as [-> | [-> | ->]].
    + exists (-1). reflexivity.
    + exists 0. reflexivity.
    + exists 1. reflexivity.
  - intros (t & <-). apply obv_ladder_range.
Qed.
